(** * task_set/tasks/utils.py: sampling and materialising task configurations

    A shallow embedding of [task_set.tasks.utils] and the properties of its
    sample/get pairs.

    Conventions of the embedding.
    - Python exceptions are values of [exn]; a computation that may raise
      returns a [Result].
    - A finite Python [float] is a rational ([Q]): comparisons, sign and
      truthiness of finite binary64 values are exactly those of the rational
      they denote.  Sums, products and quotients of floats are the exact
      ones, without the rounding of binary64: a statement that rounding
      could break carries a bound on its arguments or a margin.  The
      conversion of an int to a float rounds as binary64 does.  [np.log] and
      [np.exp] are transcendental and are taken as parameters of the
      development.
    - A Python [dict] is an insertion-ordered association list with
      [dict_set] overwriting in place, as CPython does.
    - The NumPy random source is a sequence of draws from the unit interval
      with a cursor; every [rng.*] call consumes one draw.  [rng.uniform]
      and [rng.choice] with probabilities use the draw as NumPy does;
      [rng.choice] without probabilities has NumPy's distribution over the
      positions, not its way of drawing one (NumPy takes the position from
      raw words of the generator). *)

From Stdlib Require Import List String Ascii ZArith QArith Qround Qabs Bool Lia Lqa
  DecimalString Permutation Sorted.
Import ListNotations.

Open Scope string_scope.
Open Scope Z_scope.

(** ** Exceptions and results *)

Inductive exn : Type :=
| ValueError (msg : string)
| KeyError (key : string)
| TypeError (msg : string)
| IndexError (msg : string)
| OverflowError (msg : string).

Inductive Result (A : Type) : Type :=
| Ok (a : A)
| Raise (e : exn).

Arguments Ok {A} a.
Arguments Raise {A} e.

Definition bindR {A B : Type} (m : Result A) (k : A -> Result B) : Result B :=
  match m with
  | Ok a => k a
  | Raise e => Raise e
  end.

Declare Scope result_scope.
Delimit Scope result_scope with result.
Notation "x <- m ;; k" := (bindR m (fun x => k))
  (at level 61, m at next level, right associativity) : result_scope.
Notation "' p <- m ;; k" := (bindR m (fun x => let p := x in k))
  (at level 61, p pattern, m at next level, right associativity) : result_scope.

(** ** Python values *)

#[local] Set Warnings "-register-all".

Inductive pyval : Type :=
| PNone
| PBool (b : bool)
| PInt (z : Z)
| PFloat (q : Q)
| PStr (s : string)
| PTuple (l : list pyval)
| PList (l : list pyval)
| PDict (d : list (string * pyval)).

(** Truth value testing ([if x:]). *)
Definition truthy (v : pyval) : bool :=
  match v with
  | PNone => false
  | PBool b => b
  | PInt z => negb (z =? 0)
  | PFloat q => negb (Qeq_bool q 0)
  | PStr s => match s with EmptyString => false | _ => true end
  | PTuple l | PList l => match l with [] => false | _ => true end
  | PDict d => match d with [] => false | _ => true end
  end.

(** ** Dictionaries *)

Definition dict (V : Type) : Type := list (string * V).

Fixpoint dict_get {V : Type} (k : string) (d : dict V) : option V :=
  match d with
  | [] => None
  | (k', v) :: d' => if String.eqb k k' then Some v else dict_get k d'
  end.

(** [d[k] = v]: an existing key keeps its position. *)
Fixpoint dict_set {V : Type} (k : string) (v : V) (d : dict V) : dict V :=
  match d with
  | [] => [(k, v)]
  | (k', v') :: d' =>
      if String.eqb k k' then (k, v) :: d' else (k', v') :: dict_set k v d'
  end.

Definition dict_keys {V : Type} (d : dict V) : list string := map fst d.

Definition dict_mem {V : Type} (k : string) (d : dict V) : bool :=
  match dict_get k d with Some _ => true | None => false end.

(** [d[k]], raising [KeyError]. *)
Definition dict_item {V : Type} (k : string) (d : dict V) : Result V :=
  match dict_get k d with
  | Some v => Ok v
  | None => Raise (KeyError k)
  end.

(** A dict literal [{k1: v1, ...}]: later duplicates overwrite. *)
Definition dict_of {V : Type} (kvs : list (string * V)) : dict V :=
  fold_left (fun d kv => dict_set (fst kv) (snd kv) d) kvs [].

(** ** [sorted] on strings and on items keyed by strings *)

Fixpoint insert_by_key {V : Type} (kv : string * V) (l : list (string * V))
  : list (string * V) :=
  match l with
  | [] => [kv]
  | kv' :: l' =>
      if String.leb (fst kv) (fst kv') then kv :: l
      else kv' :: insert_by_key kv l'
  end.

(** [sorted(items, key=lambda x: x[0])]; stable. *)
Definition sorted_items {V : Type} (l : list (string * V)) : list (string * V) :=
  fold_right insert_by_key [] l.

Definition sorted (l : list string) : list string :=
  map fst (sorted_items (map (fun s => (s, tt)) l)).

(** ** The random source

    [draws] is the sequence of raw draws, [pos] the cursor.  The fractional
    part of a raw draw is the value in the unit interval that the next
    [rng.*] call consumes, so every state is a legal source. *)

Record RandomState : Type := mkRandomState {
  draws : nat -> Q;
  pos : nat
}.

Definition frac (q : Q) : Q := q - inject_Z (Qfloor q).

Definition peek (rng : RandomState) : Q := frac (draws rng (pos rng)).

Definition advance (rng : RandomState) : RandomState :=
  {| draws := draws rng; pos := S (pos rng) |}.

(** Computations that read the random source and may raise. *)
Definition Sampler (A : Type) : Type := RandomState -> Result (A * RandomState).

Definition ret {A : Type} (a : A) : Sampler A := fun rng => Ok (a, rng).

Definition bindS {A B : Type} (m : Sampler A) (k : A -> Sampler B) : Sampler B :=
  fun rng =>
    match m rng with
    | Ok (a, rng') => k a rng'
    | Raise e => Raise e
    end.

Definition raise {A : Type} (e : exn) : Sampler A := fun _ => Raise e.

Definition lift {A : Type} (r : Result A) : Sampler A :=
  fun rng => match r with Ok a => Ok (a, rng) | Raise e => Raise e end.

Declare Scope sampler_scope.
Delimit Scope sampler_scope with sampler.
Notation "x <~ m ;; k" := (bindS m (fun x => k))
  (at level 61, m at next level, right associativity) : sampler_scope.

Definition Qltb (x y : Q) : bool := negb (Qle_bool y x).

(** [rng.uniform(low, high)]: [low + (high - low) * random_sample()]. *)
Definition uniform (low high : Q) : Sampler Q :=
  fun rng => Ok (low + (high - low) * peek rng, advance rng)%Q.

(** [rng.choice(a)] on a sequence: a uniformly drawn position.  The
    position is that of the draw among [len(a)] equal parts of the unit
    interval; NumPy draws it with [randint], so only the distribution over
    the positions is that of the program. *)
Definition choice {A : Type} (a : list A) : Sampler A :=
  fun rng =>
    match a with
    | [] => Raise (ValueError "'a' cannot be empty unless no samples are taken")
    | x :: _ =>
        let i := Z.to_nat (Qfloor (peek rng * inject_Z (Z.of_nat (List.length a)))) in
        Ok (nth i a x, advance rng)
    end.

Definition Qsum (l : list Q) : Q := fold_right Qplus 0%Q l.

(** Position of the draw [u] in the cumulative distribution of [p]
    ([cdf.searchsorted(u, side='right')]). *)
Fixpoint searchsorted (acc : Q) (p : list Q) (u : Q) : nat :=
  match p with
  | [] => O
  | w :: p' => if Qle_bool (acc + w) u then S (searchsorted (acc + w) p' u) else O
  end.

(** [rng.choice(a, p=p)]. *)
Definition choice_p {A : Type} (a : list A) (p : list Q) : Sampler A :=
  fun rng =>
    match a with
    | [] => Raise (ValueError "'a' cannot be empty unless no samples are taken")
    | x :: _ =>
        if negb (Nat.eqb (List.length a) (List.length p)) then
          Raise (ValueError "'a' and 'p' must have same size")
        else if existsb (fun w => Qltb w 0) p then
          Raise (ValueError "probabilities are not non-negative")
        else if negb (Qeq_bool (Qsum p) 1) then
          Raise (ValueError "probabilities do not sum to 1")
        else Ok (nth (searchsorted 0 p (peek rng)) a x, advance rng)
    end.

(** The integer nearest to [x], ties to even. *)
Definition round_Z (x : Q) : Z :=
  let f := Qfloor x in
  match (x - inject_Z f ?= 1 # 2)%Q with
  | Lt => f
  | Gt => f + 1
  | Eq => if Z.even f then f else f + 1
  end.

(** [np.round]: that integer, as a float. *)
Definition np_round (x : Q) : Q := inject_Z (round_Z x).

(** [int(x)] on a float: truncation towards zero. *)
Definition int (x : Q) : Z := if Qle_bool 0 x then Qfloor x else Qceiling x.

(** The integer nearest to [n] among those a binary64 value can hold: 53
    significant bits, ties to the even significand. *)
Definition nearest_binary64 (n : Z) : Z :=
  let a := Z.abs n in
  let e := Z.log2 a - 52 in
  if e <=? 0 then n
  else
    let q := Z.shiftr a e in
    let r := a - Z.shiftl q e in
    let q' := match r ?= Z.shiftl 1 (e - 1) with
              | Lt => q
              | Gt => q + 1
              | Eq => if Z.even q then q else q + 1
              end in
    Z.sgn n * Z.shiftl q' e.

(** [float(n)] on an int: the nearest binary64 value; an int that rounds to
    [2^1024] or beyond has none. *)
Definition float (n : Z) : Result Q :=
  let m := nearest_binary64 n in
  if 2 ^ 1024 <=? Z.abs m then
    Raise (OverflowError "int too large to convert to float")
  else Ok (inject_Z m).

Section Samplers.

(** [np.log] and [np.exp] on finite floats. *)
Variable np_log : Q -> Q.
Variable np_exp : Q -> Q.

Local Open Scope sampler_scope.

(** ** Scalar samplers *)

Definition sample_log_int (low high : Z) : Sampler Z :=
  low <~ lift (float low) ;;
  high <~ lift (float high) ;;
  sample <~ uniform (np_log low) (np_log high) ;;
  ret (int (np_round (np_exp sample))).

Definition sample_linear_int (low high : Z) : Sampler Z :=
  low <~ lift (float low) ;;
  high <~ lift (float high) ;;
  sample <~ uniform low high ;;
  ret (int (np_round sample)).

Definition sample_log_float (low high : Q) : Sampler Q :=
  sample <~ uniform (np_log low) (np_log high) ;;
  ret (np_exp sample).

Definition sample_bool (p : Q) : Sampler bool :=
  if negb (Qle_bool 0 p && Qle_bool p 1) then
    raise (ValueError "p must be between 0 and 1.")
  else
    u <~ uniform 0 1 ;;
    ret (Qltb u p).

(** ** Activations *)

(** The TensorFlow activation functions the catalogue refers to. *)
Inductive activation_fn : Type :=
| tf_nn_relu
| tf_tanh
| tf_cos
| tf_nn_elu
| tf_nn_sigmoid
| swish                          (* lambda x: x * tf.nn.sigmoid(x) *)
| tf_nn_leaky_relu (alpha : Q).  (* lambda x: tf.nn.leaky_relu(x, alpha) *)

Definition _activation_fn_map : dict (Z * activation_fn) :=
  dict_of
    [ ("relu", (6, tf_nn_relu));
      ("tanh", (3, tf_tanh));
      ("cos", (1, tf_cos));
      ("elu", (1, tf_nn_elu));
      ("sigmoid", (1, tf_nn_sigmoid));
      ("swish", (1, swish));
      ("leaky_relu4", (1, tf_nn_leaky_relu (4 # 10)));
      ("leaky_relu2", (1, tf_nn_leaky_relu (2 # 10)));
      ("leaky_relu1", (1, tf_nn_leaky_relu (1 # 10))) ].

Definition Zsum (l : list Z) : Z := fold_right Z.add 0 l.

(** [weights / np.sum(weights)], the quotients being the exact ones.  The
    binary64 quotients, and the cumulative sums [rng.choice] makes of them,
    are these when the sum of the weights is a power of two, as the 16 of
    the activations is; for the 13 of the initializers they differ from
    these in their last bits. *)
Definition normalize (weights : list Z) : list Q :=
  map (fun w => inject_Z w / inject_Z (Zsum weights))%Q weights.

Definition sample_activation : Sampler string :=
  let items := sorted_items _activation_fn_map in
  let names := map fst items in
  let values := map snd items in
  let weights := map fst values in
  let probs := normalize weights in
  choice_p names probs.

Definition get_activation (name : string) : Result activation_fn :=
  match dict_item name _activation_fn_map with
  | Ok entry => Ok (snd entry)
  | Raise e => Raise e
  end.

(** ** Initializers *)

(** A call of a TensorFlow initializer constructor: the constructor, its
    positional and its keyword arguments. *)
Inductive tf_initializer : Type :=
| TfInitializer (ctor : string) (args : list Q) (kwargs : list (string * Q)).

(** A Python callable applied to positional arguments. *)
Definition callable : Type := list Q -> Result tf_initializer.

(** [tf.initializers.<name>]: every parameter has a default. *)
Definition tf_initializers (name : string) : callable :=
  fun args => Ok (TfInitializer name args []).

(** [tf.initializers.variance_scaling]: the constructor refuses a scale that
    is not positive. *)
Definition tf_variance_scaling : callable :=
  fun args =>
    match args with
    | scale :: _ =>
        if Qle_bool scale 0 then Raise (ValueError "`scale` must be positive float.")
        else Ok (TfInitializer "variance_scaling" args [])
    | [] => Ok (TfInitializer "variance_scaling" [] [])
    end.

(** [lambda s: body]: exactly one argument. *)
Definition lambda1 (body : Q -> tf_initializer) : callable :=
  fun args =>
    match args with
    | [s] => Ok (body s)
    | [] => Raise (TypeError "<lambda>() missing 1 required positional argument: 's'")
    | _ => Raise (TypeError "<lambda>() takes 1 positional argument but more were given")
    end.

Definition initializer_entry : Type := Z * option (Sampler Q) * callable.

Definition _initializer_name_map : dict initializer_entry :=
  dict_of
    [ ("he_normal", (2, None, tf_initializers "he_normal"));
      ("he_uniform", (2, None, tf_initializers "he_uniform"));
      ("glorot_normal", (2, None, tf_initializers "glorot_normal"));
      ("glorot_uniform", (2, None, tf_initializers "glorot_uniform"));
      ("orthogonal", (1, Some (sample_log_float (1 # 10) 10),
                      tf_initializers "orthogonal"));
      ("random_uniform", (1, Some (sample_log_float (1 # 10) 10),
                          lambda1 (fun s =>
                                     TfInitializer "random_uniform" [(- s)%Q; s] [])));
      ("random_normal", (1, Some (sample_log_float (1 # 10) 10),
                         lambda1 (fun s =>
                                    TfInitializer "random_normal" [] [("stddev", s)])));
      ("truncated_normal", (1, Some (sample_log_float (1 # 10) 10),
                            lambda1 (fun s =>
                                       TfInitializer "random_normal" [] [("stddev", s)])));
      ("variance_scaling", (1, Some (sample_log_float (1 # 10) 10),
                            tf_variance_scaling)) ].

(** [InitializerConfig = Tuple[Text, Optional[float]]]. *)
Definition InitializerConfig : Type := string * option Q.

Definition sample_initializer : Sampler InitializerConfig :=
  let items := sorted_items _initializer_name_map in
  let names := map fst items in
  let values := map snd items in
  let weights := map (fun v => fst (fst v)) values in
  let probs := normalize weights in
  name <~ choice_p names probs ;;
  entry <~ lift (dict_item name _initializer_name_map) ;;
  match snd (fst entry) with
  | Some sample_fn => s <~ sample_fn ;; ret (name, Some s)
  | None => ret (name, None)
  end.

(** The value of an [Optional[float]]. *)
Definition float_or_none (arg : option Q) : pyval :=
  match arg with Some q => PFloat q | None => PNone end.

(** Get an initializer from the given config: [make_fn(arg) if arg else
    make_fn()], the test being the truth value of [arg]. *)
Definition get_initializer (cfg : InitializerConfig) : Result tf_initializer :=
  let '(name, arg) := cfg in
  match dict_item name _initializer_name_map with
  | Raise e => Raise e
  | Ok (_, _, make_fn) =>
      match arg with
      | Some s => if truthy (PFloat s) then make_fn [s] else make_fn []
      | None => make_fn []
      end
  end.

(** ** Recurrent cores *)

(** An [InitializerConfig] as a Python value: the tuple [(name, arg)]. *)
Definition initializer_value (cfg : InitializerConfig) : pyval :=
  PTuple [PStr (fst cfg); float_or_none (snd cfg)].

(** The name of the type of a value, as error messages print it. *)
Definition type_name (v : pyval) : string :=
  match v with
  | PNone => "NoneType"
  | PBool _ => "bool"
  | PInt _ => "int"
  | PFloat _ => "float"
  | PStr _ => "str"
  | PTuple _ => "tuple"
  | PList _ => "list"
  | PDict _ => "dict"
  end.

(** The error of unpacking [n] values into two names, [n] not being 2. *)
Definition unpack_error (n : nat) : exn :=
  match n with
  | O => ValueError "not enough values to unpack (expected 2, got 0)"
  | S O => ValueError "not enough values to unpack (expected 2, got 1)"
  | _ => ValueError "too many values to unpack (expected 2)"
  end.

(** [name, arg = cfg] on a Python value.  A tuple or list of two elements
    is unpacked, and is a config when its elements have the declared type
    [Tuple[Text, Optional[float]]]; a sequence of another length and a value
    that cannot be iterated are refused.  A string of two characters is
    unpacked too, into a name of one character, which the catalogue does not
    have.  What TensorFlow makes of two elements of other types is not part
    of the embedding. *)
Definition as_initializer_config (v : pyval) : Result InitializerConfig :=
  match v with
  | PTuple l | PList l =>
      match l with
      | [PStr name; PNone] => Ok (name, None)
      | [PStr name; PFloat s] => Ok (name, Some s)
      | [PStr name; PInt z] => Ok (name, Some (inject_Z z))
      | [_; _] => Raise (TypeError "not an initializer config")
      | _ => Raise (unpack_error (List.length l))
      end
  | PStr s =>
      match s with
      | String c (String _ EmptyString) => Raise (KeyError (String c EmptyString))
      | _ => Raise (unpack_error (String.length s))
      end
  | PDict d =>
      match d with
      | [_; _] => Raise (TypeError "not an initializer config")
      | _ => Raise (unpack_error (List.length d))
      end
  | PNone | PBool _ | PInt _ | PFloat _ =>
      Raise (TypeError ("cannot unpack non-iterable " ++ type_name v ++ " object"))
  end.

(** [RNNCoreConfig = Tuple[Text, Dict[Text, Any]]]. *)
Definition RNNCoreConfig : Type := string * dict pyval.

(** [for x in xs: acc = body(x, acc)] reading the random source. *)
Fixpoint for_sampler {A S : Type} (xs : list A) (body : A -> S -> Sampler S) (acc : S)
  : Sampler S :=
  match xs with
  | [] => ret acc
  | x :: xs' => acc' <~ body x acc ;; for_sampler xs' body acc'
  end.

Definition gru_init_keys : list string := ["wh"; "wz"; "wr"; "uh"; "uz"; "ur"].

Definition sample_rnn_core : Sampler RNNCoreConfig :=
  core <~ choice ["vrnn"; "gru"; "lstm"] ;;
  linked <~ choice [true; true; true; true; false] ;;
  let args : dict pyval := [] in
  if String.eqb core "vrnn" then
    args <~ (if linked : bool then
               init <~ sample_initializer ;;
               let args := dict_set "hidden_to_hidden" (initializer_value init) args in
               ret (dict_set "in_to_hidden" (initializer_value init) args)
             else
               h <~ sample_initializer ;;
               let args := dict_set "hidden_to_hidden" (initializer_value h) args in
               i <~ sample_initializer ;;
               ret (dict_set "in_to_hidden" (initializer_value i) args)) ;;
    act_fn <~ sample_activation ;;
    let args := dict_set "act_fn" (PStr act_fn) args in
    core_dim <~ sample_log_int 32 128 ;;
    ret (core, dict_set "core_dim" (PInt core_dim) args)
  else if String.eqb core "gru" then
    core_dim <~ sample_log_int 32 128 ;;
    let args := dict_set "core_dim" (PInt core_dim) args in
    if linked : bool then
      init <~ sample_initializer ;;
      args <~ for_sampler gru_init_keys
                (fun init_key args => ret (dict_set init_key (initializer_value init) args))
                args ;;
      ret (core, args)
    else
      args <~ for_sampler gru_init_keys
                (fun init_key args =>
                   init <~ sample_initializer ;;
                   ret (dict_set init_key (initializer_value init) args))
                args ;;
      ret (core, args)
  else if String.eqb core "lstm" then
    w_gates <~ sample_initializer ;;
    let args := dict_set "w_gates" (initializer_value w_gates) args in
    core_dim <~ sample_log_int 32 128 ;;
    ret (core, dict_set "core_dim" (PInt core_dim) args)
  else ret (core, args).

(** The Sonnet cells, as constructor calls. *)
Inductive snt_module : Type :=
| snt_LSTM (hidden_size : pyval) (initializers : dict tf_initializer)
| snt_GRU (hidden_size : pyval) (initializers : dict tf_initializer)
| snt_VanillaRNN (hidden_size : pyval) (initializers : dict (dict tf_initializer))
    (activation : activation_fn).

(** [for x in xs: acc = body(x, acc)] where the body may raise. *)
Fixpoint for_result {A S : Type} (xs : list A) (body : A -> S -> Result S) (acc : S)
  : Result S :=
  match xs with
  | [] => Ok acc
  | x :: xs' => bindR (body x acc) (for_result xs' body)
  end.

Local Open Scope result_scope.

(** [get_initializer(args[key])]. *)
Definition get_initializer_at (key : string) (args : dict pyval) : Result tf_initializer :=
  v <- dict_item key args ;;
  cfg <- as_initializer_config v ;;
  get_initializer cfg.

Definition as_str (v : pyval) : Result string :=
  match v with
  | PStr s => Ok s
  | _ => Raise (KeyError "activation name")
  end.

Definition get_rnn_core (cfg : RNNCoreConfig) : Result snt_module :=
  let '(name, args) := cfg in
  if String.eqb name "lstm" then
    w_gates <- get_initializer_at "w_gates" args ;;
    let init := dict_of [("w_gates", w_gates)] in
    core_dim <- dict_item "core_dim" args ;;
    Ok (snt_LSTM core_dim init)
  else if String.eqb name "gru" then
    init <- for_result gru_init_keys
              (fun init_key init =>
                 i <- get_initializer_at init_key args ;;
                 Ok (dict_set init_key i init))
              [] ;;
    core_dim <- dict_item "core_dim" args ;;
    Ok (snt_GRU core_dim init)
  else if String.eqb name "vrnn" then
    in_to_hidden <- get_initializer_at "in_to_hidden" args ;;
    hidden_to_hidden <- get_initializer_at "hidden_to_hidden" args ;;
    let init := dict_of [("in_to_hidden", dict_of [("w", in_to_hidden)]);
                         ("hidden_to_hidden", dict_of [("w", hidden_to_hidden)])] in
    act_name <- dict_item "act_fn" args ;;
    act_name <- as_str act_name ;;
    act_fn <- get_activation act_name ;;
    core_dim <- dict_item "core_dim" args ;;
    Ok (snt_VanillaRNN core_dim init act_fn)
  else Raise (ValueError ("No core for name [" ++ name ++ "] found.")).

Local Close Scope result_scope.

(** ** Augmentation *)

(** [AugmentationConfig]: the eight fields of the sampled mapping. *)
Record AugmentationConfig : Type := mkAugmentationConfig {
  crop_amount : Z;
  flip_left_right : bool;
  flip_up_down : bool;
  do_color_aug : bool;
  brightness : Q;
  saturation : Q;
  hue : Q;
  contrast : Q
}.

Definition sample_augmentation : Sampler AugmentationConfig :=
  crop_amount <~ choice [0; 0; 0; 1; 2] ;;
  flip_left_right <~ choice [false; true] ;;
  flip_up_down <~ choice [false; true] ;;
  do_color_aug <~ choice [false; true] ;;
  brightness <~ sample_log_float (1 # 1000) (64 # 255) ;;
  saturation <~ sample_log_float (1 # 100) 1 ;;
  hue <~ sample_log_float (1 # 100) (1 # 2) ;;
  contrast <~ sample_log_float (1 # 100) 1 ;;
  ret {| crop_amount := crop_amount;
         flip_left_right := flip_left_right;
         flip_up_down := flip_up_down;
         do_color_aug := do_color_aug;
         brightness := brightness;
         saturation := saturation;
         hue := hue;
         contrast := contrast |}.

End Samplers.

(** *** Image tensors and the object store

    An image is a rank-3 tensor; the [tf.image] operations are graph nodes. *)
Inductive tensor : Type :=
| tf_placeholder (id : nat) (height width channels : Z)
| tf_image_random_crop (img : tensor) (size : Z * Z * Z)
| tf_image_random_flip_left_right (img : tensor)
| tf_image_random_flip_up_down (img : tensor)
| tf_image_random_brightness (img : tensor) (max_delta : Q)
| tf_image_random_saturation (img : tensor) (lower upper : Q)
| tf_image_random_hue (img : tensor) (max_delta : Q)
| tf_image_random_contrast (img : tensor) (lower upper : Q).

(** [img.shape.as_list()]. *)
Fixpoint shape (t : tensor) : Z * Z * Z :=
  match t with
  | tf_placeholder _ h w c => (h, w, c)
  | tf_image_random_crop _ size => size
  | tf_image_random_flip_left_right img
  | tf_image_random_flip_up_down img
  | tf_image_random_brightness img _
  | tf_image_random_saturation img _ _
  | tf_image_random_hue img _
  | tf_image_random_contrast img _ _ => shape img
  end.

(** References to Python objects. *)
Definition ref : Type := nat.

(** The objects an example is made of: the record itself, a mapping from
    field names to references, and the tensors it refers to. *)
Inductive object : Type :=
| ODict (fields : dict ref)
| OTensor (t : tensor).

Definition store : Type := list object.

(** Computations on the object store; the store is kept when they raise. *)
Definition Heap (A : Type) : Type := store -> Result A * store.

Definition retH {A : Type} (a : A) : Heap A := fun st => (Ok a, st).

Definition bindH {A B : Type} (m : Heap A) (k : A -> Heap B) : Heap B :=
  fun st =>
    match m st with
    | (Ok a, st') => k a st'
    | (Raise e, st') => (Raise e, st')
    end.

Declare Scope heap_scope.
Delimit Scope heap_scope with heap.
Notation "x <~ m ;; k" := (bindH m (fun x => k))
  (at level 61, m at next level, right associativity) : heap_scope.

(** A new object; its reference is the next free one. *)
Definition alloc (o : object) : Heap ref :=
  fun st => (Ok (List.length st), (st ++ [o])%list).

Fixpoint store_set (r : ref) (o : object) (st : store) : store :=
  match st, r with
  | [], _ => []
  | _ :: st', O => o :: st'
  | o' :: st', S r' => o' :: store_set r' o st'
  end.

(** [example["image"]]-style lookup of a field of the record at [r]. *)
Definition get_field (r : ref) (key : string) : Heap ref :=
  fun st =>
    match nth_error st r with
    | Some (ODict fields) =>
        match dict_get key fields with
        | Some v => (Ok v, st)
        | None => (Raise (KeyError key), st)
        end
    | _ => (Raise (TypeError "object is not subscriptable"), st)
    end.

(** [example[key] = v] on the record at [r]. *)
Definition set_field (r : ref) (key : string) (v : ref) : Heap unit :=
  fun st =>
    match nth_error st r with
    | Some (ODict fields) => (Ok tt, store_set r (ODict (dict_set key v fields)) st)
    | _ => (Raise (TypeError "object does not support item assignment"), st)
    end.

(** The tensor behind a reference. *)
Definition get_tensor (r : ref) : Heap tensor :=
  fun st =>
    match nth_error st r with
    | Some (OTensor t) => (Ok t, st)
    | _ => (Raise (TypeError "object has no attribute 'shape'"), st)
    end.

(** [copy.copy(x)]: a new object with the same fields. *)
Definition copy_copy (r : ref) : Heap ref :=
  fun st =>
    match nth_error st r with
    | Some o => alloc o st
    | None => (Raise (TypeError "dangling reference"), st)
    end.

(** The [tf.image] calls of [augment].  Each returns a new graph node, after
    the checks the library makes on the arguments when the node is built.

    [tf.image.random_crop] slices the image: a size below -1 is refused (the
    text of that error also names the node and is not kept here), -1 stands
    for the rest of the dimension, and a size above the image's is refused
    only when the graph runs. *)
Definition random_crop (img : tensor) (size : Z * Z * Z) : Result tensor :=
  let '(height, width, channels) := size in
  if (height <? -1) || (width <? -1) || (channels <? -1) then
    Raise (ValueError "sizes vector cannot be < -1")
  else Ok (tf_image_random_crop img size).

Definition random_flip_left_right (img : tensor) : Result tensor :=
  Ok (tf_image_random_flip_left_right img).

Definition random_flip_up_down (img : tensor) : Result tensor :=
  Ok (tf_image_random_flip_up_down img).

Definition random_brightness (img : tensor) (max_delta : Q) : Result tensor :=
  if Qltb max_delta 0 then Raise (ValueError "max_delta must be non-negative.")
  else Ok (tf_image_random_brightness img max_delta).

Definition random_saturation (img : tensor) (lower upper : Q) : Result tensor :=
  if Qle_bool upper lower then Raise (ValueError "upper must be > lower.")
  else if Qltb lower 0 then Raise (ValueError "lower must be non-negative.")
  else Ok (tf_image_random_saturation img lower upper).

Definition random_hue (img : tensor) (max_delta : Q) : Result tensor :=
  if Qltb (1 # 2) max_delta then Raise (ValueError "max_delta must be <= 0.5.")
  else if Qltb max_delta 0 then Raise (ValueError "max_delta must be non-negative.")
  else Ok (tf_image_random_hue img max_delta).

Definition random_contrast (img : tensor) (lower upper : Q) : Result tensor :=
  if Qle_bool upper lower then Raise (ValueError "upper must be > lower.")
  else if Qltb lower 0 then Raise (ValueError "lower must be non-negative.")
  else Ok (tf_image_random_contrast img lower upper).

(** A [tf.image] call on the tensor at [img]: the new node is a new object;
    a refused call raises and adds none. *)
Definition tf_op (f : tensor -> Result tensor) (img : ref) : Heap ref :=
  bindH (get_tensor img)
    (fun t st =>
       match f t with
       | Ok t' => alloc (OTensor t') st
       | Raise e => (Raise e, st)
       end).

Definition when_ (c : bool) (f : ref -> Heap ref) (img : ref) : Heap ref :=
  if c then f img else retH img.

Local Open Scope heap_scope.

Definition get_augmentation (cfg : AugmentationConfig) : ref -> Heap ref :=
  fun example =>
    img <~ get_field example "image" ;;
    t <~ get_tensor img ;;
    let channels := snd (shape t) in
    img <~ when_ (truthy (PInt (crop_amount cfg)))
            (fun img =>
               t <~ get_tensor img ;;
               let height := fst (fst (shape t)) in
               let width := snd (fst (shape t)) in
               tf_op (fun i => random_crop i
                                 (height - crop_amount cfg,
                                  width - crop_amount cfg, channels)) img)
            img ;;
    img <~ when_ (flip_left_right cfg) (tf_op random_flip_left_right) img ;;
    img <~ when_ (flip_up_down cfg) (tf_op random_flip_up_down) img ;;
    img <~ when_ (do_color_aug cfg && (channels =? 3))
            (fun img =>
               img <~ tf_op (fun i => random_brightness i (brightness cfg)) img ;;
               img <~ tf_op (fun i => random_saturation i
                                        (1 - saturation cfg) (1 + saturation cfg)) img ;;
               img <~ tf_op (fun i => random_hue i (hue cfg)) img ;;
               tf_op (fun i => random_contrast i
                                 (1 - contrast cfg) (1 + contrast cfg)) img)
            img ;;
    (* copy to not override the input. *)
    example <~ copy_copy example ;;
    _ <~ set_field example "image" img ;;
    retH example.

Local Close Scope heap_scope.

(** ** Datasets *)

(** Modelled from the spec: [datasets.Datasets], the bundle of the four
    pipelines train, validation, train-for-eval and test, which the
    [datasets] module declares. *)
Record Datasets (P : Type) : Type := mkDatasets {
  train : P;
  validation : P;
  train_for_eval : P;
  test : P
}.

Arguments mkDatasets {P} _ _ _ _.
Arguments train {P} _.
Arguments validation {P} _.
Arguments train_for_eval {P} _.
Arguments test {P} _.

(** Converts a datasets object to maybe use just the training dataset. *)
Definition _make_just_train {P : Type} (dataset : Datasets P) (just_train : pyval)
  : Datasets P :=
  if truthy just_train then
    mkDatasets (train dataset) (train dataset) (train dataset) (train dataset)
  else dataset.

Section Registries.

Variable np_log : Q -> Q.
Variable np_exp : Q -> Q.

(** The pipelines of the external provider and its two entry points,
    [datasets.get_image_datasets] and [datasets.random_slice_text_data];
    an argument the caller leaves out is [None]. *)
Variable Pipeline : Type.

Variable get_image_datasets :
  forall (name : string) (batch_size num_train : pyval) (shuffle_buffer : Z)
         (cache_dataset : bool) (augmentation_fn : option (ref -> Heap ref))
         (num_per_valid : Z), Datasets Pipeline.

Variable random_slice_text_data :
  forall (dataset_name : string) (batch_size num_train patch_length : pyval)
         (cache_dataset : bool) (num_per_valid : Z) (shuffle_buffer : option Z),
    Datasets Pipeline.

Local Abbreviation sample_log_int := (sample_log_int np_log np_exp).
Local Abbreviation sample_augmentation := (sample_augmentation np_log np_exp).

Local Open Scope sampler_scope.

(** *** Image datasets *)

Definition sample_mnist_and_fashion_mnist : Sampler (dict pyval) :=
  bs <~ sample_log_int 8 512 ;;
  num_train <~ sample_linear_int 1000 55000 ;;
  just_train <~ sample_bool (1 # 10) ;;
  ret (dict_of [("bs", PInt bs);
                ("num_train", PInt num_train);
                ("num_classes", PInt 10);
                ("just_train", PBool just_train)]).

Definition sample_cifar_image : Sampler (dict pyval) :=
  bs <~ sample_log_int 8 256 ;;
  num_train <~ sample_linear_int 1000 50000 ;;
  just_train <~ sample_bool (2 # 10) ;;
  ret (dict_of [("bs", PInt bs);
                ("num_train", PInt num_train);
                ("just_train", PBool just_train)]).

Definition sample_default_image : Sampler (dict pyval) :=
  bs <~ sample_log_int 8 256 ;;
  just_train <~ sample_bool (2 # 10) ;;
  ret (dict_of [("bs", PInt bs);
                ("just_train", PBool just_train);
                ("num_train", PNone)]).

Definition _n_valid_for_smaller_datasets : dict Z :=
  dict_of [("coil100_32x32", 800); ("deep_weeds_32x32", 2000)].

Local Open Scope result_scope.

(** Get an image dataset object from name and config. *)
Definition _get_image (name : string) (config : dict pyval) (cache : bool)
    (augmentation_fn : option (ref -> Heap ref)) : Result (Datasets Pipeline) :=
  let num_per_valid :=
    match dict_get name _n_valid_for_smaller_datasets with
    | Some n => n
    | None => 5000
    end in
  bs <- dict_item "bs" config ;;
  num_train <- dict_item "num_train" config ;;
  Ok (get_image_datasets name bs num_train 10000 cache augmentation_fn num_per_valid).

Definition image_entry : Type :=
  Sampler (dict pyval)
  * (dict pyval -> option (ref -> Heap ref) -> Result (Datasets Pipeline)).

(** [partial(_get_image, name, cache=True)]. *)
Definition partial_get_image (name : string)
  : dict pyval -> option (ref -> Heap ref) -> Result (Datasets Pipeline) :=
  fun config augmentation_fn => _get_image name config true augmentation_fn.

Definition _name_to_image_dataset_map : dict image_entry :=
  dict_of
    [ ("mnist", (sample_mnist_and_fashion_mnist, partial_get_image "mnist"));
      ("fashion_mnist", (sample_mnist_and_fashion_mnist, partial_get_image "fashion_mnist"));
      ("cifar10", (sample_cifar_image, partial_get_image "cifar10"));
      ("cifar100", (sample_cifar_image, partial_get_image "cifar100"));
      ("food101_32x32", (sample_default_image, partial_get_image "food101_32x32"));
      ("coil100_32x32", (sample_default_image, partial_get_image "coil100_32x32"));
      ("deep_weeds_32x32", (sample_default_image, partial_get_image "deep_weeds_32x32"));
      ("sun397_32x32", (sample_default_image, partial_get_image "sun397_32x32"));
      ("imagenet_resized/32x32",
        (sample_default_image, partial_get_image "imagenet_resized/32x32"));
      ("imagenet_resized/16x16",
        (sample_default_image, partial_get_image "imagenet_resized/16x16")) ].

(** [ImageDatasetConfig = Tuple[Text, ImageConfig, Optional[AugmentationConfig]]]. *)
Definition ImageDatasetConfig : Type := string * dict pyval * option AugmentationConfig.

Local Open Scope sampler_scope.

Definition sample_image_dataset : Sampler ImageDatasetConfig :=
  name <~ choice (sorted (dict_keys _name_to_image_dataset_map)) ;;
  do_aug <~ sample_bool (3 # 10) ;;
  augmentation <~ (if do_aug : bool
                   then a <~ sample_augmentation ;; ret (Some a)
                   else ret None) ;;
  entry <~ lift (dict_item name _name_to_image_dataset_map) ;;
  config <~ fst entry ;;
  ret (name, config, augmentation).

Local Open Scope result_scope.

Definition get_image_dataset (cfg : ImageDatasetConfig) : Result (Datasets Pipeline) :=
  let aug_cfg := snd cfg in
  let augmentation_fn :=
    match aug_cfg with
    | Some a => Some (get_augmentation a)
    | None => None
    end in
  entry <- dict_item (fst (fst cfg)) _name_to_image_dataset_map ;;
  snd entry (snd (fst cfg)) augmentation_fn.

(** *** Text classification datasets *)

Local Open Scope sampler_scope.

Definition sample_text_classification : Sampler (dict pyval) :=
  capped <~ sample_bool (2 # 10) ;;
  num_train <~ (if capped : bool
                then n <~ sample_linear_int 1000 50000 ;; ret (PInt n)
                else ret PNone) ;;
  bs <~ sample_log_int 8 512 ;;
  just_train <~ sample_bool (2 # 10) ;;
  patch_length <~ sample_log_int 8 128 ;;
  ret (dict_of [("bs", PInt bs);
                ("num_train", num_train);
                ("max_token", PInt 8185);
                ("just_train", PBool just_train);
                ("patch_length", PInt patch_length)]).

Local Open Scope result_scope.

Definition get_text_classification (dataset_name : string) (config : dict pyval)
  : Result (Datasets Pipeline) :=
  bs <- dict_item "bs" config ;;
  num_train <- dict_item "num_train" config ;;
  patch_length <- dict_item "patch_length" config ;;
  Ok (random_slice_text_data dataset_name bs num_train patch_length true 3000 None).

Definition text_entry : Type :=
  Sampler (dict pyval) * (dict pyval -> Result (Datasets Pipeline)).

(** The names the registry loop runs over.  The first two string literals of
    the source list are adjacent, with no comma between them. *)
Definition text_dataset_names : list string :=
  [ "imdb_reviews/subwords8k" ++ "imdb_reviews/bytes";
    "tokenized_amazon_reviews/Books_v1_02_bytes";
    "tokenized_amazon_reviews/Camera_v1_00_bytes";
    "tokenized_amazon_reviews/Home_v1_00_bytes";
    "tokenized_amazon_reviews/Video_v1_00_bytes";
    "tokenized_amazon_reviews/Books_v1_02_subwords8k";
    "tokenized_amazon_reviews/Camera_v1_00_subwords8k";
    "tokenized_amazon_reviews/Home_v1_00_subwords8k";
    "tokenized_amazon_reviews/Video_v1_00_subwords8k" ].

Definition _name_to_text_dataset_map : dict text_entry :=
  fold_left
    (fun m _dataset_name =>
       dict_set _dataset_name
         (sample_text_classification,
          get_text_classification "imdb_reviews/subwords8k") m)
    text_dataset_names [].

(** [TextDatasetConfig = Tuple[Text, Dict[Text, Any]]]. *)
Definition TextDatasetConfig : Type := string * dict pyval.

Local Open Scope sampler_scope.

Definition sample_text_dataset : Sampler TextDatasetConfig :=
  name <~ choice (sorted (dict_keys _name_to_text_dataset_map)) ;;
  entry <~ lift (dict_item name _name_to_text_dataset_map) ;;
  config <~ fst entry ;;
  ret (name, config).

Local Open Scope result_scope.

Definition get_text_dataset (cfg : TextDatasetConfig) : Result (Datasets Pipeline) :=
  entry <- dict_item (fst cfg) _name_to_text_dataset_map ;;
  snd entry (snd cfg).

(** *** Byte-level sequence datasets *)

Local Open Scope sampler_scope.

(** Samples a configuration for bytes datasets. *)
Definition sample_byte_config : Sampler (dict pyval) :=
  capped <~ sample_bool (2 # 10) ;;
  num_train <~ (if capped : bool
                then n <~ sample_linear_int 1000 50000 ;; ret (PInt n)
                else ret PNone) ;;
  patch_length <~ sample_log_int 10 160 ;;
  batch_size <~ sample_log_int 8 512 ;;
  just_train <~ sample_bool (2 # 10) ;;
  ret (dict_of [("patch_length", PInt patch_length);
                ("batch_size", PInt batch_size);
                ("just_train", PBool just_train);
                ("num_train", num_train)]).

Local Open Scope result_scope.

(** Return the Datasets object for the corresponding config. *)
Definition get_byte_dataset (config : dict pyval) (name : string)
  : Result (Datasets Pipeline) :=
  batch_size <- dict_item "batch_size" config ;;
  patch_length <- dict_item "patch_length" config ;;
  num_train <- dict_item "num_train" config ;;
  just_train <- dict_item "just_train" config ;;
  Ok (_make_just_train
        (random_slice_text_data name batch_size num_train patch_length true 3000
           (Some 10000))
        just_train).

Definition char_sequence_dataset_names : list string :=
  [ "lm1b/bytes";
    "imdb_reviews/bytes";
    "tokenized_wikipedia/20190301.zh_bytes";
    "tokenized_wikipedia/20190301.ru_bytes";
    "tokenized_wikipedia/20190301.ja_bytes";
    "tokenized_wikipedia/20190301.hsb_bytes";
    "tokenized_wikipedia/20190301.en_bytes";
    "tokenized_amazon_reviews/Books_v1_02_bytes";
    "tokenized_amazon_reviews/Camera_v1_00_bytes";
    "tokenized_amazon_reviews/Home_v1_00_bytes";
    "tokenized_amazon_reviews/Video_v1_00_bytes" ].

Definition _name_to_char_sequence_dataset_map : dict text_entry :=
  fold_left
    (fun m _dataset_name =>
       dict_set _dataset_name
         (sample_byte_config, fun config => get_byte_dataset config _dataset_name) m)
    char_sequence_dataset_names [].

Local Open Scope sampler_scope.

Definition sample_char_lm_dataset : Sampler (string * dict pyval) :=
  name <~ choice (sorted (dict_keys _name_to_char_sequence_dataset_map)) ;;
  entry <~ lift (dict_item name _name_to_char_sequence_dataset_map) ;;
  config <~ fst entry ;;
  ret (name, config).

Local Open Scope result_scope.

Definition get_char_lm_dataset (cfg : string * dict pyval) : Result (Datasets Pipeline) :=
  let '(name, args) := cfg in
  entry <- dict_item name _name_to_char_sequence_dataset_map ;;
  snd entry args.

(** *** Word-level sequence datasets *)

(** Makes a function that returns the datasets object with tf.data.Datasets. *)
Definition _make_get_word_dataset (dataset_name : string)
  : dict pyval -> Result (Datasets Pipeline) :=
  fun config =>
    batch_size <- dict_item "batch_size" config ;;
    patch_length <- dict_item "patch_length" config ;;
    num_train <- dict_item "num_train" config ;;
    just_train <- dict_item "just_train" config ;;
    Ok (_make_just_train
          (random_slice_text_data dataset_name batch_size num_train patch_length true
             10000 (Some 10000))
          just_train).

Local Open Scope sampler_scope.

Definition sample_word_dataset_config : Sampler (dict pyval) :=
  capped <~ sample_bool (2 # 10) ;;
  num_train <~ (if capped : bool
                then n <~ sample_linear_int 1000 50000 ;; ret (PInt n)
                else ret PNone) ;;
  patch_length <~ sample_log_int 10 256 ;;
  batch_size <~ sample_log_int 8 512 ;;
  just_train <~ sample_bool (2 # 10) ;;
  ret (dict_of [("patch_length", PInt patch_length);
                ("batch_size", PInt batch_size);
                ("just_train", PBool just_train);
                ("num_train", num_train)]).

Definition word_sequence_dataset_names : list string :=
  [ "lm1b/subwords8k";
    "imdb_reviews/subwords8k";
    "tokenized_wikipedia/20190301.zh_subwords8k";
    "tokenized_wikipedia/20190301.ru_subwords8k";
    "tokenized_wikipedia/20190301.ja_subwords8k";
    "tokenized_wikipedia/20190301.hsb_subwords8k";
    "tokenized_wikipedia/20190301.en_subwords8k";
    "tokenized_amazon_reviews/Books_v1_02_subwords8k";
    "tokenized_amazon_reviews/Camera_v1_00_subwords8k";
    "tokenized_amazon_reviews/Home_v1_00_subwords8k";
    "tokenized_amazon_reviews/Video_v1_00_subwords8k" ].

Definition _name_to_word_sequence_dataset_map : dict text_entry :=
  fold_left
    (fun m _dataset_name =>
       dict_set _dataset_name
         (sample_word_dataset_config, _make_get_word_dataset _dataset_name) m)
    word_sequence_dataset_names [].

Definition sample_word_lm_dataset : Sampler (string * dict pyval) :=
  name <~ choice (sorted (dict_keys _name_to_word_sequence_dataset_map)) ;;
  entry <~ lift (dict_item name _name_to_word_sequence_dataset_map) ;;
  config <~ fst entry ;;
  ret (name, config).

Local Open Scope result_scope.

Definition get_word_lm_dataset (cfg : string * dict pyval) : Result (Datasets Pipeline) :=
  let '(name, args) := cfg in
  entry <- dict_item name _name_to_word_sequence_dataset_map ;;
  snd entry args.

Local Close Scope result_scope.
Local Close Scope sampler_scope.

End Registries.

(** ** Config serialization *)

Definition dquote : ascii := ascii_of_nat 34.
Definition backslash : ascii := ascii_of_nat 92.
Definition newline : ascii := ascii_of_nat 10.

Definition char (c : ascii) : string := String c EmptyString.

(** [sep.join(parts)]. *)
Fixpoint join (sep : string) (parts : list string) : string :=
  match parts with
  | [] => EmptyString
  | [x] => x
  | x :: rest => x ++ sep ++ join sep rest
  end.

Definition hex_digit (n : nat) : ascii :=
  nth n ["0"; "1"; "2"; "3"; "4"; "5"; "6"; "7";
         "8"; "9"; "a"; "b"; "c"; "d"; "e"; "f"]%char "0"%char.

(** The escape [json.dumps] writes for one character ([ensure_ascii]). *)
Definition escape_char (c : ascii) : string :=
  let n := nat_of_ascii c in
  if Nat.eqb n 34 then String backslash (char dquote)
  else if Nat.eqb n 92 then String backslash (char backslash)
  else if Nat.eqb n 10 then String backslash "n"
  else if Nat.eqb n 13 then String backslash "r"
  else if Nat.eqb n 9 then String backslash "t"
  else if Nat.eqb n 8 then String backslash "b"
  else if Nat.eqb n 12 then String backslash "f"
  else if Nat.ltb n 32 || Nat.ltb 126 n then
    String backslash
      ("u00" ++ char (hex_digit (Nat.div n 16)) ++ char (hex_digit (Nat.modulo n 16)))
  else char c.

Fixpoint escape (s : string) : string :=
  match s with
  | EmptyString => EmptyString
  | String c s' => escape_char c ++ escape s'
  end.

(** A JSON string literal. *)
Definition json_string (s : string) : string :=
  char dquote ++ escape s ++ char dquote.

Definition Z_to_string (z : Z) : string := NilEmpty.string_of_int (Z.to_int z).

Section Serialization.

(** [float.__repr__], the text [json.dumps] writes for a float. *)
Variable float_repr : Q -> string.

(** [json.dumps(v)] with its default separators. *)
Fixpoint json_dumps (v : pyval) : string :=
  match v with
  | PNone => "null"
  | PBool true => "true"
  | PBool false => "false"
  | PInt z => Z_to_string z
  | PFloat q => float_repr q
  | PStr s => json_string s
  | PTuple l | PList l => "[" ++ join ", " (map json_dumps l) ++ "]"
  | PDict d =>
      "{" ++ join ", " (map (fun '(k, n) => json_string k ++ ": " ++ json_dumps n) d)
          ++ "}"
  end.

(** Pretty print a json serialized dictionary with one key, value per line. *)
Definition pretty_json_dumps (dd : pyval) : Result string :=
  match dd with
  | PDict d =>
      let content := "{" ++ char newline in
      let lines :=
        map (fun '(l, n) => char dquote ++ l ++ char dquote ++ ":" ++ json_dumps n)
            (sorted_items d) in
      let content := content ++ join ("," ++ char newline) lines in
      let content := content ++ char newline ++ "}" in
      Ok content
  | _ => Raise (ValueError "Only dicts supported at this time.")
  end.

End Serialization.

(** ** Fixed collaborators for evaluating the code on concrete inputs *)

(** A provider that records the call it received: each pipeline of the
    bundle is the call together with the split it serves. *)
Inductive split : Type := Train | Validation | TrainForEval | Test.

Inductive provider_call : Type :=
| GetImageDatasets (name : string) (batch_size num_train : pyval) (shuffle_buffer : Z)
    (cache_dataset augmented : bool) (num_per_valid : Z)
| RandomSliceTextData (dataset_name : string) (batch_size num_train patch_length : pyval)
    (cache_dataset : bool) (num_per_valid : Z) (shuffle_buffer : option Z).

Definition pipeline : Type := provider_call * split.

Definition bundle (c : provider_call) : Datasets pipeline :=
  mkDatasets (c, Train) (c, Validation) (c, TrainForEval) (c, Test).

Definition recorded_get_image_datasets (name : string) (batch_size num_train : pyval)
    (shuffle_buffer : Z) (cache_dataset : bool)
    (augmentation_fn : option (ref -> Heap ref)) (num_per_valid : Z)
  : Datasets pipeline :=
  bundle (GetImageDatasets name batch_size num_train shuffle_buffer cache_dataset
            (match augmentation_fn with Some _ => true | None => false end)
            num_per_valid).

Definition recorded_random_slice_text_data (dataset_name : string)
    (batch_size num_train patch_length : pyval) (cache_dataset : bool)
    (num_per_valid : Z) (shuffle_buffer : option Z) : Datasets pipeline :=
  bundle (RandomSliceTextData dataset_name batch_size num_train patch_length
            cache_dataset num_per_valid shuffle_buffer).

(** A pair of increasing, mutually inverse maps standing for [np.log] and
    [np.exp] when a sampler is run on a concrete source. *)
Definition lin_log (x : Q) : Q := x - 1.
Definition lin_exp (x : Q) : Q := x + 1.


(** The [N] equally spaced sources: the next draw of the [k]-th is [k/N]. *)
Definition grid (N k : nat) : RandomState :=
  {| draws := fun _ => Z.of_nat k # Pos.of_nat N; pos := 0 |}.

Definition returns_true (r : Result (bool * RandomState)) : bool :=
  match r with Ok (true, _) => true | _ => false end.

(** How many of the [N] equally spaced sources make a sampler return true. *)
Definition frequency (m : Sampler bool) (N : nat) : nat :=
  List.length (filter (fun k => returns_true (m (grid N k))) (seq 0 N)).

(** An example record with an image and a label, and an augmentation that
    applies every operation. *)
Definition example_store : store :=
  [OTensor (tf_placeholder 0 32 32 3);
   OTensor (tf_placeholder 1 1 1 1);
   ODict [("image", 0%nat); ("label", 1%nat)]].

Definition full_augmentation : AugmentationConfig :=
  {| crop_amount := 2;
     flip_left_right := true;
     flip_up_down := true;
     do_color_aug := true;
     brightness := 1 # 10;
     saturation := 1 # 2;
     hue := 1 # 4;
     contrast := 1 # 5 |}.


(** Sampled-looking configs with just_train set, and the two mappings the
    serializer cannot tell apart. *)
Definition mnist_just_train : dict pyval :=
  [("bs", PInt 8); ("num_train", PInt 1000); ("num_classes", PInt 10);
   ("just_train", PBool true)].

Definition text_just_train : dict pyval :=
  [("bs", PInt 8); ("num_train", PNone); ("max_token", PInt 8185);
   ("just_train", PBool true); ("patch_length", PInt 16)].

Definition sequence_just_train : dict pyval :=
  [("patch_length", PInt 16); ("batch_size", PInt 8); ("just_train", PBool true);
   ("num_train", PNone)].

Definition two_keys : pyval := PDict [("b", PInt 2); ("a", PInt 1)].

(** One key, spelled [a":1,<newline>"b]. *)
Definition quoting_key : string :=
  "a" ++ char dquote ++ ":1," ++ char newline ++ char dquote ++ "b".

Definition one_key : pyval := PDict [(quoting_key, PInt 2)].

(** What the development asks of [np.log] and [np.exp] where a result
    depends on them: both are increasing and [exp (log x)] is [x] up to a
    relative error of [2^-20]. *)
Record accurate (np_log np_exp : Q -> Q) : Prop := mkAccurate {
  log_increasing : forall x y : Q, (0 < x -> x <= y -> np_log x <= np_log y)%Q;
  exp_increasing : forall x y : Q, (x <= y -> np_exp x <= np_exp y)%Q;
  exp_log : forall x : Q, (0 < x -> Qabs (np_exp (np_log x) - x) <= x * (1 # 1048576))%Q
}.

(** The value a sampler returns, without the source. *)
Definition value_of {A : Type} (r : Result (A * RandomState)) : Result A :=
  match r with Ok (a, _) => Ok a | Raise e => Raise e end.

(** A source that repeats the given draws forever. *)
Definition source_of (l : list Q) : RandomState :=
  {| draws := fun n => nth (Nat.modulo n (List.length l)) l 0%Q; pos := 0 |}.

(** ** Vocabulary of the statements *)

(** The names that carry a scale and the names that do not. *)
Definition shape_based : list string :=
  ["glorot_normal"; "glorot_uniform"; "he_normal"; "he_uniform"].

Definition scaled : list string :=
  ["orthogonal"; "random_normal"; "random_uniform"; "truncated_normal";
   "variance_scaling"].

(** The slot [key] of the mapping [args] holds an initializer config, and
    [i] is the initializer [get_initializer] makes of that config. *)
Definition slot_initializer (np_log np_exp : Q -> Q) (args : dict pyval)
    (key : string) (i : tf_initializer) : Prop :=
  exists init : InitializerConfig,
    dict_get key args = Some (initializer_value init)
    /\ get_initializer np_log np_exp init = Ok i.

(** The optional cap on the train set that the three text samplers draw
    first. *)
Definition sampled_cap (num_train : pyval) : Prop :=
  num_train = PNone \/ exists n : Z, num_train = PInt n /\ (1000 <= n <= 50000)%Z.

(** The graph that [augment] builds over the image [t]: the operations in
    the order of the source, each under its flag. *)
Definition augmented (cfg : AugmentationConfig) (t : tensor) : tensor :=
  let channels := snd (shape t) in
  let img :=
    if truthy (PInt (crop_amount cfg)) then
      tf_image_random_crop t
        (fst (fst (shape t)) - crop_amount cfg, snd (fst (shape t)) - crop_amount cfg,
         channels)
    else t in
  let img := if flip_left_right cfg then tf_image_random_flip_left_right img else img in
  let img := if flip_up_down cfg then tf_image_random_flip_up_down img else img in
  if do_color_aug cfg && (channels =? 3) then
    tf_image_random_contrast
      (tf_image_random_hue
         (tf_image_random_saturation
            (tf_image_random_brightness img (brightness cfg))
            (1 - saturation cfg) (1 + saturation cfg))
         (hue cfg))
      (1 - contrast cfg) (1 + contrast cfg)
  else img.



(** The calls [augment] makes on the image [t], one after the other: the
    node of the last call, or the error of the first call that is refused. *)
Definition image_graph (cfg : AugmentationConfig) (t : tensor) : Result tensor :=
  let channels := snd (shape t) in
  (img <- (if truthy (PInt (crop_amount cfg))
           then random_crop t (fst (fst (shape t)) - crop_amount cfg,
                               snd (fst (shape t)) - crop_amount cfg, channels)
           else Ok t) ;;
   img <- (if flip_left_right cfg then random_flip_left_right img else Ok img) ;;
   img <- (if flip_up_down cfg then random_flip_up_down img else Ok img) ;;
   if do_color_aug cfg && (channels =? 3) then
     img <- random_brightness img (brightness cfg) ;;
     img <- random_saturation img (1 - saturation cfg) (1 + saturation cfg) ;;
     img <- random_hue img (hue cfg) ;;
     random_contrast img (1 - contrast cfg) (1 + contrast cfg)
   else Ok img)%result.

(** A stage that computes [f]: from a reference to a tensor [t] it returns a
    reference to the tensor [f t], the same reference when it adds no
    object, or raises the error of [f t]; it only adds objects to the
    store. *)
Definition stage_of (g : ref -> Heap ref) (f : tensor -> Result tensor) : Prop :=
  forall (st : store) (img : ref) (t : tensor),
    nth_error st img = Some (OTensor t) ->
    match f t with
    | Ok t' =>
        exists (ext : store) (img' : ref),
          g img st = (Ok img', (st ++ ext)%list)
          /\ nth_error (st ++ ext)%list img' = Some (OTensor t')
          /\ (ext = [] -> img' = img)
    | Raise e => exists ext : store, g img st = (Raise e, (st ++ ext)%list)
    end.

(** The order [sorted] puts items in: by key. *)
Definition key_le {V : Type} (a b : string * V) : Prop :=
  String.leb (fst a) (fst b) = true.


Definition no_augmentation : AugmentationConfig :=
  {| crop_amount := 0;
     flip_left_right := false;
     flip_up_down := false;
     do_color_aug := false;
     brightness := 1 # 10;
     saturation := 1 # 2;
     hue := 1 # 4;
     contrast := 1 # 5 |}.

Definition imageless_store : store :=
  [OTensor (tf_placeholder 0 1 1 1); ODict [("label", 0%nat)]].

(** The source used to run the samplers in the examples. *)
Definition example_source : RandomState :=
  source_of [1 # 2; 9 # 10; 1 # 3; 1 # 10; 95 # 100; 1 # 4; 7 # 10; 3 # 4]%Q.

(** * Properties of the catalogues *)

Lemma truthy_float (s : Q) : truthy (PFloat s) = true <-> ~ s == 0.
Proof.
  simpl. rewrite negb_true_iff, <- not_true_iff_false, Qeq_bool_iff. tauto.
Qed.

Section InitializerCatalogue.

Variable np_log : Q -> Q.
Variable np_exp : Q -> Q.

Local Abbreviation catalogue := (_initializer_name_map np_log np_exp).

(** C4 (as amended).  For a name of the catalogue, [get_initializer] calls
    that name's constructor on the parameter when the parameter is present
    and nonzero, and without arguments when the parameter is absent. *)
Theorem get_initializer_applies_constructor
    (name : string) (weight : Z) (sample_fn : option (Sampler Q)) (make_fn : callable) :
  dict_get name catalogue = Some (weight, sample_fn, make_fn) ->
  (forall s : Q, ~ s == 0 -> get_initializer np_log np_exp (name, Some s) = make_fn [s])
  /\ get_initializer np_log np_exp (name, None) = make_fn [].
Proof.
  intros Hentry. unfold get_initializer, dict_item. rewrite Hentry.
  split; [intros s Hs | reflexivity].
  apply truthy_float in Hs. now rewrite Hs.
Qed.

(** The two normal entries of the catalogue are the same triple. *)
Lemma normal_entries_equal :
  dict_get "truncated_normal" catalogue = dict_get "random_normal" catalogue.
Proof. reflexivity. Qed.

(** C10 (as amended).  [get_initializer] gives the same result for
    "truncated_normal" and "random_normal" whatever the parameter, and for a
    nonzero scale [s] both are the call [random_normal(stddev=s)]. *)
Theorem truncated_normal_is_random_normal (s : Q) :
  ~ s == 0 ->
  get_initializer np_log np_exp ("truncated_normal", Some s)
    = Ok (TfInitializer "random_normal" [] [("stddev", s)])
  /\ get_initializer np_log np_exp ("random_normal", Some s)
    = Ok (TfInitializer "random_normal" [] [("stddev", s)])
  /\ forall arg : option Q,
      get_initializer np_log np_exp ("truncated_normal", arg)
      = get_initializer np_log np_exp ("random_normal", arg).
Proof.
  intros Hs. apply truthy_float in Hs.
  split; [| split].
  - unfold get_initializer. simpl dict_item. cbv iota beta. now rewrite Hs.
  - unfold get_initializer. simpl dict_item. cbv iota beta. now rewrite Hs.
  - intros arg. unfold get_initializer, dict_item.
    now rewrite normal_entries_equal.
Qed.

End InitializerCatalogue.

Lemma get_initializer_applies_constructor_witness :
  get_initializer lin_log lin_exp ("orthogonal", Some (1 # 2))
    = Ok (TfInitializer "orthogonal" [1 # 2] [])
  /\ get_initializer lin_log lin_exp ("orthogonal", None)
    = Ok (TfInitializer "orthogonal" [] []).
Proof.
  destruct (get_initializer_applies_constructor lin_log lin_exp "orthogonal" 1
              (Some (sample_log_float lin_log lin_exp (1 # 10) 10))
              (tf_initializers "orthogonal") eq_refl) as [Hsome Hnone].
  split; [apply Hsome; discriminate | exact Hnone].
Defined.

(** C4 as stated fails at a present parameter equal to zero: the
    constructor is called without arguments. *)
Lemma get_initializer_drops_zero_parameter :
  dict_get "orthogonal" (_initializer_name_map lin_log lin_exp)
    = Some (1, Some (sample_log_float lin_log lin_exp (1 # 10) 10),
            tf_initializers "orthogonal")
  /\ get_initializer lin_log lin_exp ("orthogonal", Some 0%Q)
    = Ok (TfInitializer "orthogonal" [] [])
  /\ tf_initializers "orthogonal" [0%Q] = Ok (TfInitializer "orthogonal" [0%Q] [])
  /\ get_initializer lin_log lin_exp ("orthogonal", Some 0%Q)
    <> tf_initializers "orthogonal" [0%Q].
Proof. repeat split. discriminate. Qed.

Lemma truncated_normal_is_random_normal_witness :
  get_initializer lin_log lin_exp ("truncated_normal", Some (3 # 2))
    = Ok (TfInitializer "random_normal" [] [("stddev", 3 # 2)])
  /\ get_initializer lin_log lin_exp ("random_normal", Some (3 # 2))
    = Ok (TfInitializer "random_normal" [] [("stddev", 3 # 2)])
  /\ forall arg : option Q,
      get_initializer lin_log lin_exp ("truncated_normal", arg)
      = get_initializer lin_log lin_exp ("random_normal", arg).
Proof.
  apply (truncated_normal_is_random_normal lin_log lin_exp (3 # 2)). discriminate.
Defined.

(** C10 as stated fails at the scale zero: neither name reaches the
    random-normal constructor, both calls raise. *)
Lemma truncated_normal_zero_scale_raises :
  get_initializer lin_log lin_exp ("truncated_normal", Some 0%Q)
    = Raise (TypeError "<lambda>() missing 1 required positional argument: 's'")
  /\ get_initializer lin_log lin_exp ("random_normal", Some 0%Q)
    = Raise (TypeError "<lambda>() missing 1 required positional argument: 's'")
  /\ get_initializer lin_log lin_exp ("truncated_normal", Some 0%Q)
    <> Ok (TfInitializer "random_normal" [] [("stddev", 0%Q)]).
Proof. repeat split. discriminate. Qed.

(** * Properties of the random source and of rounding *)

(** Ints of magnitude up to [2^53] are binary64 values. *)
Lemma nearest_binary64_exact (n : Z) :
  -9007199254740992 <= n <= 9007199254740992 -> nearest_binary64 n = n.
Proof.
  intros Hn. unfold nearest_binary64.
  destruct (Z.eq_dec (Z.abs n) 9007199254740992) as [E | E].
  - assert (Hcases : n = 9007199254740992 \/ n = -9007199254740992) by lia.
    destruct Hcases as [-> | ->]; reflexivity.
  - assert (Hlog : Z.log2 (Z.abs n) < 53).
    { destruct (Z.eq_dec (Z.abs n) 0) as [E0 | E0]; [now rewrite E0 |].
      apply Z.log2_lt_pow2; [lia |]. change (2 ^ 53) with 9007199254740992. lia. }
    assert (Hle : (Z.log2 (Z.abs n) - 52 <=? 0) = true) by (apply Z.leb_le; lia).
    now rewrite Hle.
Qed.

Lemma float_exact (n : Z) :
  -9007199254740992 <= n <= 9007199254740992 -> float n = Ok (inject_Z n).
Proof.
  intros Hn. unfold float. rewrite (nearest_binary64_exact n Hn).
  assert (Hpow : 2 ^ 53 < 2 ^ 1024) by (apply Z.pow_lt_mono_r; lia).
  change (2 ^ 53) with 9007199254740992 in Hpow.
  destruct (Z.leb_spec (2 ^ 1024) (Z.abs n)) as [Hbig | _]; [lia | reflexivity].
Qed.

(** The integer samplers on bounds that are binary64 values. *)
Lemma sample_log_int_exact (np_log np_exp : Q -> Q) (low high : Z) (rng : RandomState) :
  -9007199254740992 <= low <= 9007199254740992 ->
  -9007199254740992 <= high <= 9007199254740992 ->
  sample_log_int np_log np_exp low high rng
  = bindS (uniform (np_log (inject_Z low)) (np_log (inject_Z high)))
      (fun sample => ret (int (np_round (np_exp sample)))) rng.
Proof.
  intros Hlow Hhigh. unfold sample_log_int.
  unfold bindS at 1, lift at 1. rewrite (float_exact low Hlow).
  unfold bindS at 1, lift at 1. now rewrite (float_exact high Hhigh).
Qed.

Lemma sample_linear_int_exact (low high : Z) (rng : RandomState) :
  -9007199254740992 <= low <= 9007199254740992 ->
  -9007199254740992 <= high <= 9007199254740992 ->
  sample_linear_int low high rng
  = bindS (uniform (inject_Z low) (inject_Z high))
      (fun sample => ret (int (np_round sample))) rng.
Proof.
  intros Hlow Hhigh. unfold sample_linear_int.
  unfold bindS at 1, lift at 1. rewrite (float_exact low Hlow).
  unfold bindS at 1, lift at 1. now rewrite (float_exact high Hhigh).
Qed.

Local Open Scope Q_scope.

Lemma frac_range (q : Q) : 0 <= frac q /\ frac q < 1.
Proof.
  unfold frac. pose proof (Qfloor_le q) as Hlo. pose proof (Qlt_floor q) as Hhi.
  rewrite inject_Z_plus in Hhi. change (inject_Z 1) with 1 in Hhi.
  split; lra.
Qed.

Lemma peek_range (rng : RandomState) : 0 <= peek rng /\ peek rng < 1.
Proof. apply frac_range. Qed.

Lemma Qfloor_bounds (x : Q) : inject_Z (Qfloor x) <= x /\ x < inject_Z (Qfloor x) + 1.
Proof.
  pose proof (Qfloor_le x) as Hlo. pose proof (Qlt_floor x) as Hhi.
  rewrite inject_Z_plus in Hhi. change (inject_Z 1) with 1 in Hhi. tauto.
Qed.

Lemma int_inject_Z (z : Z) : int (inject_Z z) = z.
Proof.
  unfold int. destruct (Qle_bool 0 (inject_Z z)).
  - apply Qfloor_Z.
  - apply Qceiling_Z.
Qed.

Lemma int_np_round (x : Q) : int (np_round x) = round_Z x.
Proof. apply int_inject_Z. Qed.

Lemma inject_Z_lt_succ (n f : Z) : inject_Z n < inject_Z f + 1 -> (n <= f)%Z.
Proof.
  intros H. change 1 with (inject_Z 1) in H. rewrite <- inject_Z_plus in H.
  rewrite <- Zlt_Qlt in H. lia.
Qed.

(** Rounding stays on the near side of every integer. *)
Lemma round_Z_lower (x : Q) (n : Z) : inject_Z n - (1 # 2) < x -> (n <= round_Z x)%Z.
Proof.
  intros Hx. destruct (Qfloor_bounds x) as [Hlo Hhi]. unfold round_Z.
  destruct (x - inject_Z (Qfloor x) ?= 1 # 2) eqn:Hc.
  - apply Qeq_alt in Hc.
    assert (n <= Qfloor x)%Z by (apply inject_Z_lt_succ; lra).
    destruct (Z.even (Qfloor x)); lia.
  - apply Qlt_alt in Hc. apply inject_Z_lt_succ. lra.
  - assert (n <= Qfloor x + 1)%Z; [| lia].
    apply inject_Z_lt_succ. rewrite inject_Z_plus. change (inject_Z 1) with 1. lra.
Qed.

Lemma round_Z_upper (x : Q) (n : Z) : x < inject_Z n + (1 # 2) -> (round_Z x <= n)%Z.
Proof.
  intros Hx. destruct (Qfloor_bounds x) as [Hlo Hhi]. unfold round_Z.
  assert (Hfn : (Qfloor x <= n)%Z) by (apply inject_Z_lt_succ; lra).
  destruct (x - inject_Z (Qfloor x) ?= 1 # 2) eqn:Hc.
  - apply Qeq_alt in Hc.
    assert (Qfloor x + 1 <= n)%Z; [| destruct (Z.even (Qfloor x)); lia].
    apply inject_Z_lt_succ. rewrite inject_Z_plus. change (inject_Z 1) with 1. lra.
  - exact Hfn.
  - apply Qgt_alt in Hc.
    apply inject_Z_lt_succ. rewrite inject_Z_plus. change (inject_Z 1) with 1. lra.
Qed.

(** [rng.uniform(low, high)] stays between its bounds. *)
Lemma uniform_range (low high : Q) (rng : RandomState) :
  low <= high ->
  exists x, uniform low high rng = Ok (x, advance rng) /\ low <= x /\ x <= high.
Proof.
  intros Hle. eexists. split; [reflexivity |].
  destruct (peek_range rng) as [H0 H1]. split; nra.
Qed.

Lemma lin_accurate : accurate lin_log lin_exp.
Proof.
  constructor; unfold lin_log, lin_exp; intros.
  - lra.
  - lra.
  - apply Qabs_Qle_condition. split; lra.
Qed.

Section Numerics.

Variable np_log : Q -> Q.
Variable np_exp : Q -> Q.
Hypothesis Hacc : accurate np_log np_exp.

Lemma exp_log_bounds (x : Q) :
  0 < x ->
  x - x * (1 # 1048576) <= np_exp (np_log x) /\ np_exp (np_log x) <= x + x * (1 # 1048576).
Proof.
  intros Hx. pose proof (exp_log _ _ Hacc x Hx) as H.
  apply Qabs_Qle_condition in H. split; lra.
Qed.

(** A log-uniform draw lies between the images of its bounds. *)
Lemma log_uniform_range (low high : Q) (rng : RandomState) :
  0 < low -> low <= high ->
  exists x, uniform (np_log low) (np_log high) rng = Ok (x, advance rng)
            /\ np_exp (np_log low) <= np_exp x /\ np_exp x <= np_exp (np_log high).
Proof.
  intros Hlow Hle.
  destruct (uniform_range (np_log low) (np_log high) rng) as (x & Hx & Hlo & Hhi).
  { now apply (log_increasing _ _ Hacc). }
  exists x. split; [exact Hx |].
  split; now apply (exp_increasing _ _ Hacc).
Qed.

(** [sample_log_int] between integer bounds below [2^19]. *)
Lemma sample_log_int_range (low high : Z) (rng : RandomState) :
  (0 < low)%Z -> (low <= high)%Z -> (high < 524288)%Z ->
  exists n, sample_log_int np_log np_exp low high rng = Ok (n, advance rng)
            /\ (low <= n <= high)%Z.
Proof.
  intros Hpos Hle Hbound.
  assert (Hlow : 0 < inject_Z low) by (change 0 with (inject_Z 0); now rewrite <- Zlt_Qlt).
  assert (Hlh : inject_Z low <= inject_Z high) by now rewrite <- Zle_Qle.
  assert (Hhigh : inject_Z high < 524288)
    by (change 524288 with (inject_Z 524288); now rewrite <- Zlt_Qlt).
  destruct (log_uniform_range (inject_Z low) (inject_Z high) rng Hlow Hlh)
    as (x & Hx & Hlo & Hhi).
  destruct (exp_log_bounds (inject_Z low) Hlow) as [Hl _].
  destruct (exp_log_bounds (inject_Z high)) as [_ Hh]; [lra |].
  exists (round_Z (np_exp x)). split.
  - rewrite sample_log_int_exact by lia.
    unfold bindS. rewrite Hx. unfold ret. now rewrite int_np_round.
  - split; [apply round_Z_lower | apply round_Z_upper]; lra.
Qed.

(** [sample_log_float] between positive bounds is positive. *)
Lemma sample_log_float_positive (low high : Q) (rng : RandomState) :
  0 < low -> low <= high ->
  exists s, sample_log_float np_log np_exp low high rng = Ok (s, advance rng) /\ 0 < s.
Proof.
  intros Hlow Hle.
  destruct (log_uniform_range low high rng Hlow Hle) as (x & Hx & Hlo & _).
  destruct (exp_log_bounds low Hlow) as [Hl _].
  exists (np_exp x). split.
  - unfold sample_log_float, bindS. now rewrite Hx.
  - lra.
Qed.

End Numerics.

(** [rng.choice] returns an entry of its argument. *)
Lemma choice_In {A : Type} (x : A) (rest : list A) (rng : RandomState) :
  exists y, choice (x :: rest) rng = Ok (y, advance rng) /\ In y (x :: rest).
Proof.
  eexists. split; [reflexivity |].
  destruct (nth_in_or_default
              (Z.to_nat (Qfloor (peek rng * inject_Z (Z.of_nat (List.length (x :: rest))))))
              (x :: rest) x) as [Hin | Hd].
  - exact Hin.
  - rewrite Hd. now left.
Qed.

(** The position [rng.choice] draws among five entries. *)
Lemma position_of_five (u : Q) :
  0 <= u -> u < 1 ->
  let z := Qfloor (u * inject_Z 5) in
  (0 <= z <= 4)%Z /\ ((z <= 3)%Z <-> u < 4 # 5).
Proof.
  intros H0 H1 z. destruct (Qfloor_bounds (u * inject_Z 5)) as [Hlo Hhi].
  fold z in Hlo, Hhi. change (inject_Z 5) with 5 in *.
  assert (Hz0 : (0 <= z)%Z).
  { assert (-1 < z)%Z; [| lia]. rewrite Zlt_Qlt. change (inject_Z (-1)) with (-1). lra. }
  assert (Hz4 : (z <= 4)%Z).
  { assert (z < 5)%Z; [| lia]. rewrite Zlt_Qlt. change (inject_Z 5) with 5. lra. }
  split; [lia |]. split.
  - intros Hz3. rewrite Zle_Qle in Hz3. change (inject_Z 3) with 3 in Hz3. lra.
  - intros Hu. assert (z < 4)%Z; [| lia]. rewrite Zlt_Qlt. change (inject_Z 4) with 4. lra.
Qed.

(** The linking decision of [sample_rnn_core]: true exactly when the draw
    falls in the first four fifths of the unit interval. *)
Lemma linked_choice (rng : RandomState) :
  exists linked : bool,
    choice [true; true; true; true; false] rng = Ok (linked, advance rng)
    /\ (linked = true <-> peek rng < 4 # 5).
Proof.
  eexists. split; [reflexivity |].
  destruct (peek_range rng) as [H0 H1].
  destruct (position_of_five (peek rng) H0 H1) as [Hz Hiff].
  cbv zeta in Hz, Hiff.
  change (inject_Z (Z.of_nat (List.length [true; true; true; true; false])))
    with (inject_Z 5).
  set (z := Qfloor (peek rng * inject_Z 5)) in *.
  rewrite <- Hiff.
  assert (Hcases : z = 0%Z \/ z = 1%Z \/ z = 2%Z \/ z = 3%Z \/ z = 4%Z) by lia.
  destruct Hcases as [E | [E | [E | [E | E]]]]; rewrite E; simpl; split;
    intros; try reflexivity; try lia; discriminate.
Qed.

Local Close Scope Q_scope.

(** * Properties of the initializer sampler *)

(** [rng.choice(a, p=p)] on a distribution returns an entry of [a]. *)
Lemma choice_p_In {A : Type} (x : A) (rest : list A) (p : list Q) (rng : RandomState) :
  List.length (x :: rest) = List.length p ->
  existsb (fun w => Qltb w 0) p = false ->
  Qeq_bool (Qsum p) 1 = true ->
  exists y, choice_p (x :: rest) p rng = Ok (y, advance rng) /\ In y (x :: rest).
Proof.
  intros Hlen Hneg Hsum. unfold choice_p.
  rewrite Hlen, Nat.eqb_refl, Hneg, Hsum. cbn [negb].
  eexists. split; [reflexivity |].
  destruct (nth_in_or_default (searchsorted 0 p (peek rng)) (x :: rest) x) as [Hin | Hd].
  - exact Hin.
  - rewrite Hd. now left.
Qed.

Section InitializerSampler.

Variable np_log : Q -> Q.
Variable np_exp : Q -> Q.

Local Abbreviation sample_init := (sample_initializer np_log np_exp).
Local Abbreviation catalogue := (_initializer_name_map np_log np_exp).

Lemma initializer_names :
  map fst (sorted_items catalogue) = (shape_based ++ scaled)%list.
Proof. reflexivity. Qed.

Lemma initializer_probs :
  normalize (map (fun v => fst (fst v)) (map snd (sorted_items catalogue)))
  = [2 # 13; 2 # 13; 2 # 13; 2 # 13; 1 # 13; 1 # 13; 1 # 13; 1 # 13; 1 # 13]%Q.
Proof. reflexivity. Qed.

Lemma shape_based_entry (name : string) :
  In name shape_based ->
  exists make_fn, dict_item name catalogue = Ok (2, None, make_fn)
                  /\ make_fn [] = Ok (TfInitializer name [] []).
Proof.
  intros Hin. simpl in Hin.
  decompose [or] Hin; subst; try contradiction; eexists; split; reflexivity.
Qed.

Lemma scaled_entry (name : string) :
  In name scaled ->
  exists make_fn,
    dict_item name catalogue
      = Ok (1, Some (sample_log_float np_log np_exp (1 # 10) 10), make_fn)
    /\ forall s : Q, (0 < s)%Q -> exists i, make_fn [s] = Ok i.
Proof.
  intros Hin. simpl in Hin.
  decompose [or] Hin; subst; try contradiction; eexists;
    (split; [reflexivity | intros s Hs; try (eexists; reflexivity)]).
  unfold tf_variance_scaling. destruct (Qle_bool s 0) eqn:E; [| eauto].
  apply Qle_bool_iff in E. lra.
Qed.

(** [sample_initializer] never raises: it draws a name of the catalogue and,
    for a name with a scale, one log-uniform scale between 0.1 and 10. *)
Lemma sample_initializer_cases (rng : RandomState) :
  (exists name, In name shape_based
                /\ sample_init rng = Ok ((name, None), advance rng))
  \/ (exists name s rng', In name scaled
        /\ sample_log_float np_log np_exp (1 # 10) 10 (advance rng) = Ok (s, rng')
        /\ sample_init rng = Ok ((name, Some s), rng')).
Proof.
  unfold sample_initializer. cbv zeta. rewrite initializer_names, initializer_probs.
  destruct (choice_p_In "glorot_normal" (tl (shape_based ++ scaled))
              [2 # 13; 2 # 13; 2 # 13; 2 # 13; 1 # 13; 1 # 13; 1 # 13; 1 # 13; 1 # 13]%Q
              rng eq_refl eq_refl eq_refl) as (name & Hname & Hin).
  change ("glorot_normal" :: tl (shape_based ++ scaled))%list
    with (shape_based ++ scaled)%list in Hname, Hin.
  apply in_app_or in Hin. destruct Hin as [Hin | Hin].
  - left. exists name. split; [exact Hin |].
    destruct (shape_based_entry name Hin) as (make_fn & Hentry & _).
    unfold bindS, lift. now rewrite Hname, Hentry.
  - right.
    assert (Hs : exists s rng',
               sample_log_float np_log np_exp (1 # 10) 10 (advance rng) = Ok (s, rng'))
      by (do 2 eexists; reflexivity).
    destruct Hs as (s & rng' & Hs).
    exists name, s, rng'. split; [exact Hin |]. split; [exact Hs |].
    destruct (scaled_entry name Hin) as (make_fn & Hentry & _).
    unfold bindS, lift. rewrite Hname, Hentry. cbn [fst snd]. now rewrite Hs.
Qed.

Lemma sample_initializer_total (rng : RandomState) :
  exists init rng', sample_init rng = Ok (init, rng').
Proof.
  destruct (sample_initializer_cases rng) as [(n & _ & H) | (n & s & r & _ & _ & H)];
    eauto.
Qed.

End InitializerSampler.

(** * Properties of the recurrent-core sampler *)

Section RnnCore.

Variable np_log : Q -> Q.
Variable np_exp : Q -> Q.

Local Abbreviation sample_init := (sample_initializer np_log np_exp).

(** C5.  The linking decision of [sample_rnn_core] is true exactly when its
    draw falls below 4/5, four of the five equally likely entries it chooses
    from being true.  For the kind "gru", a linked config holds one sampled
    initializer in all six slots wh, wz, wr, uh, uz, ur, and an unlinked
    config holds the results of six successive calls of
    [sample_initializer], one per slot. *)
Theorem sample_rnn_core_gru_linking (rng : RandomState) (linked : bool) :
  choice ["vrnn"; "gru"; "lstm"] rng = Ok ("gru", advance rng) ->
  choice [true; true; true; true; false] (advance rng)
    = Ok (linked, advance (advance rng)) ->
  count_occ bool_dec [true; true; true; true; false] true = 4%nat
  /\ (linked = true <-> (peek (advance rng) < 4 # 5)%Q)
  /\ exists core_dim rng0,
      sample_log_int np_log np_exp 32 128 (advance (advance rng)) = Ok (core_dim, rng0)
      /\ if linked then
           exists init rng',
             sample_init rng0 = Ok (init, rng')
             /\ sample_rnn_core np_log np_exp rng
                = Ok (("gru",
                       [("core_dim", PInt core_dim);
                        ("wh", initializer_value init); ("wz", initializer_value init);
                        ("wr", initializer_value init); ("uh", initializer_value init);
                        ("uz", initializer_value init); ("ur", initializer_value init)]),
                      rng')
         else
           exists wh wz wr uh uz ur rng1 rng2 rng3 rng4 rng5 rng',
             sample_init rng0 = Ok (wh, rng1)
             /\ sample_init rng1 = Ok (wz, rng2)
             /\ sample_init rng2 = Ok (wr, rng3)
             /\ sample_init rng3 = Ok (uh, rng4)
             /\ sample_init rng4 = Ok (uz, rng5)
             /\ sample_init rng5 = Ok (ur, rng')
             /\ sample_rnn_core np_log np_exp rng
                = Ok (("gru",
                       [("core_dim", PInt core_dim);
                        ("wh", initializer_value wh); ("wz", initializer_value wz);
                        ("wr", initializer_value wr); ("uh", initializer_value uh);
                        ("uz", initializer_value uz); ("ur", initializer_value ur)]),
                      rng').
Proof.
  intros Hcore Hlinked.
  split; [reflexivity |]. split.
  { destruct (linked_choice (advance rng)) as (b & Hb & Hiff).
    rewrite Hb in Hlinked. injection Hlinked as <-. exact Hiff. }
  assert (Hdim : exists core_dim rng0,
             sample_log_int np_log np_exp 32 128 (advance (advance rng))
             = Ok (core_dim, rng0)) by (do 2 eexists; reflexivity).
  destruct Hdim as (core_dim & rng0 & Hdim).
  exists core_dim, rng0. split; [exact Hdim |].
  assert (Hrun : forall k : string -> bool -> Sampler RNNCoreConfig,
             (core <~ choice ["vrnn"; "gru"; "lstm"] ;;
              linked <~ choice [true; true; true; true; false] ;;
              k core linked)%sampler rng
             = k "gru" linked (advance (advance rng))).
  { intros k. unfold bindS. now rewrite Hcore, Hlinked. }
  destruct linked.
  - destruct (sample_initializer_total np_log np_exp rng0) as (init & rng' & Hinit).
    exists init, rng'. split; [exact Hinit |].
    unfold sample_rnn_core. rewrite Hrun.
    change (String.eqb "gru" "vrnn") with false.
    change (String.eqb "gru" "gru") with true. cbv iota.
    unfold bindS at 1. rewrite Hdim.
    unfold bindS at 1. rewrite Hinit. reflexivity.
  - destruct (sample_initializer_total np_log np_exp rng0) as (wh & rng1 & H1).
    destruct (sample_initializer_total np_log np_exp rng1) as (wz & rng2 & H2).
    destruct (sample_initializer_total np_log np_exp rng2) as (wr & rng3 & H3).
    destruct (sample_initializer_total np_log np_exp rng3) as (uh & rng4 & H4).
    destruct (sample_initializer_total np_log np_exp rng4) as (uz & rng5 & H5).
    destruct (sample_initializer_total np_log np_exp rng5) as (ur & rng' & H6).
    exists wh, wz, wr, uh, uz, ur, rng1, rng2, rng3, rng4, rng5, rng'.
    repeat (split; [assumption |]).
    unfold sample_rnn_core. rewrite Hrun.
    change (String.eqb "gru" "vrnn") with false.
    change (String.eqb "gru" "gru") with true. cbv iota.
    unfold bindS at 1. rewrite Hdim.
    cbn [for_sampler gru_init_keys]. unfold bindS, ret.
    rewrite H1. cbv beta iota. rewrite H2. cbv beta iota. rewrite H3. cbv beta iota.
    rewrite H4. cbv beta iota. rewrite H5. cbv beta iota. rewrite H6. reflexivity.
Qed.

(** What [get_initializer] does on a sampled initializer config. *)
Lemma get_initializer_of_sample (rng rng' : RandomState) (init : InitializerConfig) :
  accurate np_log np_exp ->
  sample_init rng = Ok (init, rng') ->
  In (fst init) (shape_based ++ scaled)
  /\ as_initializer_config (initializer_value init) = Ok init
  /\ exists i, get_initializer np_log np_exp init = Ok i.
Proof.
  intros Hacc Hinit.
  destruct (sample_initializer_cases np_log np_exp rng)
    as [(name & Hin & Hrun) | (name & s & r & Hin & Hs & Hrun)];
    rewrite Hrun in Hinit; injection Hinit as <- <-; cbn [fst].
  - split; [apply in_or_app; now left |]. split; [reflexivity |].
    destruct (shape_based_entry np_log np_exp name Hin) as (make_fn & Hentry & Hmake).
    unfold get_initializer. rewrite Hentry. eauto.
  - split; [apply in_or_app; now right |]. split; [reflexivity |].
    destruct (scaled_entry np_log np_exp name Hin) as (make_fn & Hentry & Hmake).
    destruct (sample_log_float_positive np_log np_exp Hacc (1 # 10) 10 (advance rng))
      as (s' & Hs' & Hpos); [reflexivity | discriminate |].
    rewrite Hs' in Hs. injection Hs as <- <-.
    assert (Ht : truthy (PFloat s') = true) by (apply truthy_float; lra).
    unfold get_initializer. rewrite Hentry, Ht. now apply Hmake.
Qed.

(** C6.  When the source makes the core-kind choice "lstm",
    [sample_rnn_core] returns the kind "lstm" with a mapping of exactly the
    keys w_gates, an initializer config of the catalogue, and core_dim, an
    integer between 32 and 128, and [get_rnn_core] builds the LSTM cell from
    that output without raising. *)
Theorem sample_rnn_core_lstm (rng : RandomState) :
  accurate np_log np_exp ->
  choice ["vrnn"; "gru"; "lstm"] rng = Ok ("lstm", advance rng) ->
  exists (name : string) (param : option Q) (core_dim : Z) (rng' : RandomState)
         (w_gates : tf_initializer),
    sample_rnn_core np_log np_exp rng
      = Ok (("lstm", [("w_gates", PTuple [PStr name; float_or_none param]);
                      ("core_dim", PInt core_dim)]), rng')
    /\ dict_mem name (_initializer_name_map np_log np_exp) = true
    /\ (32 <= core_dim <= 128)%Z
    /\ get_rnn_core np_log np_exp
         ("lstm", [("w_gates", PTuple [PStr name; float_or_none param]);
                   ("core_dim", PInt core_dim)])
       = Ok (snt_LSTM (PInt core_dim) [("w_gates", w_gates)]).
Proof.
  intros Hacc Hcore.
  destruct (linked_choice (advance rng)) as (linked & Hlinked & _).
  destruct (sample_initializer_total np_log np_exp (advance (advance rng)))
    as ([name param] & rng1 & Hinit).
  destruct (get_initializer_of_sample _ _ _ Hacc Hinit) as (Hin & Hcfg & w_gates & Hget).
  destruct (sample_log_int_range np_log np_exp Hacc 32 128 rng1)
    as (core_dim & Hdim & Hrange); [lia | lia | lia |].
  exists name, param, core_dim, (advance rng1), w_gates.
  split; [| split; [| split; [exact Hrange |]]].
  - unfold sample_rnn_core, bindS. rewrite Hcore. cbv beta iota.
    rewrite Hlinked. cbv beta iota.
    change (String.eqb "lstm" "vrnn") with false.
    change (String.eqb "lstm" "gru") with false.
    change (String.eqb "lstm" "lstm") with true. cbv beta iota.
    rewrite Hinit. cbv beta iota. rewrite Hdim. reflexivity.
  - cbn [fst] in Hin. simpl in Hin.
    decompose [or] Hin; subst; try contradiction; reflexivity.
  - unfold get_rnn_core. change (String.eqb "lstm" "lstm") with true. cbv iota.
    change (PTuple [PStr name; float_or_none param])
      with (initializer_value (name, param)).
    set (args := [("w_gates", initializer_value (name, param));
                  ("core_dim", PInt core_dim)]).
    unfold get_initializer_at.
    change (dict_item "w_gates" args) with (Ok (initializer_value (name, param))).
    change (dict_item "core_dim" args) with (Ok (PInt core_dim)).
    cbn [bindR]. rewrite Hcfg. cbn [bindR]. rewrite Hget. reflexivity.
Qed.

End RnnCore.

Lemma sample_rnn_core_gru_linking_witness :
  let rng := source_of [1 # 2; 9 # 10; 1 # 3; 1 # 10; 95 # 100; 1 # 4; 7 # 10; 3 # 4]%Q in
  count_occ bool_dec [true; true; true; true; false] true = 4%nat
  /\ (false = true <-> (peek (advance rng) < 4 # 5)%Q)
  /\ exists core_dim rng0,
      sample_log_int lin_log lin_exp 32 128 (advance (advance rng)) = Ok (core_dim, rng0)
      /\ exists wh wz wr uh uz ur rng1 rng2 rng3 rng4 rng5 rng',
          sample_initializer lin_log lin_exp rng0 = Ok (wh, rng1)
          /\ sample_initializer lin_log lin_exp rng1 = Ok (wz, rng2)
          /\ sample_initializer lin_log lin_exp rng2 = Ok (wr, rng3)
          /\ sample_initializer lin_log lin_exp rng3 = Ok (uh, rng4)
          /\ sample_initializer lin_log lin_exp rng4 = Ok (uz, rng5)
          /\ sample_initializer lin_log lin_exp rng5 = Ok (ur, rng')
          /\ sample_rnn_core lin_log lin_exp rng
             = Ok (("gru",
                    [("core_dim", PInt core_dim);
                     ("wh", initializer_value wh); ("wz", initializer_value wz);
                     ("wr", initializer_value wr); ("uh", initializer_value uh);
                     ("uz", initializer_value uz); ("ur", initializer_value ur)]),
                   rng').
Proof.
  intros rng.
  exact (sample_rnn_core_gru_linking lin_log lin_exp rng false eq_refl eq_refl).
Defined.

(** The two gru configs of two concrete sources: an unlinked one, whose six
    slots come from six draws, and a linked one. *)
Example sample_rnn_core_gru_unlinked :
  value_of (sample_rnn_core lin_log lin_exp
              (source_of [1 # 2; 9 # 10; 1 # 3; 1 # 10; 95 # 100; 1 # 4; 7 # 10; 3 # 4]%Q))
  = Ok ("gru",
        [("core_dim", PInt 64);
         ("wh", PTuple [PStr "glorot_normal"; PNone]);
         ("wz", PTuple [PStr "variance_scaling"; PFloat (1030 # 400)]);
         ("wr", PTuple [PStr "random_normal"; PFloat (3010 # 400)]);
         ("uh", PTuple [PStr "he_uniform"; PNone]);
         ("uz", PTuple [PStr "truncated_normal"; PFloat (1020 # 300)]);
         ("ur", PTuple [PStr "glorot_normal"; PNone])]).
Proof. vm_compute. reflexivity. Qed.

Example sample_rnn_core_gru_linked :
  value_of (sample_rnn_core lin_log lin_exp
              (source_of [1 # 2; 1 # 10; 1 # 3; 95 # 100; 1 # 4; 7 # 10; 3 # 4]%Q))
  = Ok ("gru",
        [("core_dim", PInt 64);
         ("wh", PTuple [PStr "variance_scaling"; PFloat (1030 # 400)]);
         ("wz", PTuple [PStr "variance_scaling"; PFloat (1030 # 400)]);
         ("wr", PTuple [PStr "variance_scaling"; PFloat (1030 # 400)]);
         ("uh", PTuple [PStr "variance_scaling"; PFloat (1030 # 400)]);
         ("uz", PTuple [PStr "variance_scaling"; PFloat (1030 # 400)]);
         ("ur", PTuple [PStr "variance_scaling"; PFloat (1030 # 400)])]).
Proof. vm_compute. reflexivity. Qed.

Lemma sample_rnn_core_lstm_witness :
  let rng := source_of [9 # 10; 1 # 2; 95 # 100; 1 # 3; 1 # 4]%Q in
  exists (name : string) (param : option Q) (core_dim : Z) (rng' : RandomState)
         (w_gates : tf_initializer),
    sample_rnn_core lin_log lin_exp rng
      = Ok (("lstm", [("w_gates", PTuple [PStr name; float_or_none param]);
                      ("core_dim", PInt core_dim)]), rng')
    /\ dict_mem name (_initializer_name_map lin_log lin_exp) = true
    /\ (32 <= core_dim <= 128)%Z
    /\ get_rnn_core lin_log lin_exp
         ("lstm", [("w_gates", PTuple [PStr name; float_or_none param]);
                   ("core_dim", PInt core_dim)])
       = Ok (snt_LSTM (PInt core_dim) [("w_gates", w_gates)]).
Proof.
  intros rng.
  exact (sample_rnn_core_lstm lin_log lin_exp rng lin_accurate eq_refl).
Defined.

Example sample_rnn_core_lstm_run :
  value_of (sample_rnn_core lin_log lin_exp
              (source_of [9 # 10; 1 # 2; 95 # 100; 1 # 3; 1 # 4]%Q))
  = Ok ("lstm",
        [("w_gates", PTuple [PStr "variance_scaling"; PFloat (1020 # 300)]);
         ("core_dim", PInt 56)])
  /\ get_rnn_core lin_log lin_exp
       ("lstm",
        [("w_gates", PTuple [PStr "variance_scaling"; PFloat (1020 # 300)]);
         ("core_dim", PInt 56)])
     = Ok (snt_LSTM (PInt 56)
             [("w_gates", TfInitializer "variance_scaling" [1020 # 300]%Q [])]).
Proof. split; vm_compute; reflexivity. Qed.

(** * Properties of [sample_bool] *)

Local Open Scope Q_scope.

Lemma Qltb_lt (x y : Q) : Qltb x y = true <-> x < y.
Proof.
  unfold Qltb. rewrite negb_true_iff, <- not_true_iff_false, Qle_bool_iff.
  split; [apply Qnot_le_lt | apply Qlt_not_le].
Qed.

Lemma in_unit_interval (p : Q) :
  Qle_bool 0 p && Qle_bool p 1 = true <-> 0 <= p <= 1.
Proof. now rewrite andb_true_iff, !Qle_bool_iff. Qed.

(** A predicate closed downwards on [0..N) holds on an initial segment. *)
Lemma filter_seq_threshold (f : nat -> bool) (N : nat) :
  (forall j k : nat, (j <= k)%nat -> (k < N)%nat -> f k = true -> f j = true) ->
  let m := List.length (filter f (seq 0 N)) in
  (m <= N)%nat /\ forall k : nat, (k < N)%nat -> (f k = true <-> (k < m)%nat).
Proof.
  induction N as [| N IHN]; intros Hdown; cbv zeta in *.
  - split; [apply Nat.le_refl | intros k Hk; inversion Hk].
  - destruct IHN as [IHle IH].
    { intros j k Hjk Hk. apply Hdown; [exact Hjk | lia]. }
    rewrite seq_S, filter_app, length_app. cbn [Nat.add filter].
    set (m := List.length (filter f (seq 0 N))) in *.
    destruct (f N) eqn:HfN; cbn [List.length].
    + assert (Hm : m = N).
      { destruct (Nat.eq_dec m N) as [E | NE]; [exact E |].
        assert (Hlt : (m < N)%nat) by lia.
        assert (Hfm : f m = true) by (apply (Hdown m N); [lia | lia | exact HfN]).
        apply (IH m Hlt) in Hfm. lia. }
      split; [lia |]. intros k Hk.
      destruct (Nat.eq_dec k N) as [-> | NE].
      * split; [lia | intros _; exact HfN].
      * rewrite (IH k) by lia. lia.
    + split; [lia |]. intros k Hk. rewrite Nat.add_0_r.
      destruct (Nat.eq_dec k N) as [-> | NE].
      * rewrite HfN. split; [discriminate | lia].
      * apply IH. lia.
Qed.

Lemma peek_grid (N k : nat) :
  (k < N)%nat -> peek (grid N k) == inject_Z (Z.of_nat k) / inject_Z (Z.of_nat N).
Proof.
  intros Hk. unfold peek, grid, frac. cbn [draws pos].
  assert (HN : (0 < Z.of_nat N)%Z) by lia.
  assert (Hden : Z.pos (Pos.of_nat N) = Z.of_nat N).
  { destruct N as [| N']; [lia |].
    rewrite <- Pos.of_nat_succ, Znat.Zpos_P_of_succ_nat. lia. }
  assert (Hfloor : Qfloor (Z.of_nat k # Pos.of_nat N) = 0%Z).
  { unfold Qfloor. rewrite Hden. apply Z.div_small. lia. }
  rewrite Hfloor. change (inject_Z 0) with 0.
  rewrite (Qmake_Qdiv (Z.of_nat k) (Pos.of_nat N)), Hden. ring.
Qed.

Lemma sample_bool_run (rng : RandomState) (p : Q) :
  0 <= p <= 1 ->
  sample_bool p rng = Ok (Qltb (0 + (1 - 0) * peek rng) p, advance rng).
Proof.
  intros Hp. apply in_unit_interval in Hp. unfold sample_bool. now rewrite Hp.
Qed.

Lemma sample_bool_grid (N k : nat) (p : Q) :
  0 <= p <= 1 -> (k < N)%nat ->
  returns_true (sample_bool p (grid N k)) = true
  <-> inject_Z (Z.of_nat k) < p * inject_Z (Z.of_nat N).
Proof.
  intros Hp Hk. rewrite (sample_bool_run _ _ Hp). cbn [returns_true].
  assert (HN : 0 < inject_Z (Z.of_nat N)).
  { change 0 with (inject_Z 0). rewrite <- Zlt_Qlt. lia. }
  assert (Hx : peek (grid N k) * inject_Z (Z.of_nat N) == inject_Z (Z.of_nat k)).
  { rewrite (peek_grid N k Hk). field. lra. }
  set (x := peek (grid N k)) in *.
  destruct (Qltb (0 + (1 - 0) * x) p) eqn:Hb.
  - apply Qltb_lt in Hb. split; [intros _ | reflexivity]. nra.
  - split; [discriminate |]. intros Hlt.
    apply not_true_iff_false in Hb. exfalso. apply Hb, Qltb_lt. nra.
Qed.

(** C7.  [sample_bool] raises the invalid-argument error for every [p]
    outside [0,1].  For [p] in [0,1] it returns, without raising, the boolean
    that is true exactly when the uniform draw from the unit interval falls
    below [p], an event of probability [p]: among [N] equally spaced sources
    the number that give true is within one of [p * N]. *)
Theorem sample_bool_spec (rng : RandomState) (p : Q) :
  (~ 0 <= p <= 1 ->
   sample_bool p rng = Raise (ValueError "p must be between 0 and 1."))
  /\ (0 <= p <= 1 ->
      (exists b : bool,
          sample_bool p rng = Ok (b, advance rng) /\ (b = true <-> peek rng < p))
      /\ forall N : nat, (0 < N)%nat ->
           p * inject_Z (Z.of_nat N) <= inject_Z (Z.of_nat (frequency (sample_bool p) N))
           /\ inject_Z (Z.of_nat (frequency (sample_bool p) N))
              < p * inject_Z (Z.of_nat N) + 1).
Proof.
  split.
  - intros Hp. rewrite <- in_unit_interval in Hp. apply not_true_iff_false in Hp.
    unfold sample_bool. now rewrite Hp.
  - intros Hp. split.
    + eexists. split; [apply (sample_bool_run _ _ Hp) |].
      rewrite Qltb_lt. split; intros H; lra.
    + intros N HN. unfold frequency.
      set (f := fun k : nat => returns_true (sample_bool p (grid N k))).
      destruct (filter_seq_threshold f N) as [Hle Hthr].
      { intros j k Hjk Hk Hfk. unfold f in *.
        apply (sample_bool_grid N k p Hp Hk) in Hfk.
        apply (sample_bool_grid N j p Hp); [lia |].
        assert (inject_Z (Z.of_nat j) <= inject_Z (Z.of_nat k))
          by (rewrite <- Zle_Qle; lia).
        lra. }
      set (m := List.length (filter f (seq 0 N))) in *.
      assert (HNq : 0 < inject_Z (Z.of_nat N)).
      { change 0 with (inject_Z 0). rewrite <- Zlt_Qlt. lia. }
      split.
      * destruct (Nat.eq_dec m N) as [-> | NE]; [nra |].
        assert (Hm : (m < N)%nat) by lia.
        destruct (f m) eqn:Hfm.
        -- apply (Hthr m Hm) in Hfm. lia.
        -- apply Qnot_lt_le. intros Hlt.
           apply (sample_bool_grid N m p Hp Hm) in Hlt. unfold f in Hfm. congruence.
      * destruct m as [| k]; [change (inject_Z (Z.of_nat 0)) with 0; nra |].
        assert (Hk : (k < N)%nat) by lia.
        assert (Hfk : f k = true) by (apply (Hthr k Hk); lia).
        apply (sample_bool_grid N k p Hp Hk) in Hfk.
        rewrite Nat2Z.inj_succ. unfold Z.succ. rewrite inject_Z_plus.
        change (inject_Z 1) with 1. lra.
Qed.

Lemma sample_bool_spec_witness :
  let rng := source_of [1 # 4]%Q in
  sample_bool (3 # 2) rng = Raise (ValueError "p must be between 0 and 1.")
  /\ (exists b : bool,
         sample_bool (3 # 10) rng = Ok (b, advance rng)
         /\ (b = true <-> peek rng < 3 # 10))
  /\ (3 # 10) * inject_Z (Z.of_nat 10)
     <= inject_Z (Z.of_nat (frequency (sample_bool (3 # 10)) 10))
     < (3 # 10) * inject_Z (Z.of_nat 10) + 1.
Proof.
  intros rng.
  assert (Hp : 0 <= 3 # 10 <= 1) by (split; discriminate).
  split.
  { apply (sample_bool_spec rng (3 # 2)). intros [_ H]. apply H. reflexivity. }
  destruct (sample_bool_spec rng (3 # 10)) as [_ Hin].
  destruct (Hin Hp) as [Hrun Hfreq].
  split; [exact Hrun | apply Hfreq; repeat constructor].
Defined.

(** Three of the ten equally spaced sources give true for [p = 0.3], and a
    probability above one raises. *)
Example sample_bool_runs :
  frequency (sample_bool (3 # 10)) 10 = 3%nat
  /\ value_of (sample_bool (3 # 10) (source_of [1 # 4]%Q)) = Ok true
  /\ value_of (sample_bool (3 # 10) (source_of [1 # 2]%Q)) = Ok false
  /\ value_of (sample_bool (3 # 2) (source_of [1 # 4]%Q))
     = Raise (ValueError "p must be between 0 and 1.")
  /\ value_of (sample_bool (- (1 # 100)) (source_of [1 # 4]%Q))
     = Raise (ValueError "p must be between 0 and 1.").
Proof. repeat split. Qed.

Local Close Scope Q_scope.

Lemma nth_error_last {A : Type} (l : list A) (x : A) :
  nth_error (l ++ [x])%list (List.length l) = Some x.
Proof. rewrite nth_error_app2, Nat.sub_diag; [reflexivity | apply Nat.le_refl]. Qed.

Lemma stage_of_tf_op (f : tensor -> Result tensor) : stage_of (tf_op f) f.
Proof.
  intros st img t Ht. unfold tf_op, bindH, get_tensor. rewrite Ht.
  destruct (f t) as [t' | e].
  - exists [OTensor t'], (List.length st). split; [reflexivity |].
    split; [apply nth_error_last | discriminate].
  - exists []. now rewrite app_nil_r.
Qed.

Lemma stage_of_when (c : bool) (g : ref -> Heap ref) (f : tensor -> Result tensor) :
  stage_of g f -> stage_of (when_ c g) (fun t => if c then f t else Ok t).
Proof.
  intros Hg. destruct c; [exact Hg |].
  intros st img t Ht. exists [], img. rewrite app_nil_r. now repeat split.
Qed.

Lemma stage_of_bind (g h : ref -> Heap ref) (f f' : tensor -> Result tensor) :
  stage_of g f -> stage_of h f' ->
  stage_of (fun img => bindH (g img) h) (fun t => bindR (f t) f').
Proof.
  intros Hg Hh st img t Ht. specialize (Hg st img t Ht). unfold bindH.
  destruct (f t) as [t1 | e]; cbn [bindR].
  - destruct Hg as (ext1 & img1 & Hrun1 & Ht1 & Hsame1). rewrite Hrun1.
    specialize (Hh _ img1 t1 Ht1).
    destruct (f' t1) as [t2 | e].
    + destruct Hh as (ext2 & img2 & Hrun2 & Ht2 & Hsame2).
      exists (ext1 ++ ext2)%list, img2. rewrite app_assoc.
      split; [exact Hrun2 |]. split; [exact Ht2 |].
      intros Hnil. apply app_eq_nil in Hnil. destruct Hnil as [-> ->].
      rewrite (Hsame2 eq_refl). now apply Hsame1.
    + destruct Hh as (ext2 & Hrun2). exists (ext1 ++ ext2)%list.
      now rewrite app_assoc.
  - destruct Hg as (ext & Hrun). exists ext. now rewrite Hrun.
Qed.

Lemma stage_of_crop (amount channels : Z) :
  stage_of
    (fun img =>
       bindH (get_tensor img)
         (fun t =>
            let height := fst (fst (shape t)) in
            let width := snd (fst (shape t)) in
            tf_op (fun i => random_crop i (height - amount, width - amount, channels))
              img))
    (fun t =>
       random_crop t
         (fst (fst (shape t)) - amount, snd (fst (shape t)) - amount, channels)).
Proof.
  intros st img t Ht.
  pose proof (stage_of_tf_op
                (fun i => random_crop i
                            (fst (fst (shape t)) - amount, snd (fst (shape t)) - amount,
                             channels)) st img t Ht) as H.
  assert (Heq : bindH (get_tensor img)
                  (fun t0 =>
                     let height := fst (fst (shape t0)) in
                     let width := snd (fst (shape t0)) in
                     tf_op (fun i => random_crop i
                                       (height - amount, width - amount, channels))
                       img) st
                = tf_op (fun i => random_crop i
                                    (fst (fst (shape t)) - amount,
                                     snd (fst (shape t)) - amount, channels)) img st).
  { unfold bindH at 1, get_tensor at 1. now rewrite Ht. }
  cbv beta in H |- *. rewrite Heq. exact H.
Qed.

Lemma store_set_last (st : store) (o o' : object) :
  store_set (List.length st) o (st ++ [o'])%list = (st ++ [o])%list.
Proof. induction st as [| x st IH]; [reflexivity | cbn; now rewrite IH]. Qed.


Lemma dict_get_set_other {V : Type} (k k0 : string) (v : V) (d : dict V) :
  k0 <> k -> dict_get k0 (dict_set k v d) = dict_get k0 d.
Proof.
  intros Hne. induction d as [| [k' v'] d IH]; cbn.
  - apply String.eqb_neq in Hne. now rewrite Hne.
  - destruct (String.eqb k k') eqn:E; cbn.
    + apply String.eqb_eq in E. subst k'.
      apply String.eqb_neq in Hne. now rewrite Hne.
    + now rewrite IH.
Qed.


(** Running a stage in front of a continuation, when its call is accepted
    and when it is refused. *)
Lemma stage_of_run_ok (g : ref -> Heap ref) (f : tensor -> Result tensor)
    (st : store) (img : ref) (t t' : tensor) :
  stage_of g f -> nth_error st img = Some (OTensor t) -> f t = Ok t' ->
  exists (ext : store) (img' : ref),
    nth_error (st ++ ext)%list img' = Some (OTensor t')
    /\ (ext = [] -> img' = img)
    /\ forall (A : Type) (k : ref -> Heap A),
         bindH (g img) k st = k img' (st ++ ext)%list.
Proof.
  intros Hg Ht Hf. specialize (Hg st img t Ht). rewrite Hf in Hg.
  destruct Hg as (ext & img' & Hrun & Ht' & Hsame).
  exists ext, img'. split; [exact Ht' |]. split; [exact Hsame |].
  intros A k. unfold bindH. now rewrite Hrun.
Qed.

Lemma stage_of_run_raise (g : ref -> Heap ref) (f : tensor -> Result tensor)
    (st : store) (img : ref) (t : tensor) (e : exn) :
  stage_of g f -> nth_error st img = Some (OTensor t) -> f t = Raise e ->
  exists ext : store,
    forall (A : Type) (k : ref -> Heap A),
      bindH (g img) k st = (Raise e, (st ++ ext)%list).
Proof.
  intros Hg Ht Hf. specialize (Hg st img t Ht). rewrite Hf in Hg.
  destruct Hg as (ext & Hrun). exists ext.
  intros A k. unfold bindH. now rewrite Hrun.
Qed.

(** The last three statements of [augment]: copy the record at [example],
    store the new image in the copy, return the copy. *)
Lemma copy_and_set_image (st : store) (example img' : ref) (fields : dict ref) :
  nth_error st example = Some (ODict fields) ->
  bindH (copy_copy example)
    (fun example => bindH (set_field example "image" img') (fun _ => retH example)) st
  = (Ok (List.length st), (st ++ [ODict (dict_set "image" img' fields)])%list).
Proof.
  intros Hexample. unfold bindH, copy_copy, alloc, set_field, retH.
  now rewrite Hexample, nth_error_last, store_set_last.
Qed.

(** What [augment] computes on an example record with an image: the new
    tensors [ext], the last of which is the node of the last call, then the
    copy of the record; or the error of the first call that is refused. *)
Lemma get_augmentation_graph
    (cfg : AugmentationConfig) (st : store) (example img : ref)
    (fields : dict ref) (t : tensor) :
  nth_error st example = Some (ODict fields) ->
  dict_get "image" fields = Some img ->
  nth_error st img = Some (OTensor t) ->
  match image_graph cfg t with
  | Ok t' =>
      exists (ext : store) (img' : ref),
        get_augmentation cfg example st
        = (Ok (List.length (st ++ ext)%list),
           (st ++ ext ++ [ODict (dict_set "image" img' fields)])%list)
        /\ nth_error (st ++ ext)%list img' = Some (OTensor t')
        /\ (ext = [] -> img' = img)
  | Raise e =>
      exists ext : store, get_augmentation cfg example st = (Raise e, (st ++ ext)%list)
  end.
Proof.
  intros Hexample Himage Himg.
  assert (Hlen : (example < List.length st)%nat) by (apply nth_error_Some; congruence).
  remember (get_augmentation cfg example st) as run eqn:Hrun.
  unfold get_augmentation in Hrun.
  unfold bindH at 1, get_field at 1 in Hrun. rewrite Hexample, Himage in Hrun.
  unfold bindH at 1, get_tensor at 1 in Hrun. rewrite Himg in Hrun.
  pose proof (stage_of_when (truthy (PInt (crop_amount cfg))) _ _
                (stage_of_crop (crop_amount cfg) (snd (shape t)))) as Hcrop.
  pose proof (stage_of_when (flip_left_right cfg) _ _
                (stage_of_tf_op random_flip_left_right)) as Hlr.
  pose proof (stage_of_when (flip_up_down cfg) _ _
                (stage_of_tf_op random_flip_up_down)) as Hud.
  pose proof (stage_of_when (do_color_aug cfg && (snd (shape t) =? 3)) _ _
                (stage_of_bind _ _ _ _
                   (stage_of_tf_op (fun i => random_brightness i (brightness cfg)))
                   (stage_of_bind _ _ _ _
                      (stage_of_tf_op
                         (fun i => random_saturation i
                                     (1 - saturation cfg) (1 + saturation cfg)))
                      (stage_of_bind _ _ _ _
                         (stage_of_tf_op (fun i => random_hue i (hue cfg)))
                         (stage_of_tf_op
                            (fun i => random_contrast i
                                        (1 - contrast cfg) (1 + contrast cfg)))))))
    as Hcolor.
  unfold image_graph. cbv zeta.
  destruct (if truthy (PInt (crop_amount cfg))
            then random_crop t (fst (fst (shape t)) - crop_amount cfg,
                                snd (fst (shape t)) - crop_amount cfg, snd (shape t))
            else Ok t) as [t1 | e] eqn:E1; cbn [bindR].
  2:{ destruct (stage_of_run_raise _ _ st img t e Hcrop Himg E1) as (ext & Hr).
      rewrite Hr in Hrun. subst run. now exists ext. }
  destruct (stage_of_run_ok _ _ st img t t1 Hcrop Himg E1)
    as (e1 & img1 & Ht1 & Hs1 & Hrun1).
  rewrite Hrun1 in Hrun.
  destruct (if flip_left_right cfg then random_flip_left_right t1 else Ok t1)
    as [t2 | e] eqn:E2; cbn [bindR].
  2:{ destruct (stage_of_run_raise _ _ _ img1 t1 e Hlr Ht1 E2) as (ext & Hr).
      rewrite Hr in Hrun. subst run. exists (e1 ++ ext)%list. now rewrite app_assoc. }
  destruct (stage_of_run_ok _ _ _ img1 t1 t2 Hlr Ht1 E2)
    as (e2 & img2 & Ht2 & Hs2 & Hrun2).
  rewrite Hrun2 in Hrun.
  destruct (if flip_up_down cfg then random_flip_up_down t2 else Ok t2)
    as [t3 | e] eqn:E3; cbn [bindR].
  2:{ destruct (stage_of_run_raise _ _ _ img2 t2 e Hud Ht2 E3) as (ext & Hr).
      rewrite Hr in Hrun. subst run. exists (e1 ++ e2 ++ ext)%list.
      now rewrite !app_assoc. }
  destruct (stage_of_run_ok _ _ _ img2 t2 t3 Hud Ht2 E3)
    as (e3 & img3 & Ht3 & Hs3 & Hrun3).
  rewrite Hrun3 in Hrun.
  match goal with
  | |- match ?r with _ => _ end => destruct r as [t4 | e] eqn:E4
  end.
  2:{ destruct (stage_of_run_raise _ _ _ img3 t3 e Hcolor Ht3 E4) as (ext & Hr).
      rewrite Hr in Hrun. subst run. exists (e1 ++ e2 ++ e3 ++ ext)%list.
      now rewrite !app_assoc. }
  destruct (stage_of_run_ok _ _ _ img3 t3 t4 Hcolor Ht3 E4)
    as (e4 & img' & Ht' & Hs4 & Hrun4).
  rewrite Hrun4 in Hrun.
  rewrite (copy_and_set_image _ example img' fields) in Hrun.
  2:{ rewrite <- !app_assoc. rewrite nth_error_app1; [exact Hexample | exact Hlen]. }
  subst run. exists (e1 ++ e2 ++ e3 ++ e4)%list, img'.
  rewrite <- !app_assoc in Ht'. split; [| split].
  - now rewrite <- !app_assoc.
  - exact Ht'.
  - intros Hnil.
    apply app_eq_nil in Hnil. destruct Hnil as [-> Hnil].
    apply app_eq_nil in Hnil. destruct Hnil as [-> Hnil].
    apply app_eq_nil in Hnil. destruct Hnil as [-> ->].
    rewrite (Hs4 eq_refl), (Hs3 eq_refl), (Hs2 eq_refl). now apply Hs1.
Qed.








(** The run on the example record: seven new tensors, then the copy, whose
    image field refers to the last of them and whose label is shared. *)
Example get_augmentation_full_run :
  let (result, st') := get_augmentation full_augmentation 2%nat example_store in
  result = Ok 10%nat
  /\ List.length st' = 11%nat
  /\ firstn 3 st' = example_store
  /\ nth_error st' 10 = Some (ODict [("image", 9%nat); ("label", 1%nat)])
  /\ option_map (fun o => match o with OTensor t => shape t | ODict _ => (0, 0, 0) end)
       (nth_error st' 9)
     = Some (30, 30, 3).
Proof. vm_compute. repeat split. Qed.

(** The store only grows, also when [augment] raises: no object of the
    caller is ever written. *)
Lemma get_augmentation_never_mutates
    (cfg : AugmentationConfig) (st : store) (example : ref) :
  exists ext : store, snd (get_augmentation cfg example st) = (st ++ ext)%list.
Proof.
  destruct (nth_error st example) as [[fields | t0] |] eqn:Hexample.
  - destruct (dict_get "image" fields) as [img |] eqn:Himage.
    + destruct (nth_error st img) as [[fields' | t] |] eqn:Himg.
      * exists []. rewrite app_nil_r.
        unfold get_augmentation, bindH at 1, get_field at 1.
        rewrite Hexample, Himage.
        unfold bindH at 1, get_tensor at 1. now rewrite Himg.
      * pose proof (get_augmentation_graph cfg st example img fields t
                      Hexample Himage Himg) as H.
        destruct (image_graph cfg t) as [t' | e].
        -- destruct H as (ext & img' & Hrun & _). rewrite Hrun. now eexists.
        -- destruct H as (ext & Hrun). rewrite Hrun. now eexists.
      * exists []. rewrite app_nil_r.
        unfold get_augmentation, bindH at 1, get_field at 1.
        rewrite Hexample, Himage.
        unfold bindH at 1, get_tensor at 1. now rewrite Himg.
    + exists []. rewrite app_nil_r.
      unfold get_augmentation, bindH at 1, get_field at 1.
      now rewrite Hexample, Himage.
  - exists []. rewrite app_nil_r.
    unfold get_augmentation, bindH at 1, get_field at 1. now rewrite Hexample.
  - exists []. rewrite app_nil_r.
    unfold get_augmentation, bindH at 1, get_field at 1. now rewrite Hexample.
Qed.

Lemma dict_get_constant {V : Type} (k : string) (v v' : V) (names : list string) :
  dict_get k (map (fun k' => (k', v)) names) = Some v' -> v' = v.
Proof.
  induction names as [| k' names IH]; cbn; [discriminate |].
  destruct (String.eqb k k'); [congruence | exact IH].
Qed.

Section SequenceRegistries.

Variable np_log : Q -> Q.
Variable np_exp : Q -> Q.
Variable Pipeline : Type.
Variable random_slice_text_data :
  forall (dataset_name : string) (batch_size num_train patch_length : pyval)
         (cache_dataset : bool) (num_per_valid : Z) (shuffle_buffer : option Z),
    Datasets Pipeline.

Local Abbreviation text_registry :=
  (_name_to_text_dataset_map np_log np_exp Pipeline random_slice_text_data).
Local Abbreviation char_registry :=
  (_name_to_char_sequence_dataset_map np_log np_exp Pipeline random_slice_text_data).
Local Abbreviation word_registry :=
  (_name_to_word_sequence_dataset_map np_log np_exp Pipeline random_slice_text_data).

(** C2.  The text-classification registry has nine keys; the first is the
    two names "imdb_reviews/subwords8k" and "imdb_reviews/bytes" run
    together, and neither of the two is a key.  For every key of the
    registry [get_text_dataset] is [get_text_classification] on the fixed
    name "imdb_reviews/subwords8k", which is the dataset name the provider
    receives. *)
Theorem text_registry_fixed_target (name : string) (config : dict pyval) :
  In name (dict_keys text_registry) ->
  dict_keys text_registry
  = [ "imdb_reviews/subwords8kimdb_reviews/bytes";
      "tokenized_amazon_reviews/Books_v1_02_bytes";
      "tokenized_amazon_reviews/Camera_v1_00_bytes";
      "tokenized_amazon_reviews/Home_v1_00_bytes";
      "tokenized_amazon_reviews/Video_v1_00_bytes";
      "tokenized_amazon_reviews/Books_v1_02_subwords8k";
      "tokenized_amazon_reviews/Camera_v1_00_subwords8k";
      "tokenized_amazon_reviews/Home_v1_00_subwords8k";
      "tokenized_amazon_reviews/Video_v1_00_subwords8k" ]
  /\ List.length (dict_keys text_registry) = 9%nat
  /\ "imdb_reviews/subwords8kimdb_reviews/bytes"
     = "imdb_reviews/subwords8k" ++ "imdb_reviews/bytes"
  /\ dict_mem "imdb_reviews/subwords8k" text_registry = false
  /\ dict_mem "imdb_reviews/bytes" text_registry = false
  /\ get_text_dataset np_log np_exp Pipeline random_slice_text_data (name, config)
     = get_text_classification Pipeline random_slice_text_data
         "imdb_reviews/subwords8k" config
  /\ forall bs num_train patch_length : pyval,
      dict_get "bs" config = Some bs ->
      dict_get "num_train" config = Some num_train ->
      dict_get "patch_length" config = Some patch_length ->
      get_text_dataset np_log np_exp Pipeline random_slice_text_data (name, config)
      = Ok (random_slice_text_data "imdb_reviews/subwords8k" bs num_train patch_length
              true 3000 None).
Proof.
  intros Hin.
  assert (Hget : get_text_dataset np_log np_exp Pipeline random_slice_text_data
                   (name, config)
                 = get_text_classification Pipeline random_slice_text_data
                     "imdb_reviews/subwords8k" config).
  { cbn in Hin. decompose [or] Hin; subst; try contradiction; reflexivity. }
  repeat (split; [reflexivity |]).
  split; [exact Hget |].
  intros bs num_train patch_length Hbs Hnt Hpl. rewrite Hget.
  unfold get_text_classification, dict_item. now rewrite Hbs, Hnt, Hpl.
Qed.

(** The byte-level and the word-level materializers collapse the bundle to
    the train pipeline when the config's just_train is true. *)
Lemma get_byte_dataset_just_train
    (config : dict pyval) (name : string) (ds : Datasets Pipeline) :
  dict_get "just_train" config = Some (PBool true) ->
  get_byte_dataset Pipeline random_slice_text_data config name = Ok ds ->
  validation ds = train ds /\ train_for_eval ds = train ds /\ test ds = train ds.
Proof.
  intros Hjt. unfold get_byte_dataset, dict_item. rewrite Hjt.
  destruct (dict_get "batch_size" config); [| discriminate].
  destruct (dict_get "patch_length" config); [| discriminate].
  destruct (dict_get "num_train" config); [| discriminate].
  cbn. intros [= <-]. repeat split.
Qed.

Lemma _make_get_word_dataset_just_train
    (config : dict pyval) (name : string) (ds : Datasets Pipeline) :
  dict_get "just_train" config = Some (PBool true) ->
  _make_get_word_dataset Pipeline random_slice_text_data name config = Ok ds ->
  validation ds = train ds /\ train_for_eval ds = train ds /\ test ds = train ds.
Proof.
  intros Hjt. unfold _make_get_word_dataset, dict_item. rewrite Hjt.
  destruct (dict_get "batch_size" config); [| discriminate].
  destruct (dict_get "patch_length" config); [| discriminate].
  destruct (dict_get "num_train" config); [| discriminate].
  cbn. intros [= <-]. repeat split.
Qed.

(** Every entry of the two sequence registries is its own name's
    materializer. *)
Lemma get_char_lm_dataset_entry (name : string) (config : dict pyval) :
  In name (dict_keys char_registry) ->
  get_char_lm_dataset np_log np_exp Pipeline random_slice_text_data (name, config)
  = get_byte_dataset Pipeline random_slice_text_data config name.
Proof.
  intros Hin. cbn in Hin. decompose [or] Hin; subst; try contradiction; reflexivity.
Qed.

Lemma get_word_lm_dataset_entry (name : string) (config : dict pyval) :
  In name (dict_keys word_registry) ->
  get_word_lm_dataset np_log np_exp Pipeline random_slice_text_data (name, config)
  = _make_get_word_dataset Pipeline random_slice_text_data name config.
Proof.
  intros Hin. cbn in Hin. decompose [or] Hin; subst; try contradiction; reflexivity.
Qed.

(** The loop of the text registry binds every name to one and the same
    pair. *)
Lemma text_registry_entries :
  text_registry
  = map (fun k => (k, (sample_text_classification np_log np_exp,
                       get_text_classification Pipeline random_slice_text_data
                         "imdb_reviews/subwords8k")))
      text_dataset_names.
Proof. reflexivity. Qed.

(** The text-classification materializer never reads just_train. *)
Lemma get_text_dataset_ignores_just_train
    (name : string) (config : dict pyval) (just_train : pyval) :
  get_text_dataset np_log np_exp Pipeline random_slice_text_data
    (name, dict_set "just_train" just_train config)
  = get_text_dataset np_log np_exp Pipeline random_slice_text_data (name, config).
Proof.
  unfold get_text_dataset. cbn [fst snd].
  destruct (dict_item name text_registry) as [[sampler materializer] | e] eqn:Hentry;
    [| reflexivity].
  cbn [bindR snd].
  assert (Hm : materializer
               = get_text_classification Pipeline random_slice_text_data
                   "imdb_reviews/subwords8k").
  { unfold dict_item in Hentry. rewrite text_registry_entries in Hentry.
    destruct (dict_get name _) as [entry |] eqn:Hget; [| discriminate].
    apply dict_get_constant in Hget. congruence. }
  rewrite Hm. unfold get_text_classification, dict_item.
  now rewrite !dict_get_set_other by discriminate.
Qed.

End SequenceRegistries.

(** [_get_image] never reads just_train either. *)
Lemma _get_image_ignores_just_train
    (Pipeline : Type)
    (get_image_datasets :
       string -> pyval -> pyval -> Z -> bool -> option (ref -> Heap ref) -> Z
       -> Datasets Pipeline)
    (name : string) (config : dict pyval) (cache : bool)
    (augmentation_fn : option (ref -> Heap ref)) (just_train : pyval) :
  _get_image Pipeline get_image_datasets name
    (dict_set "just_train" just_train config) cache augmentation_fn
  = _get_image Pipeline get_image_datasets name config cache augmentation_fn.
Proof.
  unfold _get_image, dict_item. now rewrite !dict_get_set_other by discriminate.
Qed.

Lemma text_registry_fixed_target_witness :
  dict_keys (_name_to_text_dataset_map lin_log lin_exp pipeline
               recorded_random_slice_text_data)
  = [ "imdb_reviews/subwords8kimdb_reviews/bytes";
      "tokenized_amazon_reviews/Books_v1_02_bytes";
      "tokenized_amazon_reviews/Camera_v1_00_bytes";
      "tokenized_amazon_reviews/Home_v1_00_bytes";
      "tokenized_amazon_reviews/Video_v1_00_bytes";
      "tokenized_amazon_reviews/Books_v1_02_subwords8k";
      "tokenized_amazon_reviews/Camera_v1_00_subwords8k";
      "tokenized_amazon_reviews/Home_v1_00_subwords8k";
      "tokenized_amazon_reviews/Video_v1_00_subwords8k" ]
  /\ get_text_dataset lin_log lin_exp pipeline recorded_random_slice_text_data
       ("tokenized_amazon_reviews/Home_v1_00_bytes", text_just_train)
     = Ok (recorded_random_slice_text_data "imdb_reviews/subwords8k"
             (PInt 8) PNone (PInt 16) true 3000 None).
Proof.
  destruct (text_registry_fixed_target lin_log lin_exp pipeline
              recorded_random_slice_text_data
              "tokenized_amazon_reviews/Home_v1_00_bytes" text_just_train)
    as (Hkeys & _ & _ & _ & _ & _ & Hcall).
  - cbn. tauto.
  - split; [exact Hkeys |]. apply Hcall; reflexivity.
Defined.

(** C1 fails on the code for the image and the text-classification
    families: with just_train true, [get_image_dataset] and
    [get_text_dataset] return the provider's bundle as it is, four different
    pipelines, while [get_char_lm_dataset] and [get_word_lm_dataset] return
    the train pipeline four times. *)
Theorem just_train_ignored_by_image_and_text :
  get_image_dataset lin_log lin_exp pipeline recorded_get_image_datasets
    ("mnist", mnist_just_train, None)
  = Ok (bundle (GetImageDatasets "mnist" (PInt 8) (PInt 1000) 10000 true false 5000))
  /\ get_text_dataset lin_log lin_exp pipeline recorded_random_slice_text_data
       ("tokenized_amazon_reviews/Home_v1_00_bytes", text_just_train)
     = Ok (bundle (RandomSliceTextData "imdb_reviews/subwords8k" (PInt 8) PNone (PInt 16)
                     true 3000 None))
  /\ (forall c : provider_call,
         validation (bundle c) <> train (bundle c)
         /\ train_for_eval (bundle c) <> train (bundle c)
         /\ test (bundle c) <> train (bundle c))
  /\ get_char_lm_dataset lin_log lin_exp pipeline recorded_random_slice_text_data
       ("lm1b/bytes", sequence_just_train)
     = (let t := (RandomSliceTextData "lm1b/bytes" (PInt 8) PNone (PInt 16)
                    true 3000 (Some 10000), Train) in
        Ok (mkDatasets t t t t))
  /\ get_word_lm_dataset lin_log lin_exp pipeline recorded_random_slice_text_data
       ("lm1b/subwords8k", sequence_just_train)
     = (let t := (RandomSliceTextData "lm1b/subwords8k" (PInt 8) PNone (PInt 16)
                    true 10000 (Some 10000), Train) in
        Ok (mkDatasets t t t t)).
Proof.
  split; [reflexivity |]. split; [reflexivity |].
  split; [intros c; repeat split; discriminate |].
  split; reflexivity.
Qed.

(** * Properties of the serializer *)

(** C3 fails on the code: a key is written between quotes as it is, without
    the escaping [json.dumps] applies to values, so the mapping with the one
    key [a":1,<newline>"b] and the mapping with the two keys a and b have
    the same text, and no parser returns both from it. *)
Theorem pretty_json_dumps_key_not_escaped (float_repr : Q -> string) :
  one_key <> two_keys
  /\ pretty_json_dumps float_repr two_keys
     = Ok ("{" ++ char newline
               ++ char dquote ++ "a" ++ char dquote ++ ":1," ++ char newline
               ++ char dquote ++ "b" ++ char dquote ++ ":2" ++ char newline ++ "}")
  /\ pretty_json_dumps float_repr one_key = pretty_json_dumps float_repr two_keys
  /\ json_dumps float_repr (PStr quoting_key)
     = char dquote ++ "a" ++ char backslash ++ char dquote ++ ":1,"
         ++ char backslash ++ "n" ++ char backslash ++ char dquote ++ "b" ++ char dquote
  /\ forall parse : string -> option pyval,
      ~ (forall (dd : pyval) (text : string),
            pretty_json_dumps float_repr dd = Ok text -> parse text = Some dd).
Proof.
  split; [discriminate |]. split; [reflexivity |]. split; [reflexivity |].
  split; [reflexivity |].
  intros parse Hparse.
  set (text := "{" ++ char newline
                   ++ char dquote ++ "a" ++ char dquote ++ ":1," ++ char newline
                   ++ char dquote ++ "b" ++ char dquote ++ ":2" ++ char newline ++ "}").
  assert (H1 : parse text = Some one_key) by (apply Hparse; reflexivity).
  assert (H2 : parse text = Some two_keys) by (apply Hparse; reflexivity).
  rewrite H1 in H2. discriminate H2.
Qed.

(** The text of a sampled-looking config: one top-level key per line, keys
    sorted, nested values in the compact form of [json.dumps]. *)
Example pretty_json_dumps_sorted_lines (float_repr : Q -> string) :
  pretty_json_dumps float_repr
    (PDict [("just_train", PBool true);
            ("bs", PInt 8);
            ("init", PTuple [PStr "he_normal"; PNone])])
  = Ok ("{" ++ char newline
            ++ char dquote ++ "bs" ++ char dquote ++ ":8," ++ char newline
            ++ char dquote ++ "init" ++ char dquote ++ ":["
            ++ char dquote ++ "he_normal" ++ char dquote ++ ", null],"
            ++ char newline
            ++ char dquote ++ "just_train" ++ char dquote ++ ":true"
            ++ char newline ++ "}")
  /\ pretty_json_dumps float_repr (PList [])
     = Raise (ValueError "Only dicts supported at this time.").
Proof. split; reflexivity. Qed.

(** * Further properties of the catalogues *)

Lemma dict_item_missing {V : Type} (k : string) (d : dict V) :
  ~ In k (dict_keys d) -> dict_item k d = Raise (KeyError k).
Proof.
  intros Hnot. unfold dict_item.
  destruct (dict_get k d) as [v |] eqn:Hget; [| reflexivity].
  exfalso. apply Hnot. clear Hnot. unfold dict_keys.
  induction d as [| [k' v'] d IH]; cbn in *; [discriminate |].
  destruct (String.eqb k k') eqn:E.
  - left. apply String.eqb_eq in E. now subst.
  - right. now apply IH.
Qed.

Lemma dict_item_present {V : Type} (k : string) (d : dict V) :
  In k (dict_keys d) -> exists v, dict_item k d = Ok v.
Proof.
  unfold dict_item, dict_keys. induction d as [| [k' v'] d IH]; cbn; [contradiction |].
  intros [-> | Hin].
  - rewrite String.eqb_refl. eauto.
  - destruct (String.eqb k k'); [eauto | now apply IH].
Qed.

(** [rng.choice(a, p=p)] on a distribution: the entry at the position of
    the draw in the cumulative distribution. *)
Lemma choice_p_run {A : Type} (x : A) (rest : list A) (p : list Q) (rng : RandomState) :
  List.length (x :: rest) = List.length p ->
  existsb (fun w => Qltb w 0) p = false ->
  Qeq_bool (Qsum p) 1 = true ->
  choice_p (x :: rest) p rng
  = Ok (nth (searchsorted 0 p (peek rng)) (x :: rest) x, advance rng).
Proof.
  intros Hlen Hneg Hsum. unfold choice_p.
  now rewrite Hlen, Nat.eqb_refl, Hneg, Hsum.
Qed.

Lemma sample_activation_run (rng : RandomState) :
  sample_activation rng
  = Ok (nth (searchsorted 0
               [1 # 16; 1 # 16; 1 # 16; 1 # 16; 1 # 16; 6 # 16; 1 # 16; 1 # 16; 3 # 16]%Q
               (peek rng))
          ["cos"; "elu"; "leaky_relu1"; "leaky_relu2"; "leaky_relu4"; "relu";
           "sigmoid"; "swish"; "tanh"] "cos",
        advance rng).
Proof. now apply (choice_p_run "cos"). Qed.

(** Case analysis on the nested comparisons of a cumulative search. *)
Ltac split_cdf :=
  repeat match goal with
         | |- context [if Qle_bool ?a ?b then _ else _] =>
             let E := fresh "E" in
             destruct (Qle_bool a b) eqn:E;
             [apply Qle_bool_iff in E
             | apply not_true_iff_false in E; rewrite Qle_bool_iff in E;
               apply Qnot_le_lt in E];
             cbv beta iota
         end.

Ltac split_keys H :=
  repeat match type of H with
         | (if String.eqb ?a ?b then _ else _) = _ =>
             let E := fresh "E" in
             destruct (String.eqb a b) eqn:E;
             [apply String.eqb_eq in E; subst | clear E]
         end.

(** Every registered activation is drawn on an interval of draws whose
    length is its weight over the sum of the weights, 16. *)
Theorem sample_activation_weighted (name : string) (weight : Z) (fn : activation_fn) :
  dict_get name _activation_fn_map = Some (weight, fn) ->
  exists lo : Q,
    (0 <= lo /\ lo + (weight # 16) <= 1)%Q
    /\ forall rng : RandomState,
        sample_activation rng = Ok (name, advance rng)
        <-> (lo <= peek rng < lo + (weight # 16))%Q.
Proof.
  intros Hentry. cbn in Hentry. split_keys Hentry; try discriminate;
    injection Hentry as <- <-;
    [ exists (5 # 16)%Q | exists (13 # 16)%Q | exists 0%Q | exists (1 # 16)%Q
    | exists (11 # 16)%Q | exists (12 # 16)%Q | exists (4 # 16)%Q
    | exists (3 # 16)%Q | exists (2 # 16)%Q ];
    (split; [split; [discriminate | discriminate] |]);
    intros rng; rewrite sample_activation_run;
    destruct (peek_range rng) as [H0 H1];
    set (u := peek rng) in *; cbn [searchsorted];
    split_cdf; cbn [nth];
    (split; [intros [= ] | intros [Hlo Hhi]]);
    try reflexivity; try (split; lra); exfalso; lra.
Qed.

Lemma sample_activation_registered (rng : RandomState) :
  exists (name : string) (weight : Z) (fn : activation_fn),
    sample_activation rng = Ok (name, advance rng)
    /\ In name (dict_keys _activation_fn_map)
    /\ dict_get name _activation_fn_map = Some (weight, fn)
    /\ get_activation name = Ok fn.
Proof.
  destruct (choice_p_In "cos"
              ["elu"; "leaky_relu1"; "leaky_relu2"; "leaky_relu4"; "relu";
               "sigmoid"; "swish"; "tanh"]
              [1 # 16; 1 # 16; 1 # 16; 1 # 16; 1 # 16; 6 # 16; 1 # 16; 1 # 16; 3 # 16]%Q
              rng eq_refl eq_refl eq_refl) as (name & Hrun & Hin).
  assert (Hkey : In name (dict_keys _activation_fn_map)).
  { cbn in Hin |- *. tauto. }
  destruct (dict_item_present name _activation_fn_map Hkey) as ([w fn] & Hitem).
  exists name, w, fn. split; [exact Hrun |]. split; [exact Hkey |].
  split.
  - unfold dict_item in Hitem.
    destruct (dict_get name _activation_fn_map) as [entry |]; [| discriminate].
    now injection Hitem as ->.
  - unfold get_activation. now rewrite Hitem.
Qed.

(** A sampled activation name is registered, and [get_activation] returns
    the function the catalogue holds under that name: sampling then
    materializing never raises. *)
Theorem get_activation_of_sample (rng : RandomState) :
  exists (name : string) (weight : Z) (fn : activation_fn),
    sample_activation rng = Ok (name, advance rng)
    /\ dict_get name _activation_fn_map = Some (weight, fn)
    /\ get_activation name = Ok fn.
Proof.
  destruct (sample_activation_registered rng) as (name & w & fn & Hrun & _ & Hentry & Hget).
  exists name, w, fn. split; [exact Hrun |]. split; [exact Hentry | exact Hget].
Qed.

Section CatalogueErrors.

Variable np_log : Q -> Q.
Variable np_exp : Q -> Q.

(** A name outside a catalogue raises the key error that carries the name:
    [get_initializer] for a name that is no initializer, whatever the
    parameter, and [get_activation] for a name that is no activation.  There
    is no default entry, and neither catalogue falls back on the other. *)
Theorem catalogue_unknown_name (name : string) (arg : option Q) :
  (~ In name (dict_keys (_initializer_name_map np_log np_exp)) ->
   get_initializer np_log np_exp (name, arg) = Raise (KeyError name))
  /\ (~ In name (dict_keys _activation_fn_map) ->
      get_activation name = Raise (KeyError name)).
Proof.
  split.
  - intros Hinit. unfold get_initializer. now rewrite (dict_item_missing _ _ Hinit).
  - intros Hact. unfold get_activation. now rewrite (dict_item_missing _ _ Hact).
Qed.

Lemma sample_initializer_name (rng : RandomState) :
  exists (arg : option Q) (rng' : RandomState),
    sample_initializer np_log np_exp rng
    = Ok ((nth (searchsorted 0
                  [2 # 13; 2 # 13; 2 # 13; 2 # 13; 1 # 13; 1 # 13; 1 # 13; 1 # 13;
                   1 # 13]%Q (peek rng))
             (shape_based ++ scaled)%list "glorot_normal", arg), rng').
Proof.
  unfold sample_initializer. cbv zeta.
  rewrite (initializer_names np_log np_exp), (initializer_probs np_log np_exp).
  unfold bindS at 1.
  rewrite (choice_p_run "glorot_normal" (tl (shape_based ++ scaled))) by reflexivity.
  change ("glorot_normal" :: tl (shape_based ++ scaled))%list
    with (shape_based ++ scaled)%list.
  set (name := nth _ (shape_based ++ scaled)%list "glorot_normal").
  assert (Hin : In name (shape_based ++ scaled)%list).
  { subst name.
    destruct (nth_in_or_default
                (searchsorted 0
                   [2 # 13; 2 # 13; 2 # 13; 2 # 13; 1 # 13; 1 # 13; 1 # 13; 1 # 13;
                    1 # 13]%Q (peek rng))
                (shape_based ++ scaled)%list "glorot_normal") as [H | ->];
      [exact H | now left]. }
  apply in_app_or in Hin. destruct Hin as [Hin | Hin].
  - destruct (shape_based_entry np_log np_exp name Hin) as (make_fn & Hentry & _).
    unfold bindS, lift. rewrite Hentry. cbn [fst snd]. do 2 eexists. reflexivity.
  - destruct (scaled_entry np_log np_exp name Hin) as (make_fn & Hentry & _).
    unfold bindS, lift. rewrite Hentry. cbn [fst snd]. do 2 eexists. reflexivity.
Qed.

(** Every registered initializer is drawn on an interval of draws whose
    length is its weight over the sum of the weights, 13, up to the rounding
    of the cumulative probabilities, which are no binary64 values: a draw
    that lies in the interval by a margin of [2^-40] returns the name, and a
    draw that returns the name lies in the interval widened by that
    margin. *)
Theorem sample_initializer_weighted
    (name : string) (weight : Z) (sample_fn : option (Sampler Q)) (make_fn : callable) :
  dict_get name (_initializer_name_map np_log np_exp)
  = Some (weight, sample_fn, make_fn) ->
  exists lo : Q,
    (0 <= lo /\ lo + (weight # 13) <= 1)%Q
    /\ forall rng : RandomState,
        ((lo + (1 # 1099511627776) <= peek rng
          < lo + (weight # 13) - (1 # 1099511627776))%Q ->
         exists (arg : option Q) (rng' : RandomState),
           sample_initializer np_log np_exp rng = Ok ((name, arg), rng'))
        /\ ((exists (arg : option Q) (rng' : RandomState),
                sample_initializer np_log np_exp rng = Ok ((name, arg), rng')) ->
            (lo - (1 # 1099511627776) <= peek rng
             < lo + (weight # 13) + (1 # 1099511627776))%Q).
Proof.
  intros Hentry.
  assert (Hname : exists lo : Q,
             (0 <= lo /\ lo + (weight # 13) <= 1)%Q
             /\ forall rng : RandomState,
                 nth (searchsorted 0
                        [2 # 13; 2 # 13; 2 # 13; 2 # 13; 1 # 13; 1 # 13; 1 # 13;
                         1 # 13; 1 # 13]%Q (peek rng))
                   (shape_based ++ scaled)%list "glorot_normal" = name
                 <-> (lo <= peek rng < lo + (weight # 13))%Q).
  { cbn in Hentry. split_keys Hentry; try discriminate;
      injection Hentry as <- _ _;
      [ exists (4 # 13)%Q | exists (6 # 13)%Q | exists 0%Q | exists (2 # 13)%Q
      | exists (8 # 13)%Q | exists (10 # 13)%Q | exists (9 # 13)%Q
      | exists (11 # 13)%Q | exists (12 # 13)%Q ];
      (split; [split; [discriminate | discriminate] |]);
      intros rng; destruct (peek_range rng) as [H0 H1];
      set (u := peek rng) in *; cbn [searchsorted];
      split_cdf; cbn [nth app shape_based scaled];
      (split; [intros [= ] | intros [Hlo Hhi]]);
      try reflexivity; try (split; lra); exfalso; lra. }
  destruct Hname as (lo & Hlo & Hiff). exists lo. split; [exact Hlo |].
  intros rng. specialize (Hiff rng).
  destruct (sample_initializer_name rng) as (arg & rng' & Hrun).
  split.
  - intros Hin. assert (Hname : (lo <= peek rng < lo + (weight # 13))%Q) by lra.
    apply Hiff in Hname. rewrite Hname in Hrun. eauto.
  - intros (arg0 & rng0 & Hrun0). rewrite Hrun in Hrun0.
    assert (Hname : (lo <= peek rng < lo + (weight # 13))%Q)
      by (apply Hiff; congruence).
    lra.
Qed.

(** Under the accuracy of [np.log] and [np.exp], a sampled initializer
    config always materializes: its name is registered, its parameter is
    absent exactly for the four shape-based names and is a positive scale
    for the other five, and [get_initializer] returns the initializer. *)
Theorem get_initializer_of_sampled (rng : RandomState) :
  accurate np_log np_exp ->
  exists (name : string) (arg : option Q) (rng' : RandomState) (i : tf_initializer),
    sample_initializer np_log np_exp rng = Ok ((name, arg), rng')
    /\ In name (dict_keys (_initializer_name_map np_log np_exp))
    /\ (arg = None <-> In name shape_based)
    /\ (forall s : Q, arg = Some s -> (0 < s)%Q)
    /\ get_initializer np_log np_exp (name, arg) = Ok i.
Proof.
  intros Hacc.
  destruct (sample_initializer_cases np_log np_exp rng)
    as [(name & Hin & Hrun) | (name & s & r & Hin & Hs & Hrun)].
  - destruct (shape_based_entry np_log np_exp name Hin) as (make_fn & Hentry & Hmake).
    exists name, None, (advance rng), (TfInitializer name [] []).
    split; [exact Hrun |].
    split; [cbn in Hin |- *; tauto |].
    split; [tauto |]. split; [discriminate |].
    unfold get_initializer. now rewrite Hentry.
  - destruct (scaled_entry np_log np_exp name Hin) as (make_fn & Hentry & Hmake).
    destruct (sample_log_float_positive np_log np_exp Hacc (1 # 10) 10 (advance rng))
      as (s' & Hs' & Hpos); [reflexivity | discriminate |].
    rewrite Hs' in Hs. injection Hs as <- <-.
    destruct (Hmake s' Hpos) as [i Hi].
    exists name, (Some s'), (advance (advance rng)), i.
    split; [exact Hrun |].
    split; [cbn in Hin |- *; tauto |].
    split.
    { split; [discriminate |]. intros Hshape. exfalso.
      cbn in Hin, Hshape. decompose [or] Hin; subst; try contradiction;
        decompose [or] Hshape; try contradiction; discriminate. }
    split; [intros s0 [= <-]; exact Hpos |].
    assert (Ht : truthy (PFloat s') = true) by (apply truthy_float; lra).
    unfold get_initializer. now rewrite Hentry, Ht.
Qed.

End CatalogueErrors.

(** * Further properties of the recurrent cores *)

Lemma rnn_dispatch {A : Type} (k : string -> bool -> Sampler A)
    (rng : RandomState) (core : string) (linked : bool) :
  choice ["vrnn"; "gru"; "lstm"] rng = Ok (core, advance rng) ->
  choice [true; true; true; true; false] (advance rng)
    = Ok (linked, advance (advance rng)) ->
  (core <~ choice ["vrnn"; "gru"; "lstm"] ;;
   linked <~ choice [true; true; true; true; false] ;;
   k core linked)%sampler rng
  = k core linked (advance (advance rng)).
Proof. intros Hcore Hlinked. unfold bindS. now rewrite Hcore, Hlinked. Qed.

Section RnnRoundTrip.

Variable np_log : Q -> Q.
Variable np_exp : Q -> Q.
Hypothesis Hacc : accurate np_log np_exp.

Local Abbreviation sample_init := (sample_initializer np_log np_exp).

(** A sampled initializer config, read back from the mapping of a core. *)
Lemma get_initializer_at_sampled
    (key : string) (args : dict pyval) (init : InitializerConfig)
    (rng rng' : RandomState) :
  sample_init rng = Ok (init, rng') ->
  dict_get key args = Some (initializer_value init) ->
  exists i, get_initializer np_log np_exp init = Ok i
            /\ get_initializer_at np_log np_exp key args = Ok i.
Proof.
  intros Hinit Hget.
  destruct (get_initializer_of_sample np_log np_exp rng rng' init Hacc Hinit)
    as (_ & Hcfg & i & Hi).
  exists i. split; [exact Hi |].
  unfold get_initializer_at, dict_item. rewrite Hget. cbn [bindR].
  rewrite Hcfg. exact Hi.
Qed.

(** The cell [get_rnn_core] builds for each kind, from the initializers of
    the slots. *)
Lemma get_rnn_core_lstm_run (args : dict pyval) (core_dim : pyval) (i : tf_initializer) :
  get_initializer_at np_log np_exp "w_gates" args = Ok i ->
  dict_get "core_dim" args = Some core_dim ->
  get_rnn_core np_log np_exp ("lstm", args) = Ok (snt_LSTM core_dim [("w_gates", i)]).
Proof.
  intros Hi Hdim. unfold get_rnn_core.
  change (String.eqb "lstm" "lstm") with true. cbv iota.
  rewrite Hi. unfold dict_item. rewrite Hdim. reflexivity.
Qed.

Lemma get_rnn_core_gru_run (args : dict pyval) (core_dim : pyval)
    (wh wz wr uh uz ur : tf_initializer) :
  get_initializer_at np_log np_exp "wh" args = Ok wh ->
  get_initializer_at np_log np_exp "wz" args = Ok wz ->
  get_initializer_at np_log np_exp "wr" args = Ok wr ->
  get_initializer_at np_log np_exp "uh" args = Ok uh ->
  get_initializer_at np_log np_exp "uz" args = Ok uz ->
  get_initializer_at np_log np_exp "ur" args = Ok ur ->
  dict_get "core_dim" args = Some core_dim ->
  get_rnn_core np_log np_exp ("gru", args)
  = Ok (snt_GRU core_dim
          [("wh", wh); ("wz", wz); ("wr", wr); ("uh", uh); ("uz", uz); ("ur", ur)]).
Proof.
  intros H1 H2 H3 H4 H5 H6 Hdim. unfold get_rnn_core.
  change (String.eqb "gru" "lstm") with false.
  change (String.eqb "gru" "gru") with true. cbv iota.
  cbn [for_result gru_init_keys].
  rewrite H1. cbn [bindR]. rewrite H2. cbn [bindR]. rewrite H3. cbn [bindR].
  rewrite H4. cbn [bindR]. rewrite H5. cbn [bindR]. rewrite H6. cbn [bindR].
  unfold dict_item. rewrite Hdim. reflexivity.
Qed.

Lemma get_rnn_core_vrnn_run (args : dict pyval) (core_dim : pyval)
    (i h : tf_initializer) (act : string) (weight : Z) (fn : activation_fn) :
  get_initializer_at np_log np_exp "in_to_hidden" args = Ok i ->
  get_initializer_at np_log np_exp "hidden_to_hidden" args = Ok h ->
  dict_get "act_fn" args = Some (PStr act) ->
  dict_get act _activation_fn_map = Some (weight, fn) ->
  dict_get "core_dim" args = Some core_dim ->
  get_rnn_core np_log np_exp ("vrnn", args)
  = Ok (snt_VanillaRNN core_dim
          [("in_to_hidden", [("w", i)]); ("hidden_to_hidden", [("w", h)])] fn).
Proof.
  intros Hi Hh Hact Hentry Hdim. unfold get_rnn_core.
  change (String.eqb "vrnn" "lstm") with false.
  change (String.eqb "vrnn" "gru") with false.
  change (String.eqb "vrnn" "vrnn") with true. cbv iota.
  rewrite Hi, Hh. unfold dict_item. rewrite Hact, Hdim. cbn [bindR as_str].
  unfold get_activation, dict_item. rewrite Hentry. reflexivity.
Qed.

Ltac rnn_enter Hcore Hlinked :=
  unfold sample_rnn_core; rewrite (rnn_dispatch _ _ _ _ Hcore Hlinked);
  repeat match goal with
         | |- context [String.eqb ?a ?b] =>
             let v := eval vm_compute in (String.eqb a b) in
             change (String.eqb a b) with v
         end;
  cbv beta iota.

Ltac rnn_step H := unfold bindS at 1; rewrite H; cbv beta iota.

(** The slot holds the sampled config [init], of which [i] is the
    initializer. *)
Ltac slot_of init H := exists init; split; [reflexivity | exact H].

(** Under the accuracy of [np.log] and [np.exp], whatever the source,
    [sample_rnn_core] returns one of the three kinds with a hidden size
    between 32 and 128, and [get_rnn_core] builds from the sampled config,
    without raising, the cell of the sampled kind: its size is the sampled
    hidden size, each of its initializers is the one [get_initializer] makes
    of the config sampled for that slot, and the activation of a vanilla
    cell is the catalogue's function for the sampled name. *)
Theorem get_rnn_core_of_sampled (rng : RandomState) :
  exists (core : string) (args : dict pyval) (rng' : RandomState) (core_dim : Z)
         (m : snt_module),
    sample_rnn_core np_log np_exp rng = Ok ((core, args), rng')
    /\ In core ["vrnn"; "gru"; "lstm"]
    /\ dict_get "core_dim" args = Some (PInt core_dim)
    /\ (32 <= core_dim <= 128)%Z
    /\ get_rnn_core np_log np_exp (core, args) = Ok m
    /\ match m with
       | snt_LSTM size inits =>
           core = "lstm" /\ size = PInt core_dim
           /\ exists i, inits = [("w_gates", i)]
                        /\ slot_initializer np_log np_exp args "w_gates" i
       | snt_GRU size inits =>
           core = "gru" /\ size = PInt core_dim
           /\ dict_keys inits = gru_init_keys
           /\ forall (key : string) (i : tf_initializer),
               dict_get key inits = Some i ->
               slot_initializer np_log np_exp args key i
       | snt_VanillaRNN size inits fn =>
           core = "vrnn" /\ size = PInt core_dim
           /\ (exists i h,
                  inits = [("in_to_hidden", [("w", i)]); ("hidden_to_hidden", [("w", h)])]
                  /\ slot_initializer np_log np_exp args "in_to_hidden" i
                  /\ slot_initializer np_log np_exp args "hidden_to_hidden" h)
           /\ exists (act : string) (weight : Z),
               dict_get "act_fn" args = Some (PStr act)
               /\ dict_get act _activation_fn_map = Some (weight, fn)
       end.
Proof.
  destruct (choice_In "vrnn" ["gru"; "lstm"] rng) as (core & Hcore & Hin).
  destruct (linked_choice (advance rng)) as (linked & Hlinked & _).
  destruct Hin as [<- | [<- | [<- | []]]].
  - (* vrnn *)
    destruct linked.
    + destruct (sample_initializer_total np_log np_exp (advance (advance rng)))
        as (init & rng3 & Hinit).
      destruct (sample_activation_registered rng3)
        as (act & w & fn & Hact & _ & Hentry & _).
      destruct (sample_log_int_range np_log np_exp Hacc 32 128 (advance rng3))
        as (d & Hdim & Hrange); [lia | lia | lia |].
      set (args := [("hidden_to_hidden", initializer_value init);
                    ("in_to_hidden", initializer_value init);
                    ("act_fn", PStr act); ("core_dim", PInt d)]).
      assert (Hs : sample_rnn_core np_log np_exp rng
                   = Ok (("vrnn", args), advance (advance rng3))).
      { rnn_enter Hcore Hlinked. unfold bindS. rewrite Hinit. cbv beta iota.
        unfold ret at 1. cbv beta iota. rewrite Hact. cbv beta iota.
        rewrite Hdim. reflexivity. }
      destruct (get_initializer_at_sampled "in_to_hidden" args init _ _ Hinit eq_refl)
        as (i & Hi & Hat).
      exists "vrnn", args, (advance (advance rng3)), d,
        (snt_VanillaRNN (PInt d)
           [("in_to_hidden", [("w", i)]); ("hidden_to_hidden", [("w", i)])] fn).
      split; [exact Hs |]. split; [now left |]. split; [reflexivity |].
      split; [lia |].
      destruct (get_initializer_at_sampled "hidden_to_hidden" args init _ _ Hinit eq_refl)
        as (h & Hh & Hat_h).
      assert (Ehi : h = i) by (rewrite Hi in Hh; now injection Hh).
      subst h.
      split; [exact (get_rnn_core_vrnn_run args (PInt d) i i act w fn
                       Hat Hat_h eq_refl Hentry eq_refl) |].
      split; [reflexivity |]. split; [reflexivity |]. split.
      * exists i, i. split; [reflexivity |]. split; slot_of init Hi.
      * exists act, w. split; [reflexivity | exact Hentry].
    + destruct (sample_initializer_total np_log np_exp (advance (advance rng)))
        as (hcfg & rng3 & Hh).
      destruct (sample_initializer_total np_log np_exp rng3) as (icfg & rng4 & Hi).
      destruct (sample_activation_registered rng4)
        as (act & w & fn & Hact & _ & Hentry & _).
      destruct (sample_log_int_range np_log np_exp Hacc 32 128 (advance rng4))
        as (d & Hdim & Hrange); [lia | lia | lia |].
      set (args := [("hidden_to_hidden", initializer_value hcfg);
                    ("in_to_hidden", initializer_value icfg);
                    ("act_fn", PStr act); ("core_dim", PInt d)]).
      assert (Hs : sample_rnn_core np_log np_exp rng
                   = Ok (("vrnn", args), advance (advance rng4))).
      { rnn_enter Hcore Hlinked. unfold bindS. rewrite Hh. cbv beta iota.
        rewrite Hi. cbv beta iota.
        unfold ret at 1. cbv beta iota. rewrite Hact. cbv beta iota.
        rewrite Hdim. reflexivity. }
      destruct (get_initializer_at_sampled "in_to_hidden" args icfg _ _ Hi eq_refl)
        as (i & Hget_i & Hat_i).
      destruct (get_initializer_at_sampled "hidden_to_hidden" args hcfg _ _ Hh eq_refl)
        as (h & Hget_h & Hat_h).
      exists "vrnn", args, (advance (advance rng4)), d,
        (snt_VanillaRNN (PInt d)
           [("in_to_hidden", [("w", i)]); ("hidden_to_hidden", [("w", h)])] fn).
      split; [exact Hs |]. split; [now left |]. split; [reflexivity |].
      split; [lia |].
      split; [exact (get_rnn_core_vrnn_run args (PInt d) i h act w fn
                       Hat_i Hat_h eq_refl Hentry eq_refl) |].
      split; [reflexivity |]. split; [reflexivity |]. split.
      * exists i, h. split; [reflexivity |].
        split; [slot_of icfg Hget_i | slot_of hcfg Hget_h].
      * exists act, w. split; [reflexivity | exact Hentry].
  - (* gru *)
    destruct (sample_log_int_range np_log np_exp Hacc 32 128 (advance (advance rng)))
      as (d & Hdim & Hrange); [lia | lia | lia |].
    destruct linked.
    + destruct (sample_initializer_total np_log np_exp (advance (advance (advance rng))))
        as (init & rng3 & Hinit).
      set (args := ("core_dim", PInt d)
                     :: map (fun key => (key, initializer_value init)) gru_init_keys).
      assert (Hs : sample_rnn_core np_log np_exp rng = Ok (("gru", args), rng3)).
      { rnn_enter Hcore Hlinked. rnn_step Hdim. rnn_step Hinit. reflexivity. }
      destruct (get_initializer_at_sampled "wh" args init _ _ Hinit eq_refl)
        as (i & Hi & Hwh).
      assert (Hat : forall key, In key gru_init_keys ->
                                get_initializer_at np_log np_exp key args = Ok i).
      { intros key Hkey.
        destruct (get_initializer_at_sampled key args init _ _ Hinit) as (i' & Hi' & Hk).
        - cbn in Hkey. decompose [or] Hkey; try subst key; try contradiction;
          reflexivity.
        - rewrite Hi in Hi'. injection Hi' as <-. exact Hk. }
      exists "gru", args, rng3, d,
        (snt_GRU (PInt d)
           [("wh", i); ("wz", i); ("wr", i); ("uh", i); ("uz", i); ("ur", i)]).
      split; [exact Hs |]. split; [right; now left |]. split; [reflexivity |].
      split; [lia |].
      split; [apply get_rnn_core_gru_run; [apply Hat .. | reflexivity]; cbn; tauto |].
      split; [reflexivity |]. split; [reflexivity |]. split; [reflexivity |].
      intros key i0 Hk. cbn in Hk. split_keys Hk; try discriminate Hk;
        injection Hk as <-; slot_of init Hi.
    + destruct (sample_initializer_total np_log np_exp (advance (advance (advance rng))))
        as (c1 & r1 & H1).
      destruct (sample_initializer_total np_log np_exp r1) as (c2 & r2 & H2).
      destruct (sample_initializer_total np_log np_exp r2) as (c3 & r3 & H3).
      destruct (sample_initializer_total np_log np_exp r3) as (c4 & r4 & H4).
      destruct (sample_initializer_total np_log np_exp r4) as (c5 & r5 & H5).
      destruct (sample_initializer_total np_log np_exp r5) as (c6 & r6 & H6).
      set (args := [("core_dim", PInt d);
                    ("wh", initializer_value c1); ("wz", initializer_value c2);
                    ("wr", initializer_value c3); ("uh", initializer_value c4);
                    ("uz", initializer_value c5); ("ur", initializer_value c6)]).
      assert (Hs : sample_rnn_core np_log np_exp rng = Ok (("gru", args), r6)).
      { rnn_enter Hcore Hlinked. rnn_step Hdim.
        cbn [for_sampler gru_init_keys]. unfold bindS, ret.
        rewrite H1. cbv beta iota. rewrite H2. cbv beta iota.
        rewrite H3. cbv beta iota. rewrite H4. cbv beta iota.
        rewrite H5. cbv beta iota. rewrite H6. reflexivity. }
      destruct (get_initializer_at_sampled "wh" args c1 _ _ H1 eq_refl) as (wh & G1 & A1).
      destruct (get_initializer_at_sampled "wz" args c2 _ _ H2 eq_refl) as (wz & G2 & A2).
      destruct (get_initializer_at_sampled "wr" args c3 _ _ H3 eq_refl) as (wr & G3 & A3).
      destruct (get_initializer_at_sampled "uh" args c4 _ _ H4 eq_refl) as (uh & G4 & A4).
      destruct (get_initializer_at_sampled "uz" args c5 _ _ H5 eq_refl) as (uz & G5 & A5).
      destruct (get_initializer_at_sampled "ur" args c6 _ _ H6 eq_refl) as (ur & G6 & A6).
      exists "gru", args, r6, d,
        (snt_GRU (PInt d)
           [("wh", wh); ("wz", wz); ("wr", wr); ("uh", uh); ("uz", uz); ("ur", ur)]).
      split; [exact Hs |]. split; [right; now left |]. split; [reflexivity |].
      split; [lia |].
      split; [exact (get_rnn_core_gru_run args (PInt d) wh wz wr uh uz ur
                       A1 A2 A3 A4 A5 A6 eq_refl) |].
      split; [reflexivity |]. split; [reflexivity |]. split; [reflexivity |].
      intros key i0 Hk. cbn in Hk. split_keys Hk; try discriminate Hk;
        injection Hk as <-;
        [ slot_of c1 G1 | slot_of c2 G2 | slot_of c3 G3 | slot_of c4 G4
        | slot_of c5 G5 | slot_of c6 G6 ].
  - (* lstm *)
    destruct (sample_initializer_total np_log np_exp (advance (advance rng)))
      as (init & rng3 & Hinit).
    destruct (sample_log_int_range np_log np_exp Hacc 32 128 rng3)
      as (d & Hdim & Hrange); [lia | lia | lia |].
    set (args := [("w_gates", initializer_value init); ("core_dim", PInt d)]).
    assert (Hs : sample_rnn_core np_log np_exp rng
                 = Ok (("lstm", args), advance rng3)).
    { rnn_enter Hcore Hlinked. rnn_step Hinit. rnn_step Hdim. reflexivity. }
    destruct (get_initializer_at_sampled "w_gates" args init _ _ Hinit eq_refl)
      as (i & Hi & Hat).
    exists "lstm", args, (advance rng3), d, (snt_LSTM (PInt d) [("w_gates", i)]).
    split; [exact Hs |]. split; [right; right; now left |]. split; [reflexivity |].
    split; [lia |].
    split; [exact (get_rnn_core_lstm_run args (PInt d) i Hat eq_refl) |].
    split; [reflexivity |]. split; [reflexivity |].
    exists i. split; [reflexivity | slot_of init Hi].
Qed.

End RnnRoundTrip.

(** [get_rnn_core] knows the three kinds only: any other kind raises the
    invalid-argument error that names it, whatever the mapping holds, and a
    mapping without the initializer slot of its kind raises the key error of
    that slot. *)
Theorem get_rnn_core_errors (np_log np_exp : Q -> Q) (name : string) (args : dict pyval) :
  ~ In name ["lstm"; "gru"; "vrnn"] ->
  get_rnn_core np_log np_exp (name, args)
  = Raise (ValueError ("No core for name [" ++ name ++ "] found."))
  /\ (dict_get "w_gates" args = None ->
      get_rnn_core np_log np_exp ("lstm", args) = Raise (KeyError "w_gates"))
  /\ (dict_get "wh" args = None ->
      get_rnn_core np_log np_exp ("gru", args) = Raise (KeyError "wh"))
  /\ (dict_get "in_to_hidden" args = None ->
      get_rnn_core np_log np_exp ("vrnn", args) = Raise (KeyError "in_to_hidden")).
Proof.
  intros Hname. split; [| repeat split].
  - unfold get_rnn_core.
    destruct (String.eqb name "lstm") eqn:E1;
      [apply String.eqb_eq in E1; exfalso; apply Hname; subst; cbn; tauto |].
    destruct (String.eqb name "gru") eqn:E2;
      [apply String.eqb_eq in E2; exfalso; apply Hname; subst; cbn; tauto |].
    destruct (String.eqb name "vrnn") eqn:E3;
      [apply String.eqb_eq in E3; exfalso; apply Hname; subst; cbn; tauto |].
    reflexivity.
  - intros H. unfold get_rnn_core, get_initializer_at, dict_item.
    change (String.eqb "lstm" "lstm") with true. cbv iota. now rewrite H.
  - intros H. unfold get_rnn_core, get_initializer_at, dict_item.
    change (String.eqb "gru" "lstm") with false.
    change (String.eqb "gru" "gru") with true. cbv iota.
    cbn [for_result gru_init_keys]. now rewrite H.
  - intros H. unfold get_rnn_core, get_initializer_at, dict_item.
    change (String.eqb "vrnn" "lstm") with false.
    change (String.eqb "vrnn" "gru") with false.
    change (String.eqb "vrnn" "vrnn") with true. cbv iota. now rewrite H.
Qed.

(** * Further properties of the scalar samplers *)

Local Open Scope Q_scope.

(** [sample_linear_int] between bounds that are binary64 values. *)
Lemma sample_linear_int_range (low high : Z) (rng : RandomState) :
  (-9007199254740992 <= low /\ low <= high /\ high <= 9007199254740992)%Z ->
  exists n, sample_linear_int low high rng = Ok (n, advance rng) /\ (low <= n <= high)%Z.
Proof.
  intros (Hlow & Hle & Hhigh).
  destruct (uniform_range (inject_Z low) (inject_Z high) rng) as (x & Hx & Hlo & Hhi).
  { now rewrite <- Zle_Qle. }
  exists (round_Z x). split.
  - rewrite sample_linear_int_exact by lia.
    unfold bindS. rewrite Hx. unfold ret. now rewrite int_np_round.
  - split; [apply round_Z_lower | apply round_Z_upper]; lra.
Qed.

(** [sample_linear_int] between integers [low <= high] of magnitude at most
    [2^52], where the two bounds and their difference are binary64 values,
    returns an integer of [low..high], both ends included, whatever the
    source. *)
Theorem sample_linear_int_in_range (low high : Z) (rng : RandomState) :
  (-4503599627370496 <= low)%Z -> (low <= high)%Z -> (high <= 4503599627370496)%Z ->
  exists n : Z,
    sample_linear_int low high rng = Ok (n, advance rng) /\ (low <= n <= high)%Z.
Proof. intros Hlow Hle Hhigh. apply sample_linear_int_range. lia. Qed.

(** With [np.log] and [np.exp] increasing and [exp (log x)] accurate to a
    relative error of [2^-20], [sample_log_int] between integers
    [0 < low <= high < 2^19] returns an integer of [low..high]. *)
Theorem sample_log_int_in_range
    (np_log np_exp : Q -> Q) (low high : Z) (rng : RandomState) :
  accurate np_log np_exp ->
  (0 < low)%Z -> (low <= high)%Z -> (high < 524288)%Z ->
  exists n : Z,
    sample_log_int np_log np_exp low high rng = Ok (n, advance rng)
    /\ (low <= n <= high)%Z.
Proof. intros Hacc. now apply sample_log_int_range. Qed.

(** Under the same accuracy, [sample_log_float] between [0 < low <= high]
    returns a value within the bounds widened by that relative error: the
    ends themselves are met only up to the rounding of [exp (log x)]. *)
Theorem sample_log_float_near_range
    (np_log np_exp : Q -> Q) (low high : Q) (rng : RandomState) :
  accurate np_log np_exp ->
  0 < low -> low <= high ->
  exists s : Q,
    sample_log_float np_log np_exp low high rng = Ok (s, advance rng)
    /\ low - low * (1 # 1048576) <= s <= high + high * (1 # 1048576).
Proof.
  intros Hacc Hlow Hle.
  destruct (log_uniform_range np_log np_exp Hacc low high rng Hlow Hle)
    as (x & Hx & Hlo & Hhi).
  destruct (exp_log_bounds np_log np_exp Hacc low Hlow) as [Hl _].
  destruct (exp_log_bounds np_log np_exp Hacc high) as [_ Hh]; [lra |].
  exists (np_exp x). split.
  - unfold sample_log_float, bindS. now rewrite Hx.
  - split; lra.
Qed.






Local Close Scope Q_scope.

(** * Further properties of the dataset samplers and registries *)

(** [rng.choice(sorted(keys))] returns one of the keys. *)
Lemma choice_sorted_In (keys : list string) (x : string) (rest : list string)
    (rng : RandomState) :
  sorted keys = x :: rest ->
  (forall k, In k (x :: rest) -> In k keys) ->
  exists name, choice (sorted keys) rng = Ok (name, advance rng) /\ In name keys.
Proof.
  intros Hsorted Hsub. rewrite Hsorted.
  destruct (choice_In x rest rng) as (name & Hrun & Hin). eauto.
Qed.

Section DatasetSamplers.

Variable np_log : Q -> Q.
Variable np_exp : Q -> Q.

Lemma sample_bool_total (p : Q) (rng : RandomState) :
  (0 <= p <= 1)%Q -> exists b, sample_bool p rng = Ok (b, advance rng).
Proof. intros Hp. rewrite (sample_bool_run rng p Hp). eauto. Qed.

Lemma sample_log_int_total (low high : Z) (rng : RandomState) :
  (-9007199254740992 <= low <= 9007199254740992
   /\ -9007199254740992 <= high <= 9007199254740992)%Z ->
  exists n, sample_log_int np_log np_exp low high rng = Ok (n, advance rng).
Proof.
  intros [Hlow Hhigh]. eexists. rewrite sample_log_int_exact by assumption. reflexivity.
Qed.

Ltac run_sampler :=
  unfold bindS, ret;
  repeat match goal with
         | H : ?m ?r = Ok _ |- context [?m ?r] => rewrite H; cbv beta iota
         end.

(** The first two statements of the three text samplers: the cap on the
    train set, drawn with probability 1/5. *)
Ltac cap_cases rng n Hn Hlow :=
  let Hp := fresh "Hp" in
  let Hcap := fresh "Hcap" in
  let Hb := fresh "Hb" in
  assert (Hp : (0 <= 2 # 10 <= 1)%Q) by (split; discriminate);
  pose proof (sample_bool_run rng (2 # 10) Hp) as Hcap;
  destruct (peek_range rng) as [? ?];
  destruct (Qltb (0 + (1 - 0) * peek rng) (2 # 10)) eqn:Hb;
  [ apply Qltb_lt in Hb;
    destruct (sample_linear_int_range 1000 50000 (advance rng)) as (n & Hn & Hlow);
    [lia |]
  | apply not_true_iff_false in Hb; rewrite Qltb_lt in Hb; apply Qnot_lt_le in Hb ].

(** The shape of a text-classification config, whatever the source: five
    keys, max_token fixed, the cap drawn with probability 1/5. *)
Lemma sample_text_classification_shape (rng : RandomState) :
  exists (bs pl : Z) (num_train : pyval) (jt : bool) (r1 r2 rng' : RandomState),
    sample_text_classification np_log np_exp rng
    = Ok ([("bs", PInt bs); ("num_train", num_train); ("max_token", PInt 8185);
           ("just_train", PBool jt); ("patch_length", PInt pl)], rng')
    /\ ((num_train = PNone /\ (2 # 10 <= peek rng)%Q)
        \/ (exists n, num_train = PInt n /\ (peek rng < 2 # 10)%Q
                      /\ (1000 <= n <= 50000)%Z))
    /\ sample_log_int np_log np_exp 8 512 r1 = Ok (bs, advance r1)
    /\ sample_log_int np_log np_exp 8 128 r2 = Ok (pl, rng').
Proof.
  cap_cases rng n Hn Hlow.
  - eexists. eexists. exists (PInt n). eexists. exists (advance (advance rng)).
    eexists. eexists.
    split; [| split; [right; exists n; repeat split; [lra | lia | lia] |
                      split; reflexivity]].
    unfold sample_text_classification. run_sampler. reflexivity.
  - eexists. eexists. exists PNone. eexists. exists (advance rng).
    eexists. eexists.
    split; [| split; [left; split; [reflexivity | lra] | split; reflexivity]].
    unfold sample_text_classification. run_sampler. reflexivity.
Qed.

(** The shape of a byte-level and of a word-level config: four keys. *)
Lemma sample_byte_config_shape (rng : RandomState) :
  exists (pl bs : Z) (num_train : pyval) (jt : bool) (r1 rng' : RandomState),
    sample_byte_config np_log np_exp rng
    = Ok ([("patch_length", PInt pl); ("batch_size", PInt bs);
           ("just_train", PBool jt); ("num_train", num_train)], rng')
    /\ ((num_train = PNone /\ (2 # 10 <= peek rng)%Q)
        \/ (exists n, num_train = PInt n /\ (peek rng < 2 # 10)%Q
                      /\ (1000 <= n <= 50000)%Z))
    /\ sample_log_int np_log np_exp 10 160 r1 = Ok (pl, advance r1)
    /\ sample_log_int np_log np_exp 8 512 (advance r1) = Ok (bs, advance (advance r1)).
Proof.
  cap_cases rng n Hn Hlow.
  - eexists. eexists. exists (PInt n). eexists. exists (advance (advance rng)).
    eexists.
    split; [| split; [right; exists n; repeat split; [lra | lia | lia] |
                      split; reflexivity]].
    unfold sample_byte_config. run_sampler. reflexivity.
  - eexists. eexists. exists PNone. eexists. exists (advance rng). eexists.
    split; [| split; [left; split; [reflexivity | lra] | split; reflexivity]].
    unfold sample_byte_config. run_sampler. reflexivity.
Qed.

Lemma sample_word_dataset_config_shape (rng : RandomState) :
  exists (pl bs : Z) (num_train : pyval) (jt : bool) (r1 rng' : RandomState),
    sample_word_dataset_config np_log np_exp rng
    = Ok ([("patch_length", PInt pl); ("batch_size", PInt bs);
           ("just_train", PBool jt); ("num_train", num_train)], rng')
    /\ ((num_train = PNone /\ (2 # 10 <= peek rng)%Q)
        \/ (exists n, num_train = PInt n /\ (peek rng < 2 # 10)%Q
                      /\ (1000 <= n <= 50000)%Z))
    /\ sample_log_int np_log np_exp 10 256 r1 = Ok (pl, advance r1)
    /\ sample_log_int np_log np_exp 8 512 (advance r1) = Ok (bs, advance (advance r1)).
Proof.
  cap_cases rng n Hn Hlow.
  - eexists. eexists. exists (PInt n). eexists. exists (advance (advance rng)).
    eexists.
    split; [| split; [right; exists n; repeat split; [lra | lia | lia] |
                      split; reflexivity]].
    unfold sample_word_dataset_config. run_sampler. reflexivity.
  - eexists. eexists. exists PNone. eexists. exists (advance rng). eexists.
    split; [| split; [left; split; [reflexivity | lra] | split; reflexivity]].
    unfold sample_word_dataset_config. run_sampler. reflexivity.
Qed.

(** The shapes of the three image configs. *)
Lemma sample_mnist_and_fashion_mnist_shape (rng : RandomState) :
  exists (bs num_train : Z) (jt : bool),
    sample_mnist_and_fashion_mnist np_log np_exp rng
    = Ok ([("bs", PInt bs); ("num_train", PInt num_train); ("num_classes", PInt 10);
           ("just_train", PBool jt)], advance (advance (advance rng)))
    /\ sample_log_int np_log np_exp 8 512 rng = Ok (bs, advance rng)
    /\ (1000 <= num_train <= 55000)%Z
    /\ (jt = true <-> (peek (advance (advance rng)) < 1 # 10)%Q).
Proof.
  destruct (sample_linear_int_range 1000 55000 (advance rng)) as (n & Hn & Hrange);
    [lia |].
  assert (Hp : (0 <= 1 # 10 <= 1)%Q) by (split; discriminate).
  pose proof (sample_bool_run (advance (advance rng)) (1 # 10) Hp) as Hjt.
  destruct (sample_log_int_total 8 512 rng) as [bs Hbs]; [lia |].
  exists bs, n. eexists.
  split; [| split; [exact Hbs | split; [exact Hrange |]]].
  - unfold sample_mnist_and_fashion_mnist. run_sampler. reflexivity.
  - rewrite Qltb_lt. split; intros H; lra.
Qed.

Lemma sample_cifar_image_shape (rng : RandomState) :
  exists (bs num_train : Z) (jt : bool),
    sample_cifar_image np_log np_exp rng
    = Ok ([("bs", PInt bs); ("num_train", PInt num_train); ("just_train", PBool jt)],
          advance (advance (advance rng)))
    /\ sample_log_int np_log np_exp 8 256 rng = Ok (bs, advance rng)
    /\ (1000 <= num_train <= 50000)%Z.
Proof.
  destruct (sample_linear_int_range 1000 50000 (advance rng)) as (n & Hn & Hrange);
    [lia |].
  assert (Hp : (0 <= 2 # 10 <= 1)%Q) by (split; discriminate).
  pose proof (sample_bool_run (advance (advance rng)) (2 # 10) Hp) as Hjt.
  destruct (sample_log_int_total 8 256 rng) as [bs Hbs]; [lia |].
  exists bs, n. eexists.
  split; [| split; [exact Hbs | exact Hrange]].
  unfold sample_cifar_image. run_sampler. reflexivity.
Qed.

Lemma sample_default_image_shape (rng : RandomState) :
  exists (bs : Z) (jt : bool),
    sample_default_image np_log np_exp rng
    = Ok ([("bs", PInt bs); ("just_train", PBool jt); ("num_train", PNone)],
          advance (advance rng))
    /\ sample_log_int np_log np_exp 8 256 rng = Ok (bs, advance rng).
Proof.
  assert (Hp : (0 <= 2 # 10 <= 1)%Q) by (split; discriminate).
  pose proof (sample_bool_run (advance rng) (2 # 10) Hp) as Hjt.
  destruct (sample_log_int_total 8 256 rng) as [bs Hbs]; [lia |].
  exists bs. eexists. split; [| exact Hbs].
  unfold sample_default_image. run_sampler. reflexivity.
Qed.

Section SampledConfigs.

Hypothesis Hacc : accurate np_log np_exp.

Ltac range_of H low high :=
  let n := fresh "n" in
  let Hn := fresh "Hn" in
  let Hr := fresh "Hr" in
  match type of H with
  | sample_log_int _ _ _ _ ?r = Ok (?v, _) =>
      destruct (sample_log_int_range np_log np_exp Hacc low high r)
        as (n & Hn & Hr); [lia | lia | lia |];
      rewrite H in Hn; injection Hn as <-
  end.

(** A sampled text-classification config has exactly the keys bs,
    num_train, max_token, just_train and patch_length, with a batch size in
    8..512, a patch length in 8..128, the token count 8185, and a train cap
    that is absent when the first draw is at least 1/5 and lies in
    1000..50000 otherwise. *)
Theorem sample_text_classification_config (rng : RandomState) :
  exists (bs pl : Z) (num_train : pyval) (jt : bool) (rng' : RandomState),
    sample_text_classification np_log np_exp rng
    = Ok ([("bs", PInt bs); ("num_train", num_train); ("max_token", PInt 8185);
           ("just_train", PBool jt); ("patch_length", PInt pl)], rng')
    /\ (8 <= bs <= 512)%Z
    /\ (8 <= pl <= 128)%Z
    /\ sampled_cap num_train
    /\ (num_train = PNone <-> (2 # 10 <= peek rng)%Q).
Proof.
  destruct (sample_text_classification_shape rng)
    as (bs & pl & nt & jt & r1 & r2 & rng' & Hrun & Hcap & Hbs & Hpl).
  range_of Hbs 8 512. range_of Hpl 8 128.
  exists bs, pl, nt, jt, rng'. repeat (split; [assumption |]).
  destruct Hcap as [[-> Hu] | (n & -> & Hu & Hn)].
  - split; [now left | tauto].
  - split; [right; eauto |]. split; [discriminate | intros; lra].
Qed.

(** A sampled byte-level config has a patch length in 10..160 and a
    word-level one in 10..256; both have a batch size in 8..512, the same
    four keys and the same optional train cap. *)
Theorem sample_sequence_configs (rng : RandomState) :
  (exists (pl bs : Z) (num_train : pyval) (jt : bool) (rng' : RandomState),
      sample_byte_config np_log np_exp rng
      = Ok ([("patch_length", PInt pl); ("batch_size", PInt bs);
             ("just_train", PBool jt); ("num_train", num_train)], rng')
      /\ (10 <= pl <= 160)%Z /\ (8 <= bs <= 512)%Z /\ sampled_cap num_train)
  /\ (exists (pl bs : Z) (num_train : pyval) (jt : bool) (rng' : RandomState),
         sample_word_dataset_config np_log np_exp rng
         = Ok ([("patch_length", PInt pl); ("batch_size", PInt bs);
                ("just_train", PBool jt); ("num_train", num_train)], rng')
         /\ (10 <= pl <= 256)%Z /\ (8 <= bs <= 512)%Z /\ sampled_cap num_train).
Proof.
  split.
  - destruct (sample_byte_config_shape rng)
      as (pl & bs & nt & jt & r1 & rng' & Hrun & Hcap & Hpl & Hbs).
    range_of Hpl 10 160. range_of Hbs 8 512.
    exists pl, bs, nt, jt, rng'. repeat (split; [assumption |]).
    destruct Hcap as [[-> _] | (n & -> & _ & Hn)]; [now left | right; eauto].
  - destruct (sample_word_dataset_config_shape rng)
      as (pl & bs & nt & jt & r1 & rng' & Hrun & Hcap & Hpl & Hbs).
    range_of Hpl 10 256. range_of Hbs 8 512.
    exists pl, bs, nt, jt, rng'. repeat (split; [assumption |]).
    destruct Hcap as [[-> _] | (n & -> & _ & Hn)]; [now left | right; eauto].
Qed.

(** The three image samplers: mnist and fashion_mnist configs have a batch
    size in 8..512, a train size in 1000..55000, ten classes, and just_train
    true exactly when its draw is below 1/10; cifar configs have a batch size
    in 8..256 and a train size in 1000..50000; the other image configs have a
    batch size in 8..256 and use the full train set. *)
Theorem sample_image_configs (rng : RandomState) :
  (exists (bs num_train : Z) (jt : bool),
      sample_mnist_and_fashion_mnist np_log np_exp rng
      = Ok ([("bs", PInt bs); ("num_train", PInt num_train); ("num_classes", PInt 10);
             ("just_train", PBool jt)], advance (advance (advance rng)))
      /\ (8 <= bs <= 512)%Z /\ (1000 <= num_train <= 55000)%Z
      /\ (jt = true <-> (peek (advance (advance rng)) < 1 # 10)%Q))
  /\ (exists (bs num_train : Z) (jt : bool),
         sample_cifar_image np_log np_exp rng
         = Ok ([("bs", PInt bs); ("num_train", PInt num_train);
                ("just_train", PBool jt)], advance (advance (advance rng)))
         /\ (8 <= bs <= 256)%Z /\ (1000 <= num_train <= 50000)%Z)
  /\ (exists (bs : Z) (jt : bool),
         sample_default_image np_log np_exp rng
         = Ok ([("bs", PInt bs); ("just_train", PBool jt); ("num_train", PNone)],
               advance (advance rng))
         /\ (8 <= bs <= 256)%Z).
Proof.
  split; [| split].
  - destruct (sample_mnist_and_fashion_mnist_shape rng)
      as (bs & nt & jt & Hrun & Hbs & Hnt & Hjt).
    range_of Hbs 8 512. exists bs, nt, jt. tauto.
  - destruct (sample_cifar_image_shape rng) as (bs & nt & jt & Hrun & Hbs & Hnt).
    range_of Hbs 8 256. exists bs, nt, jt. tauto.
  - destruct (sample_default_image_shape rng) as (bs & jt & Hrun & Hbs).
    range_of Hbs 8 256. exists bs, jt. tauto.
Qed.

End SampledConfigs.

End DatasetSamplers.

Section Materializers.

Variable np_log : Q -> Q.
Variable np_exp : Q -> Q.
Variable Pipeline : Type.
Variable get_image_datasets :
  forall (name : string) (batch_size num_train : pyval) (shuffle_buffer : Z)
         (cache_dataset : bool) (augmentation_fn : option (ref -> Heap ref))
         (num_per_valid : Z), Datasets Pipeline.
Variable random_slice_text_data :
  forall (dataset_name : string) (batch_size num_train patch_length : pyval)
         (cache_dataset : bool) (num_per_valid : Z) (shuffle_buffer : option Z),
    Datasets Pipeline.

Local Abbreviation image_registry :=
  (_name_to_image_dataset_map np_log np_exp Pipeline get_image_datasets).
Local Abbreviation text_registry :=
  (_name_to_text_dataset_map np_log np_exp Pipeline random_slice_text_data).
Local Abbreviation char_registry :=
  (_name_to_char_sequence_dataset_map np_log np_exp Pipeline random_slice_text_data).
Local Abbreviation word_registry :=
  (_name_to_word_sequence_dataset_map np_log np_exp Pipeline random_slice_text_data).

Lemma image_entry_cases (name : string) :
  In name (dict_keys image_registry) ->
  exists sampler,
    dict_item name image_registry
    = Ok (sampler, partial_get_image Pipeline get_image_datasets name)
    /\ (sampler = sample_mnist_and_fashion_mnist np_log np_exp
        \/ sampler = sample_cifar_image np_log np_exp
        \/ sampler = sample_default_image np_log np_exp).
Proof.
  intros Hin. cbn in Hin.
  decompose [or] Hin; subst; try contradiction; eexists; split;
    try reflexivity; tauto.
Qed.

Lemma get_image_dataset_call
    (name : string) (config : dict pyval) (aug : option AugmentationConfig)
    (bs num_train : pyval) :
  In name (dict_keys image_registry) ->
  dict_get "bs" config = Some bs ->
  dict_get "num_train" config = Some num_train ->
  get_image_dataset np_log np_exp Pipeline get_image_datasets (name, config, aug)
  = Ok (get_image_datasets name bs num_train 10000 true
          (option_map get_augmentation aug)
          (if String.eqb name "coil100_32x32" then 800
           else if String.eqb name "deep_weeds_32x32" then 2000
           else 5000)).
Proof.
  intros Hin Hbs Hnt.
  destruct (image_entry_cases name Hin) as (sampler & Hentry & _).
  unfold get_image_dataset. cbn [fst snd]. rewrite Hentry. cbn [bindR snd].
  unfold partial_get_image, _get_image, dict_item. rewrite Hbs, Hnt. cbn [bindR].
  destruct aug; cbn [option_map];
    (cbn in Hin; decompose [or] Hin; subst; try contradiction; reflexivity).
Qed.

(** For every key of the image registry and every config with a batch size
    and a train size, [get_image_dataset] calls the provider on that very
    key, with the shuffle buffer 10000 and caching on, the compiled
    augmentation when the config carries one, and 800 validation images for
    coil100_32x32, 2000 for deep_weeds_32x32 and 5000 for every other
    key. *)
Theorem get_image_dataset_provider_call
    (name : string) (config : dict pyval) (aug : option AugmentationConfig)
    (bs num_train : pyval) :
  In name (dict_keys image_registry) ->
  dict_get "bs" config = Some bs ->
  dict_get "num_train" config = Some num_train ->
  get_image_dataset np_log np_exp Pipeline get_image_datasets (name, config, aug)
  = Ok (get_image_datasets name bs num_train 10000 true
          (option_map get_augmentation aug)
          (if String.eqb name "coil100_32x32" then 800
           else if String.eqb name "deep_weeds_32x32" then 2000
           else 5000)).
Proof. apply get_image_dataset_call. Qed.

Lemma sample_augmentation_total (rng : RandomState) :
  exists a rng', sample_augmentation np_log np_exp rng = Ok (a, rng').
Proof. do 2 eexists. reflexivity. Qed.

Lemma image_keys_sorted :
  sorted (dict_keys image_registry)
  = [ "cifar10"; "cifar100"; "coil100_32x32"; "deep_weeds_32x32"; "fashion_mnist";
      "food101_32x32"; "imagenet_resized/16x16"; "imagenet_resized/32x32"; "mnist";
      "sun397_32x32" ].
Proof. reflexivity. Qed.

(** Whatever the source, [sample_image_dataset] returns a key of the
    registry with a config of that key's sampler, attaches an augmentation
    exactly when the second draw is below 3/10, and [get_image_dataset]
    materializes the result without raising. *)
Theorem get_image_dataset_of_sampled (rng : RandomState) :
  exists (name : string) (config : dict pyval) (aug : option AugmentationConfig)
         (rng' : RandomState) (ds : Datasets Pipeline),
    sample_image_dataset np_log np_exp Pipeline get_image_datasets rng
    = Ok ((name, config, aug), rng')
    /\ In name (dict_keys image_registry)
    /\ (aug <> None <-> (peek (advance rng) < 3 # 10)%Q)
    /\ dict_mem "bs" config = true
    /\ dict_mem "num_train" config = true
    /\ dict_mem "just_train" config = true
    /\ get_image_dataset np_log np_exp Pipeline get_image_datasets (name, config, aug)
       = Ok ds.
Proof.
  destruct (choice_sorted_In (dict_keys image_registry) "cifar10"
              (tl (sorted (dict_keys image_registry))) rng)
    as (name & Hname & Hin);
    [reflexivity | cbn; tauto |].
  assert (Hp : (0 <= 3 # 10 <= 1)%Q) by (split; discriminate).
  pose proof (sample_bool_run (advance rng) (3 # 10) Hp) as Hdo.
  destruct (peek_range (advance rng)) as [H0 H1].
  destruct (image_entry_cases name Hin) as (sampler & Hentry & Hsampler).
  assert (Hcfg : forall r, exists config r',
             sampler r = Ok (config, r')
             /\ dict_mem "bs" config = true /\ dict_mem "num_train" config = true
             /\ dict_mem "just_train" config = true).
  { intros r. destruct Hsampler as [-> | [-> | ->]].
    - destruct (sample_mnist_and_fashion_mnist_shape np_log np_exp r)
        as (bs & nt & jt & Hrun & _). rewrite Hrun. eauto 10.
    - destruct (sample_cifar_image_shape np_log np_exp r)
        as (bs & nt & jt & Hrun & _). rewrite Hrun. eauto 10.
    - destruct (sample_default_image_shape np_log np_exp r)
        as (bs & jt & Hrun & _). rewrite Hrun. eauto 10. }
  assert (Hget : forall config aug,
             dict_mem "bs" config = true -> dict_mem "num_train" config = true ->
             exists ds,
               get_image_dataset np_log np_exp Pipeline get_image_datasets
                 (name, config, aug) = Ok ds).
  { intros config aug Hbs Hnt. unfold dict_mem in Hbs, Hnt.
    destruct (dict_get "bs" config) as [bs |] eqn:Ebs; [| discriminate].
    destruct (dict_get "num_train" config) as [nt |] eqn:Ent; [| discriminate].
    rewrite (get_image_dataset_call name config aug bs nt Hin Ebs Ent). eauto. }
  destruct (Qltb (0 + (1 - 0) * peek (advance rng)) (3 # 10)) eqn:Hb.
  - apply Qltb_lt in Hb.
    destruct (sample_augmentation_total (advance (advance rng))) as (a & r3 & Ha).
    destruct (Hcfg r3) as (config & r4 & Hrun & Hbs & Hnt & Hjt).
    destruct (Hget config (Some a) Hbs Hnt) as [ds Hds].
    exists name, config, (Some a), r4, ds.
    split; [| repeat split; try assumption; try discriminate; intros; lra].
    unfold sample_image_dataset, bindS, lift, ret.
    rewrite Hname. cbv beta iota. rewrite Hdo. cbv beta iota.
    rewrite Ha. cbv beta iota. rewrite Hentry. cbn [fst]. now rewrite Hrun.
  - apply not_true_iff_false in Hb. rewrite Qltb_lt in Hb. apply Qnot_lt_le in Hb.
    destruct (Hcfg (advance (advance rng))) as (config & r4 & Hrun & Hbs & Hnt & Hjt).
    destruct (Hget config None Hbs Hnt) as [ds Hds].
    exists name, config, None, r4, ds.
    split; [| repeat split; try assumption; try congruence; intros; lra].
    unfold sample_image_dataset, bindS, lift, ret.
    rewrite Hname. cbv beta iota. rewrite Hdo. cbv beta iota.
    rewrite Hentry. cbn [fst]. now rewrite Hrun.
Qed.

Lemma text_entry_cases (name : string) :
  In name (dict_keys text_registry) ->
  dict_item name text_registry
  = Ok (sample_text_classification np_log np_exp,
        get_text_classification Pipeline random_slice_text_data
          "imdb_reviews/subwords8k").
Proof.
  intros Hin. cbn in Hin. decompose [or] Hin; subst; try contradiction; reflexivity.
Qed.

Lemma char_entry_cases (name : string) :
  In name (dict_keys char_registry) ->
  dict_item name char_registry
  = Ok (sample_byte_config np_log np_exp,
        fun config => get_byte_dataset Pipeline random_slice_text_data config name).
Proof.
  intros Hin. cbn in Hin. decompose [or] Hin; subst; try contradiction; reflexivity.
Qed.

Lemma word_entry_cases (name : string) :
  In name (dict_keys word_registry) ->
  dict_item name word_registry
  = Ok (sample_word_dataset_config np_log np_exp,
        _make_get_word_dataset Pipeline random_slice_text_data name).
Proof.
  intros Hin. cbn in Hin. decompose [or] Hin; subst; try contradiction; reflexivity.
Qed.

(** Whatever the source, [sample_text_dataset] returns a key of the text
    registry with a config of the five text-classification keys, and
    [get_text_dataset] materializes that config without raising: it calls
    the provider with the config's batch size, train cap and patch length,
    always on the dataset "imdb_reviews/subwords8k" and with 3000 validation
    examples. *)
Theorem get_text_dataset_of_sampled (rng : RandomState) :
  exists (name : string) (rng' : RandomState) (bs pl : Z) (num_train : pyval)
         (jt : bool),
    let config := [("bs", PInt bs); ("num_train", num_train); ("max_token", PInt 8185);
                   ("just_train", PBool jt); ("patch_length", PInt pl)] in
    sample_text_dataset np_log np_exp Pipeline random_slice_text_data rng
    = Ok ((name, config), rng')
    /\ In name (dict_keys text_registry)
    /\ get_text_dataset np_log np_exp Pipeline random_slice_text_data (name, config)
       = Ok (random_slice_text_data "imdb_reviews/subwords8k" (PInt bs) num_train
               (PInt pl) true 3000 None).
Proof.
  destruct (choice_sorted_In (dict_keys text_registry)
              "imdb_reviews/subwords8kimdb_reviews/bytes"
              (tl (sorted (dict_keys text_registry))) rng)
    as (name & Hname & Hin);
    [reflexivity | cbn; tauto |].
  destruct (sample_text_classification_shape np_log np_exp (advance rng))
    as (bs & pl & nt & jt & r1 & r2 & rng' & Hrun & _).
  exists name, rng', bs, pl, nt, jt. cbv zeta.
  split; [| split; [exact Hin |]].
  - unfold sample_text_dataset, bindS, lift, ret.
    rewrite Hname. cbv beta iota. rewrite (text_entry_cases name Hin). cbn [fst].
    now rewrite Hrun.
  - unfold get_text_dataset. cbn [fst snd]. rewrite (text_entry_cases name Hin).
    reflexivity.
Qed.

(** Whatever the source, the byte-level and the word-level sample/get pairs
    compose without raising: the sampled key is registered and the provider
    is called on that very key, with 3000 validation examples for bytes and
    10000 for words, the bundle being collapsed to the train pipeline
    exactly when the sampled just_train is true. *)
Theorem get_sequence_datasets_of_sampled (rng : RandomState) :
  (exists (name : string) (rng' : RandomState) (pl bs : Z) (num_train : pyval)
          (jt : bool),
      let config := [("patch_length", PInt pl); ("batch_size", PInt bs);
                     ("just_train", PBool jt); ("num_train", num_train)] in
      sample_char_lm_dataset np_log np_exp Pipeline random_slice_text_data rng
      = Ok ((name, config), rng')
      /\ In name (dict_keys char_registry)
      /\ get_char_lm_dataset np_log np_exp Pipeline random_slice_text_data (name, config)
         = Ok (_make_just_train
                 (random_slice_text_data name (PInt bs) num_train (PInt pl) true 3000
                    (Some 10000))
                 (PBool jt)))
  /\ (exists (name : string) (rng' : RandomState) (pl bs : Z) (num_train : pyval)
             (jt : bool),
         let config := [("patch_length", PInt pl); ("batch_size", PInt bs);
                        ("just_train", PBool jt); ("num_train", num_train)] in
         sample_word_lm_dataset np_log np_exp Pipeline random_slice_text_data rng
         = Ok ((name, config), rng')
         /\ In name (dict_keys word_registry)
         /\ get_word_lm_dataset np_log np_exp Pipeline random_slice_text_data
              (name, config)
            = Ok (_make_just_train
                    (random_slice_text_data name (PInt bs) num_train (PInt pl) true
                       10000 (Some 10000))
                    (PBool jt))).
Proof.
  split.
  - destruct (choice_sorted_In (dict_keys char_registry) "imdb_reviews/bytes"
                (tl (sorted (dict_keys char_registry))) rng)
      as (name & Hname & Hin);
      [reflexivity | cbn; tauto |].
    destruct (sample_byte_config_shape np_log np_exp (advance rng))
      as (pl & bs & nt & jt & r1 & rng' & Hrun & _).
    exists name, rng', pl, bs, nt, jt. cbv zeta.
    split; [| split; [exact Hin |]].
    + unfold sample_char_lm_dataset, bindS, lift, ret.
      rewrite Hname. cbv beta iota. rewrite (char_entry_cases name Hin). cbn [fst].
      now rewrite Hrun.
    + unfold get_char_lm_dataset. rewrite (char_entry_cases name Hin). reflexivity.
  - destruct (choice_sorted_In (dict_keys word_registry) "imdb_reviews/subwords8k"
                (tl (sorted (dict_keys word_registry))) rng)
      as (name & Hname & Hin);
      [reflexivity | cbn; tauto |].
    destruct (sample_word_dataset_config_shape np_log np_exp (advance rng))
      as (pl & bs & nt & jt & r1 & rng' & Hrun & _).
    exists name, rng', pl, bs, nt, jt. cbv zeta.
    split; [| split; [exact Hin |]].
    + unfold sample_word_lm_dataset, bindS, lift, ret.
      rewrite Hname. cbv beta iota. rewrite (word_entry_cases name Hin). cbn [fst].
      now rewrite Hrun.
    + unfold get_word_lm_dataset. rewrite (word_entry_cases name Hin). reflexivity.
Qed.

(** A dataset name outside a registry raises the key error that carries the
    name, and a config of a registered image dataset without a batch size
    raises the key error of "bs": nothing is defaulted. *)
Theorem dataset_unknown_name
    (name : string) (config : dict pyval) (aug : option AugmentationConfig) :
  (~ In name (dict_keys image_registry) ->
   get_image_dataset np_log np_exp Pipeline get_image_datasets (name, config, aug)
   = Raise (KeyError name))
  /\ (~ In name (dict_keys text_registry) ->
      get_text_dataset np_log np_exp Pipeline random_slice_text_data (name, config)
      = Raise (KeyError name))
  /\ (~ In name (dict_keys char_registry) ->
      get_char_lm_dataset np_log np_exp Pipeline random_slice_text_data (name, config)
      = Raise (KeyError name))
  /\ (~ In name (dict_keys word_registry) ->
      get_word_lm_dataset np_log np_exp Pipeline random_slice_text_data (name, config)
      = Raise (KeyError name))
  /\ (In name (dict_keys image_registry) -> dict_get "bs" config = None ->
      get_image_dataset np_log np_exp Pipeline get_image_datasets (name, config, aug)
      = Raise (KeyError "bs")).
Proof.
  repeat split.
  - intros H. unfold get_image_dataset. cbn [fst snd].
    now rewrite (dict_item_missing _ _ H).
  - intros H. unfold get_text_dataset. cbn [fst snd].
    now rewrite (dict_item_missing _ _ H).
  - intros H. unfold get_char_lm_dataset. now rewrite (dict_item_missing _ _ H).
  - intros H. unfold get_word_lm_dataset. now rewrite (dict_item_missing _ _ H).
  - intros Hin Hbs. destruct (image_entry_cases name Hin) as (sampler & Hentry & _).
    unfold get_image_dataset. cbn [fst snd]. rewrite Hentry. cbn [bindR snd].
    unfold partial_get_image, _get_image, dict_item. now rewrite Hbs.
Qed.

End Materializers.

(** * Further properties of the augmentation *)

Lemma dict_set_same {V : Type} (k : string) (v : V) (d : dict V) :
  dict_get k d = Some v -> dict_set k v d = d.
Proof.
  induction d as [| [k' v'] d IH]; cbn; [discriminate |].
  destruct (String.eqb k k') eqn:E.
  - apply String.eqb_eq in E. subst k'. now intros [= ->].
  - intros H. now rewrite IH.
Qed.




(** With no crop, no flip and no colour jitter, [augment] adds one object
    only, the copy, which has the fields of the example unchanged: the copy
    and the example share the image tensor. *)
Theorem get_augmentation_identity
    (cfg : AugmentationConfig) (st : store) (example img : ref)
    (fields : dict ref) (t : tensor) :
  nth_error st example = Some (ODict fields) ->
  dict_get "image" fields = Some img ->
  nth_error st img = Some (OTensor t) ->
  crop_amount cfg = 0 -> flip_left_right cfg = false -> flip_up_down cfg = false ->
  do_color_aug cfg = false ->
  get_augmentation cfg example st
  = (Ok (List.length st), (st ++ [ODict fields])%list)
  /\ augmented cfg t = t.
Proof.
  intros Hexample Himage Himg Hcrop Hlr Hud Hcolor.
  split.
  - unfold get_augmentation.
    unfold bindH at 1, get_field at 1. rewrite Hexample, Himage.
    unfold bindH at 1, get_tensor at 1. rewrite Himg.
    rewrite Hcrop, Hlr, Hud, Hcolor. cbn [truthy Z.eqb negb andb when_].
    unfold bindH at 1, retH at 1. unfold bindH at 1, retH at 1.
    unfold bindH at 1, retH at 1. unfold bindH at 1, retH at 1.
    rewrite (copy_and_set_image st example img fields Hexample).
    now rewrite (dict_set_same _ _ _ Himage).
  - unfold augmented. rewrite Hcrop, Hlr, Hud, Hcolor. reflexivity.
Qed.

(** [augment] never writes to an object of its caller: the store it leaves
    is the store it was given followed by new objects, also when it raises,
    and a record without an image field raises the key error of "image"
    with the store as it was. *)
Theorem get_augmentation_store_only_grows
    (cfg : AugmentationConfig) (st : store) (example : ref) :
  (exists ext : store, snd (get_augmentation cfg example st) = (st ++ ext)%list)
  /\ forall fields : dict ref,
      nth_error st example = Some (ODict fields) ->
      dict_get "image" fields = None ->
      get_augmentation cfg example st = (Raise (KeyError "image"), st).
Proof.
  split; [apply get_augmentation_never_mutates |].
  intros fields Hexample Himage.
  unfold get_augmentation, bindH at 1, get_field at 1.
  now rewrite Hexample, Himage.
Qed.

(** * Further properties of the serializer *)

Lemma ascii_compare_refl (c : ascii) : Ascii.compare c c = Eq.
Proof. unfold Ascii.compare. apply N.compare_refl. Qed.

Lemma string_leb_trans (a b c : string) :
  String.leb a b = true -> String.leb b c = true -> String.leb a c = true.
Proof.
  unfold String.leb. revert b c.
  induction a as [| x a IH]; intros [| y b] [| z c]; cbn; try congruence.
  destruct (Ascii.compare x y) eqn:Exy; try discriminate;
    destruct (Ascii.compare y z) eqn:Eyz; try discriminate.
  - apply Ascii.compare_eq_iff in Exy, Eyz. subst.
    rewrite ascii_compare_refl. apply IH.
  - apply Ascii.compare_eq_iff in Exy. subst. now rewrite Eyz.
  - apply Ascii.compare_eq_iff in Eyz. subst. now rewrite Exy.
  - assert (Hxz : Ascii.compare x z = Lt).
    { unfold Ascii.compare in *. rewrite N.compare_lt_iff in *.
      now apply N.lt_trans with (N_of_ascii y). }
    now rewrite Hxz.
Qed.

Section Sorting.

Context {V : Type}.

Lemma insert_by_key_perm (kv : string * V) (l : list (string * V)) :
  Permutation (insert_by_key kv l) (kv :: l).
Proof.
  induction l as [| kv' l IH]; cbn; [reflexivity |].
  destruct (String.leb (fst kv) (fst kv')); [reflexivity |].
  rewrite IH. apply perm_swap.
Qed.

Lemma sorted_items_perm (l : list (string * V)) : Permutation (sorted_items l) l.
Proof.
  induction l as [| kv l IH]; cbn; [reflexivity |].
  fold (sorted_items l). rewrite insert_by_key_perm. now constructor.
Qed.

Lemma insert_by_key_sorted (kv : string * V) (l : list (string * V)) :
  StronglySorted key_le l -> StronglySorted key_le (insert_by_key kv l).
Proof.
  induction l as [| kv' l IH]; intros Hl; cbn.
  - repeat constructor.
  - inversion Hl as [| ? ? Htail Hhead]; subst.
    destruct (String.leb (fst kv) (fst kv')) eqn:E.
    + constructor; [exact Hl |]. constructor; [exact E |].
      eapply Forall_impl; [| exact Hhead].
      intros b Hb. unfold key_le in *. now apply string_leb_trans with (fst kv').
    + constructor; [now apply IH |].
      apply (Permutation_Forall (Permutation_sym (insert_by_key_perm kv l))).
      constructor; [| exact Hhead].
      unfold key_le. destruct (String.leb_total (fst kv) (fst kv')); congruence.
Qed.

Lemma sorted_items_sorted (l : list (string * V)) :
  StronglySorted key_le (sorted_items l).
Proof.
  induction l as [| kv l IH]; cbn; [constructor |].
  now apply insert_by_key_sorted.
Qed.

(** Two sorted lists of the same items with distinct keys are equal. *)
Lemma sorted_unique (l1 l2 : list (string * V)) :
  StronglySorted key_le l1 -> StronglySorted key_le l2 ->
  Permutation l1 l2 -> NoDup (map fst l1) -> l1 = l2.
Proof.
  revert l2. induction l1 as [| a l1 IH]; intros l2 H1 H2 Hperm Hnodup.
  - apply Permutation_nil in Hperm. now subst.
  - destruct l2 as [| b l2].
    { apply Permutation_sym, Permutation_nil in Hperm. discriminate. }
    inversion H1 as [| ? ? Hs1 Hf1]; subst.
    inversion H2 as [| ? ? Hs2 Hf2]; subst.
    inversion Hnodup as [| ? ? Hnotin Hnd]; subst.
    assert (Hab : a = b).
    { assert (Ha : In a (b :: l2)) by (apply (Permutation_in _ Hperm); now left).
      assert (Hb : In b (a :: l1))
        by (apply (Permutation_in _ (Permutation_sym Hperm)); now left).
      destruct Ha as [-> | Ha]; [reflexivity |].
      destruct Hb as [-> | Hb]; [reflexivity |].
      exfalso. apply Hnotin.
      rewrite Forall_forall in Hf1, Hf2.
      assert (Hkey : fst a = fst b)
        by (apply String.leb_antisym; [apply (Hf1 b Hb) | apply (Hf2 a Ha)]).
      rewrite Hkey. now apply in_map. }
    subst b. f_equal. apply IH; try assumption.
    now apply Permutation_cons_inv with a.
Qed.

Lemma sorted_items_order_free (d1 d2 : list (string * V)) :
  NoDup (map fst d1) -> Permutation d1 d2 -> sorted_items d1 = sorted_items d2.
Proof.
  intros Hnodup Hperm. apply sorted_unique.
  - apply sorted_items_sorted.
  - apply sorted_items_sorted.
  - rewrite !sorted_items_perm. exact Hperm.
  - apply (Permutation_NoDup (l := map fst d1)); [| exact Hnodup].
    apply Permutation_map, Permutation_sym, sorted_items_perm.
Qed.

End Sorting.

(** The text of a mapping does not depend on the order in which its keys
    were inserted: two mappings with the same items and distinct keys have
    the same text, and that text is, between the braces, one line per item
    of the mapping, each item once, the lines following the keys in
    increasing order. *)
Theorem pretty_json_dumps_order_free
    (float_repr : Q -> string) (d1 d2 : dict pyval) :
  NoDup (dict_keys d1) -> Permutation d1 d2 ->
  pretty_json_dumps float_repr (PDict d1) = pretty_json_dumps float_repr (PDict d2)
  /\ exists items : list (string * pyval),
       StronglySorted key_le items
       /\ Permutation items d1
       /\ pretty_json_dumps float_repr (PDict d1)
          = Ok ("{" ++ char newline
                ++ join ("," ++ char newline)
                     (map (fun '(l, n) =>
                             char dquote ++ l ++ char dquote ++ ":"
                             ++ json_dumps float_repr n) items)
                ++ char newline ++ "}").
Proof.
  intros Hnodup Hperm. split.
  - unfold pretty_json_dumps.
    now rewrite (sorted_items_order_free d1 d2 Hnodup Hperm).
  - exists (sorted_items d1).
    split; [apply sorted_items_sorted |]. split; [apply sorted_items_perm |].
    reflexivity.
Qed.

Section AugmentationSampler.

Variable np_log : Q -> Q.
Variable np_exp : Q -> Q.
Hypothesis Hacc : accurate np_log np_exp.

Local Open Scope Q_scope.


Local Close Scope Q_scope.


End AugmentationSampler.

Section SequenceMaterializers.

Variable np_log : Q -> Q.
Variable np_exp : Q -> Q.
Variable Pipeline : Type.
Variable random_slice_text_data :
  forall (dataset_name : string) (batch_size num_train patch_length : pyval)
         (cache_dataset : bool) (num_per_valid : Z) (shuffle_buffer : option Z),
    Datasets Pipeline.

(** For every key of the byte-level registry, and of the word-level one,
    and every config with the four fields, the provider is called on that
    very key, with 3000 validation examples for bytes and 10000 for words;
    the bundle comes back collapsed to its train pipeline when the config's
    just_train is a true value and untouched otherwise. *)
Theorem get_sequence_dataset_provider_call
    (name : string) (config : dict pyval) (bs pl nt jt : pyval) :
  dict_get "batch_size" config = Some bs ->
  dict_get "patch_length" config = Some pl ->
  dict_get "num_train" config = Some nt ->
  dict_get "just_train" config = Some jt ->
  (In name (dict_keys (_name_to_char_sequence_dataset_map np_log np_exp Pipeline
                         random_slice_text_data)) ->
   let provided := random_slice_text_data name bs nt pl true 3000 (Some 10000) in
   get_char_lm_dataset np_log np_exp Pipeline random_slice_text_data (name, config)
   = Ok (if truthy jt
         then mkDatasets (train provided) (train provided) (train provided)
                (train provided)
         else provided))
  /\ (In name (dict_keys (_name_to_word_sequence_dataset_map np_log np_exp Pipeline
                            random_slice_text_data)) ->
      let provided := random_slice_text_data name bs nt pl true 10000 (Some 10000) in
      get_word_lm_dataset np_log np_exp Pipeline random_slice_text_data (name, config)
      = Ok (if truthy jt
            then mkDatasets (train provided) (train provided) (train provided)
                   (train provided)
            else provided)).
Proof.
  intros Hbs Hpl Hnt Hjt. split; intros Hin; cbv zeta.
  - rewrite (get_char_lm_dataset_entry _ _ _ _ _ _ Hin).
    unfold get_byte_dataset, dict_item. rewrite Hbs, Hpl, Hnt, Hjt. reflexivity.
  - rewrite (get_word_lm_dataset_entry _ _ _ _ _ _ Hin).
    unfold _make_get_word_dataset, dict_item. rewrite Hbs, Hpl, Hnt, Hjt. reflexivity.
Qed.

End SequenceMaterializers.

(** * The further properties at concrete inputs *)

Lemma sample_activation_weighted_witness :
  exists lo : Q,
    (0 <= lo /\ lo + (6 # 16) <= 1)%Q
    /\ forall rng : RandomState,
        sample_activation rng = Ok ("relu", advance rng)
        <-> (lo <= peek rng < lo + (6 # 16))%Q.
Proof. exact (sample_activation_weighted "relu" 6 tf_nn_relu eq_refl). Defined.

Lemma catalogue_unknown_name_witness :
  get_initializer lin_log lin_exp ("relu", Some (1 # 2)%Q) = Raise (KeyError "relu")
  /\ get_activation "he_normal" = Raise (KeyError "he_normal").
Proof.
  split.
  - apply (proj1 (catalogue_unknown_name lin_log lin_exp "relu" (Some (1 # 2)%Q))).
    cbn. intuition discriminate.
  - apply (proj2 (catalogue_unknown_name lin_log lin_exp "he_normal" None)).
    cbn. intuition discriminate.
Defined.

Lemma sample_initializer_weighted_witness :
  exists lo : Q,
    (0 <= lo /\ lo + (2 # 13) <= 1)%Q
    /\ forall rng : RandomState,
        ((lo + (1 # 1099511627776) <= peek rng
          < lo + (2 # 13) - (1 # 1099511627776))%Q ->
         exists (arg : option Q) (rng' : RandomState),
           sample_initializer lin_log lin_exp rng = Ok (("he_normal", arg), rng'))
        /\ ((exists (arg : option Q) (rng' : RandomState),
                sample_initializer lin_log lin_exp rng = Ok (("he_normal", arg), rng')) ->
            (lo - (1 # 1099511627776) <= peek rng
             < lo + (2 # 13) + (1 # 1099511627776))%Q).
Proof.
  exact (sample_initializer_weighted lin_log lin_exp "he_normal" 2 None
           (tf_initializers "he_normal") eq_refl).
Defined.

Lemma get_initializer_of_sampled_witness :
  exists (name : string) (arg : option Q) (rng' : RandomState) (i : tf_initializer),
    sample_initializer lin_log lin_exp example_source = Ok ((name, arg), rng')
    /\ In name (dict_keys (_initializer_name_map lin_log lin_exp))
    /\ (arg = None <-> In name shape_based)
    /\ (forall s : Q, arg = Some s -> (0 < s)%Q)
    /\ get_initializer lin_log lin_exp (name, arg) = Ok i.
Proof.
  exact (get_initializer_of_sampled lin_log lin_exp example_source lin_accurate).
Defined.

Lemma get_rnn_core_of_sampled_witness :
  exists (core : string) (args : dict pyval) (rng' : RandomState) (core_dim : Z)
         (m : snt_module),
    sample_rnn_core lin_log lin_exp example_source = Ok ((core, args), rng')
    /\ In core ["vrnn"; "gru"; "lstm"]
    /\ dict_get "core_dim" args = Some (PInt core_dim)
    /\ (32 <= core_dim <= 128)%Z
    /\ get_rnn_core lin_log lin_exp (core, args) = Ok m
    /\ match m with
       | snt_LSTM size inits =>
           core = "lstm" /\ size = PInt core_dim
           /\ exists i, inits = [("w_gates", i)]
                        /\ slot_initializer lin_log lin_exp args "w_gates" i
       | snt_GRU size inits =>
           core = "gru" /\ size = PInt core_dim
           /\ dict_keys inits = gru_init_keys
           /\ forall (key : string) (i : tf_initializer),
               dict_get key inits = Some i ->
               slot_initializer lin_log lin_exp args key i
       | snt_VanillaRNN size inits fn =>
           core = "vrnn" /\ size = PInt core_dim
           /\ (exists i h,
                  inits = [("in_to_hidden", [("w", i)]); ("hidden_to_hidden", [("w", h)])]
                  /\ slot_initializer lin_log lin_exp args "in_to_hidden" i
                  /\ slot_initializer lin_log lin_exp args "hidden_to_hidden" h)
           /\ exists (act : string) (weight : Z),
               dict_get "act_fn" args = Some (PStr act)
               /\ dict_get act _activation_fn_map = Some (weight, fn)
       end.
Proof.
  exact (get_rnn_core_of_sampled lin_log lin_exp lin_accurate example_source).
Defined.

Lemma get_rnn_core_errors_witness :
  get_rnn_core lin_log lin_exp ("rnn", [])
  = Raise (ValueError "No core for name [rnn] found.")
  /\ get_rnn_core lin_log lin_exp ("lstm", [("core_dim", PInt 32)])
     = Raise (KeyError "w_gates")
  /\ get_rnn_core lin_log lin_exp ("gru", [("core_dim", PInt 32)])
     = Raise (KeyError "wh")
  /\ get_rnn_core lin_log lin_exp ("vrnn", [("core_dim", PInt 32)])
     = Raise (KeyError "in_to_hidden").
Proof.
  assert (Hname : ~ In "rnn" ["lstm"; "gru"; "vrnn"]) by (cbn; intuition discriminate).
  destruct (get_rnn_core_errors lin_log lin_exp "rnn" [] Hname) as (Hunknown & _).
  destruct (get_rnn_core_errors lin_log lin_exp "rnn" [("core_dim", PInt 32)] Hname)
    as (_ & Hlstm & Hgru & Hvrnn).
  split; [exact Hunknown |].
  split; [apply Hlstm; reflexivity |].
  split; [apply Hgru; reflexivity | apply Hvrnn; reflexivity].
Defined.

Lemma sample_linear_int_in_range_witness :
  exists n : Z,
    sample_linear_int 1000 55000 example_source = Ok (n, advance example_source)
    /\ (1000 <= n <= 55000)%Z.
Proof. apply (sample_linear_int_in_range 1000 55000 example_source); lia. Defined.

Lemma sample_log_int_in_range_witness :
  exists n : Z,
    sample_log_int lin_log lin_exp 8 512 example_source
    = Ok (n, advance example_source)
    /\ (8 <= n <= 512)%Z.
Proof.
  apply (sample_log_int_in_range lin_log lin_exp 8 512 example_source lin_accurate);
    lia.
Defined.

Lemma sample_log_float_near_range_witness :
  exists s : Q,
    sample_log_float lin_log lin_exp (1 # 10) 10 example_source
    = Ok (s, advance example_source)
    /\ ((1 # 10) - (1 # 10) * (1 # 1048576) <= s <= 10 + 10 * (1 # 1048576))%Q.
Proof.
  apply (sample_log_float_near_range lin_log lin_exp (1 # 10) 10 example_source
           lin_accurate); [reflexivity | discriminate].
Defined.

Lemma sample_text_classification_config_witness :
  exists (bs pl : Z) (num_train : pyval) (jt : bool) (rng' : RandomState),
    sample_text_classification lin_log lin_exp example_source
    = Ok ([("bs", PInt bs); ("num_train", num_train); ("max_token", PInt 8185);
           ("just_train", PBool jt); ("patch_length", PInt pl)], rng')
    /\ (8 <= bs <= 512)%Z
    /\ (8 <= pl <= 128)%Z
    /\ sampled_cap num_train
    /\ (num_train = PNone <-> (2 # 10 <= peek example_source)%Q).
Proof.
  exact (sample_text_classification_config lin_log lin_exp lin_accurate example_source).
Defined.

Lemma sample_sequence_configs_witness :
  (exists (pl bs : Z) (num_train : pyval) (jt : bool) (rng' : RandomState),
      sample_byte_config lin_log lin_exp example_source
      = Ok ([("patch_length", PInt pl); ("batch_size", PInt bs);
             ("just_train", PBool jt); ("num_train", num_train)], rng')
      /\ (10 <= pl <= 160)%Z /\ (8 <= bs <= 512)%Z /\ sampled_cap num_train)
  /\ (exists (pl bs : Z) (num_train : pyval) (jt : bool) (rng' : RandomState),
         sample_word_dataset_config lin_log lin_exp example_source
         = Ok ([("patch_length", PInt pl); ("batch_size", PInt bs);
                ("just_train", PBool jt); ("num_train", num_train)], rng')
         /\ (10 <= pl <= 256)%Z /\ (8 <= bs <= 512)%Z /\ sampled_cap num_train).
Proof.
  exact (sample_sequence_configs lin_log lin_exp lin_accurate example_source).
Defined.

Lemma sample_image_configs_witness :
  exists (bs num_train : Z) (jt : bool),
    sample_mnist_and_fashion_mnist lin_log lin_exp example_source
    = Ok ([("bs", PInt bs); ("num_train", PInt num_train); ("num_classes", PInt 10);
           ("just_train", PBool jt)], advance (advance (advance example_source)))
    /\ (8 <= bs <= 512)%Z /\ (1000 <= num_train <= 55000)%Z
    /\ (jt = true <-> (peek (advance (advance example_source)) < 1 # 10)%Q).
Proof.
  exact (proj1 (sample_image_configs lin_log lin_exp lin_accurate example_source)).
Defined.

(** The sampled configs of the example source, with the linear pair
    standing for [np.log] and [np.exp]. *)
Example sampled_configs_run :
  value_of (sample_mnist_and_fashion_mnist lin_log lin_exp example_source)
  = Ok [("bs", PInt 260); ("num_train", PInt 49600); ("num_classes", PInt 10);
        ("just_train", PBool false)]
  /\ value_of (sample_text_classification lin_log lin_exp example_source)
     = Ok [("bs", PInt 462); ("num_train", PNone); ("max_token", PInt 8185);
           ("just_train", PBool false); ("patch_length", PInt 20)]
  /\ value_of (sample_byte_config lin_log lin_exp example_source)
     = Ok [("patch_length", PInt 145); ("batch_size", PInt 176);
           ("just_train", PBool true); ("num_train", PNone)].
Proof. repeat split. Qed.

Lemma get_image_dataset_provider_call_witness :
  get_image_dataset lin_log lin_exp pipeline recorded_get_image_datasets
    ("coil100_32x32", mnist_just_train, Some full_augmentation)
  = Ok (bundle (GetImageDatasets "coil100_32x32" (PInt 8) (PInt 1000) 10000 true true
                  800)).
Proof.
  apply (get_image_dataset_provider_call lin_log lin_exp pipeline
           recorded_get_image_datasets "coil100_32x32" mnist_just_train
           (Some full_augmentation) (PInt 8) (PInt 1000));
    [cbn; tauto | reflexivity | reflexivity].
Defined.

Lemma dataset_unknown_name_witness :
  get_image_dataset lin_log lin_exp pipeline recorded_get_image_datasets
    ("svhn", mnist_just_train, None)
  = Raise (KeyError "svhn")
  /\ get_text_dataset lin_log lin_exp pipeline recorded_random_slice_text_data
       ("svhn", mnist_just_train)
     = Raise (KeyError "svhn")
  /\ get_char_lm_dataset lin_log lin_exp pipeline recorded_random_slice_text_data
       ("svhn", mnist_just_train)
     = Raise (KeyError "svhn")
  /\ get_word_lm_dataset lin_log lin_exp pipeline recorded_random_slice_text_data
       ("svhn", mnist_just_train)
     = Raise (KeyError "svhn")
  /\ get_image_dataset lin_log lin_exp pipeline recorded_get_image_datasets
       ("mnist", sequence_just_train, None)
     = Raise (KeyError "bs").
Proof.
  destruct (dataset_unknown_name lin_log lin_exp pipeline recorded_get_image_datasets
              recorded_random_slice_text_data "svhn" mnist_just_train None)
    as (Himage & Htext & Hchar & Hword & _).
  destruct (dataset_unknown_name lin_log lin_exp pipeline recorded_get_image_datasets
              recorded_random_slice_text_data "mnist" sequence_just_train None)
    as (_ & _ & _ & _ & Hbs).
  split; [apply Himage; cbn; intros H; decompose [or] H; discriminate || contradiction |].
  split; [apply Htext; cbn; intros H; decompose [or] H; discriminate || contradiction |].
  split; [apply Hchar; cbn; intros H; decompose [or] H; discriminate || contradiction |].
  split; [apply Hword; cbn; intros H; decompose [or] H; discriminate || contradiction |].
  apply Hbs; [cbn; tauto | reflexivity].
Defined.



Lemma get_augmentation_identity_witness :
  get_augmentation no_augmentation 2%nat example_store
  = (Ok 3%nat,
     (example_store ++ [ODict [("image", 0%nat); ("label", 1%nat)]])%list)
  /\ augmented no_augmentation (tf_placeholder 0 32 32 3) = tf_placeholder 0 32 32 3.
Proof.
  apply (get_augmentation_identity no_augmentation example_store 2%nat 0%nat
           [("image", 0%nat); ("label", 1%nat)] (tf_placeholder 0 32 32 3));
    reflexivity.
Defined.

Lemma get_augmentation_store_only_grows_witness :
  (exists ext : store,
      snd (get_augmentation full_augmentation 1%nat imageless_store)
      = (imageless_store ++ ext)%list)
  /\ get_augmentation full_augmentation 1%nat imageless_store
     = (Raise (KeyError "image"), imageless_store).
Proof.
  destruct (get_augmentation_store_only_grows full_augmentation imageless_store 1%nat)
    as (Hgrows & Hraise).
  split; [exact Hgrows |].
  apply (Hraise [("label", 0%nat)]); reflexivity.
Defined.

Lemma pretty_json_dumps_order_free_witness :
  pretty_json_dumps (fun _ => "0.0") (PDict [("b", PInt 2); ("a", PInt 1)])
  = pretty_json_dumps (fun _ => "0.0") (PDict [("a", PInt 1); ("b", PInt 2)])
  /\ exists items : list (string * pyval),
       StronglySorted key_le items
       /\ Permutation items [("b", PInt 2); ("a", PInt 1)]
       /\ pretty_json_dumps (fun _ => "0.0") (PDict [("b", PInt 2); ("a", PInt 1)])
          = Ok ("{" ++ char newline
                ++ join ("," ++ char newline)
                     (map (fun '(l, n) =>
                             char dquote ++ l ++ char dquote ++ ":"
                             ++ json_dumps (fun _ => "0.0") n) items)
                ++ char newline ++ "}").
Proof.
  apply (pretty_json_dumps_order_free (fun _ => "0.0")
           [("b", PInt 2); ("a", PInt 1)] [("a", PInt 1); ("b", PInt 2)]).
  - cbn. repeat constructor; cbn; intuition discriminate.
  - apply perm_swap.
Defined.

Lemma get_sequence_dataset_provider_call_witness :
  get_char_lm_dataset lin_log lin_exp pipeline recorded_random_slice_text_data
    ("lm1b/bytes", sequence_just_train)
  = Ok (mkDatasets
          (RandomSliceTextData "lm1b/bytes" (PInt 8) PNone (PInt 16) true 3000
             (Some 10000), Train)
          (RandomSliceTextData "lm1b/bytes" (PInt 8) PNone (PInt 16) true 3000
             (Some 10000), Train)
          (RandomSliceTextData "lm1b/bytes" (PInt 8) PNone (PInt 16) true 3000
             (Some 10000), Train)
          (RandomSliceTextData "lm1b/bytes" (PInt 8) PNone (PInt 16) true 3000
             (Some 10000), Train)).
Proof.
  apply (get_sequence_dataset_provider_call lin_log lin_exp pipeline
           recorded_random_slice_text_data "lm1b/bytes" sequence_just_train
           (PInt 8) (PInt 16) PNone (PBool true) eq_refl eq_refl eq_refl eq_refl).
  cbn. tauto.
Defined.

